(** * Order workflow of danmaciel/api: customers, products and orders

    A shallow embedding of the order-creation and status-update services
    (internal/service), of the request shapes they validate (internal/dto),
    of the GORM models (internal/model) and of the SQLite repositories
    (internal/repository), followed by the properties of the specification
    that concern them.

    Conventions.
    - Go's [uint] is [N], [int] is [Z], [float64] is the kernel's binary64
      [float] (round-to-nearest-even, as the Go compiler emits on amd64,
      where no multiply-add fusion takes place), [string] is a byte string.
    - A Go result pair [(value, err)] is kept as a pair: a nil pointer is
      [None], a nil error is [None].
    - The database is a record of tables.  The repositories are modelled on a
      reachable database: no I/O failure, foreign keys not enforced (the DSN
      is a bare file path, for which the SQLite driver leaves enforcement
      off).  GORM's bookkeeping columns created_at and updated_at are left
      out: the services only copy them into responses. *)

From Stdlib Require Import Floats ZArith NArith Uint63 Ascii String List Bool Lia.
From stdpp Require Import base option list gmap strings fin_maps sorting.

Local Open Scope Z_scope.

(** ** Go primitives *)

(** [rune(x)] for [x] of type uint: the low 32 bits, read as a signed int32. *)
Definition rune_of_uint (x : N) : Z :=
  let m := Z.of_N x mod 2 ^ 32 in
  if m <? 2 ^ 31 then m else m - 2 ^ 32.

Definition byte (b : Z) : ascii := ascii_of_N (Z.to_N (b mod 256)).

Definition bytes_to_string (bs : list Z) : string :=
  fold_right (fun b s => String (byte b) s) EmptyString bs.

Definition string_to_bytes (s : string) : list Z :=
  map (fun a => Z.of_N (N_of_ascii a)) (list_ascii_of_string s).

Definition RuneError : Z := 0xFFFD.
Definition MaxRune : Z := 0x10FFFF.

(** unicode/utf8: the encoder behind the conversion [string(r)]. *)
Definition encoderune (r : Z) : list Z :=
  let i := r mod 2 ^ 32 in
  if i <=? 0x7F then [r]
  else if i <=? 0x7FF then
    [Z.lor 0xC0 (Z.shiftr r 6); Z.lor 0x80 (Z.land r 0x3F)]
  else
    let invalid := (MaxRune <? i) || ((0xD800 <=? i) && (i <=? 0xDFFF)) in
    let r := if invalid then RuneError else r in
    if invalid || (i <=? 0xFFFF) then
      [Z.lor 0xE0 (Z.shiftr r 12);
       Z.lor 0x80 (Z.land (Z.shiftr r 6) 0x3F);
       Z.lor 0x80 (Z.land r 0x3F)]
    else
      [Z.lor 0xF0 (Z.shiftr r 18);
       Z.lor 0x80 (Z.land (Z.shiftr r 12) 0x3F);
       Z.lor 0x80 (Z.land (Z.shiftr r 6) 0x3F);
       Z.lor 0x80 (Z.land r 0x3F)].

(** [string(r)] for a rune [r]: its UTF-8 encoding, U+FFFD when [r] is not a
    valid code point. *)
Definition string_of_rune (r : Z) : string := bytes_to_string (encoderune r).

(** unicode/utf8, table [first]: for a leading byte, the length of the
    sequence and the accepted range of its second byte; [None] for a byte
    that starts no multi-byte sequence. *)
Definition first (c : Z) : option (nat * Z * Z) :=
  if c <? 0xC2 then None
  else if c <=? 0xDF then Some (2%nat, 0x80, 0xBF)
  else if c =? 0xE0 then Some (3%nat, 0xA0, 0xBF)
  else if c =? 0xED then Some (3%nat, 0x80, 0x9F)
  else if c <=? 0xEF then Some (3%nat, 0x80, 0xBF)
  else if c =? 0xF0 then Some (4%nat, 0x90, 0xBF)
  else if c <=? 0xF3 then Some (4%nat, 0x80, 0xBF)
  else if c =? 0xF4 then Some (4%nat, 0x80, 0x8F)
  else None.

Definition outside (lo hi c : Z) : bool := (c <? lo) || (hi <? c).

(** utf8.RuneCountInString, on the bytes of the string: an invalid or short
    sequence counts as one rune of width one. *)
Fixpoint RuneCount (s : list Z) : nat :=
  match s with
  | [] => 0%nat
  | c :: s1 =>
    S (if c <? 0x80 then RuneCount s1 else
       match first c with
       | None => RuneCount s1
       | Some (size, lo, hi) =>
         if (length s <? size)%nat then RuneCount s1 else
         match s1 with
         | [] => 0%nat
         | c1 :: s2 =>
           if outside lo hi c1 then RuneCount s1
           else if (size =? 2)%nat then RuneCount s2
           else match s2 with
                | [] => 0%nat
                | c2 :: s3 =>
                  if outside 0x80 0xBF c2 then RuneCount s1
                  else if (size =? 3)%nat then RuneCount s3
                  else match s3 with
                       | [] => 0%nat
                       | c3 :: s4 =>
                         if outside 0x80 0xBF c3 then RuneCount s1
                         else RuneCount s4
                       end
                end
         end
       end)
  end.

Definition RuneCountInString (s : string) : nat := RuneCount (string_to_bytes s).

(** [float64(n)] for [n] of type int (64 bits, two's complement). *)
Definition float64_of_int (n : Z) : float :=
  if n =? - 2 ^ 63 then (- 0x1p63)%float
  else if n <? 0 then (- PrimFloat.of_uint63 (Uint63.of_Z (- n)))%float
  else PrimFloat.of_uint63 (Uint63.of_Z n).

(** ** Errors and outcomes *)

(** One entry of validator.ValidationErrors: the field that failed and the
    tag it failed on. *)
Record FieldError := mkFieldError { Field : string; Tag : string }.

(** Error values: the validator's, those made by [errors.New], and those of
    the SQLite driver (a violated constraint). *)
Inductive error :=
| ValidationErrors (errs : list FieldError)
| errors_New (msg : string)
| sqlite_Error (msg : string).

(** What a service call yields: its result, its error, or a run-time panic
    (a nil pointer dereference). *)
Inductive outcome (A : Type) :=
| Ok (a : A)
| Err (e : error)
| Panic.
Arguments Ok {A} a.
Arguments Err {A} e.
Arguments Panic {A}.

(** ** internal/model *)

Record Cliente := mkCliente {
  Cliente_ID : N;
  Cliente_Nome : string;
  Cliente_Email : string;
  Cliente_CPF : string;
  Cliente_Telefone : string;
  Cliente_DeletedAt : option Z
}.

Definition Cliente_zero : Cliente := mkCliente 0 "" "" "" "" None.

Record Produto := mkProduto {
  Produto_ID : N;
  Produto_Nome : string;
  Produto_Descricao : string;
  Produto_Preco : float;
  Produto_Estoque : Z;
  Produto_SKU : string;
  Produto_Categoria : string;
  Produto_Ativo : bool;
  Produto_DeletedAt : option Z
}.

Definition Produto_zero : Produto := mkProduto 0 "" "" 0%float 0 "" "" false None.

(** The field [Pedido] of the Go struct (the owning order, never loaded nor
    written by any repository call) is left out. *)
Record PedidoProduto := mkPedidoProduto {
  PedidoProduto_ID : N;
  PedidoProduto_PedidoID : N;
  PedidoProduto_ProdutoID : N;
  PedidoProduto_Produto : Produto;
  PedidoProduto_Quantidade : Z;
  PedidoProduto_PrecoUnitario : float;
  PedidoProduto_Subtotal : float;
  PedidoProduto_DeletedAt : option Z
}.

(** The pre-save hook: the subtotal is recomputed from quantity and unit
    price each time the line is persisted. *)
Definition BeforeSave (pp : PedidoProduto) : PedidoProduto :=
  mkPedidoProduto
    (PedidoProduto_ID pp) (PedidoProduto_PedidoID pp) (PedidoProduto_ProdutoID pp)
    (PedidoProduto_Produto pp) (PedidoProduto_Quantidade pp)
    (PedidoProduto_PrecoUnitario pp)
    (float64_of_int (PedidoProduto_Quantidade pp) * PedidoProduto_PrecoUnitario pp)%float
    (PedidoProduto_DeletedAt pp).

Record Pedido := mkPedido {
  Pedido_ID : N;
  Pedido_ClienteID : N;
  Pedido_Cliente : Cliente;
  Pedido_Itens : list PedidoProduto;
  Pedido_ValorTotal : float;
  Pedido_Status : string;
  Pedido_DataPedido : Z;
  Pedido_DeletedAt : option Z
}.

(** ** internal/dto *)

Record CreateProdutoRequest := mkCreateProdutoRequest {
  CreateProdutoRequest_Nome : string;
  CreateProdutoRequest_Descricao : string;
  CreateProdutoRequest_Preco : float;
  CreateProdutoRequest_Estoque : Z;
  CreateProdutoRequest_SKU : string;
  CreateProdutoRequest_Categoria : string;
  CreateProdutoRequest_Ativo : option bool
}.

Record UpdateProdutoRequest := mkUpdateProdutoRequest {
  UpdateProdutoRequest_Nome : string;
  UpdateProdutoRequest_Descricao : string;
  UpdateProdutoRequest_Preco : float;
  UpdateProdutoRequest_Estoque : Z;
  UpdateProdutoRequest_SKU : string;
  UpdateProdutoRequest_Categoria : string;
  UpdateProdutoRequest_Ativo : option bool
}.

Record ProdutoResponse := mkProdutoResponse {
  ProdutoResponse_ID : N;
  ProdutoResponse_Nome : string;
  ProdutoResponse_Descricao : string;
  ProdutoResponse_Preco : float;
  ProdutoResponse_Estoque : Z;
  ProdutoResponse_SKU : string;
  ProdutoResponse_Categoria : string;
  ProdutoResponse_Ativo : bool
}.

Record ClienteResponse := mkClienteResponse {
  ClienteResponse_ID : N;
  ClienteResponse_Nome : string;
  ClienteResponse_Email : string;
  ClienteResponse_CPF : string;
  ClienteResponse_Telefone : string
}.

Record CreateItemPedidoRequest := mkCreateItemPedidoRequest {
  CreateItemPedidoRequest_ProdutoID : N;
  CreateItemPedidoRequest_Quantidade : Z
}.

(** [Itens] is a Go slice: [None] is the nil slice (the JSON field absent or
    null), [Some []] the empty one; the validator tells them apart. *)
Record CreatePedidoRequest := mkCreatePedidoRequest {
  CreatePedidoRequest_ClienteID : N;
  CreatePedidoRequest_Itens : option (list CreateItemPedidoRequest);
  CreatePedidoRequest_Status : string
}.

(** The elements a [range] over the slice visits. *)
Definition request_lines (req : CreatePedidoRequest) : list CreateItemPedidoRequest :=
  default [] (CreatePedidoRequest_Itens req).

Record UpdatePedidoRequest := mkUpdatePedidoRequest {
  UpdatePedidoRequest_Status : string
}.

Record ItemPedidoResponse := mkItemPedidoResponse {
  ItemPedidoResponse_ID : N;
  ItemPedidoResponse_ProdutoID : N;
  ItemPedidoResponse_Produto : option ProdutoResponse;
  ItemPedidoResponse_Quantidade : Z;
  ItemPedidoResponse_PrecoUnitario : float;
  ItemPedidoResponse_Subtotal : float
}.

Record PedidoResponse := mkPedidoResponse {
  PedidoResponse_ID : N;
  PedidoResponse_ClienteID : N;
  PedidoResponse_Cliente : option ClienteResponse;
  PedidoResponse_Itens : list ItemPedidoResponse;
  PedidoResponse_ValorTotal : float;
  PedidoResponse_Status : string;
  PedidoResponse_DataPedido : Z
}.

(** ** Request validation (go-playground/validator, as driven by the struct tags)

    The tags of one field are tried in order and the first one that fails is
    reported; every field is visited, so the error lists all failing
    fields. *)

Fixpoint first_failure (field : string) (tags : list (string * bool)) : list FieldError :=
  match tags with
  | [] => []
  | (tag, ok) :: rest =>
    if ok then first_failure field rest else [mkFieldError field tag]
  end.

(** The closed vocabulary of order states, as the [oneof] tags spell it:
    pending, paid, shipped, delivered, cancelled. *)
Definition status_vocabulary : list string :=
  ["pendente"; "pago"; "enviado"; "entregue"; "cancelado"].

Definition oneof (vals : list string) (s : string) : bool :=
  existsb (String.eqb s) vals.

Definition min_runes (n : nat) (s : string) : bool := (n <=? RuneCountInString s)%nat.
Definition max_runes (n : nat) (s : string) : bool := (RuneCountInString s <=? n)%nat.
Definition nonempty (s : string) : bool := negb (String.eqb s "").

(** [omitempty]: the remaining tags are skipped on the zero value. *)
Definition omitempty (is_zero : bool) (errs : list FieldError) : list FieldError :=
  if is_zero then [] else errs.

Definition validate_CreateItemPedidoRequest (it : CreateItemPedidoRequest) : list FieldError :=
  first_failure "ProdutoID"
    [("required", negb (CreateItemPedidoRequest_ProdutoID it =? 0)%N)]
  ++ first_failure "Quantidade"
    [("required", negb (CreateItemPedidoRequest_Quantidade it =? 0));
     ("gt", 0 <? CreateItemPedidoRequest_Quantidade it)].

Definition validate_CreatePedidoRequest (req : CreatePedidoRequest) : list FieldError :=
  first_failure "ClienteID"
    [("required", negb (CreatePedidoRequest_ClienteID req =? 0)%N)]
  ++ match CreatePedidoRequest_Itens req with
     | None => [mkFieldError "Itens" "required"]
     | Some l =>
       if (length l <? 1)%nat then [mkFieldError "Itens" "min"]
       else flat_map validate_CreateItemPedidoRequest l
     end
  ++ omitempty (String.eqb (CreatePedidoRequest_Status req) "")
       (first_failure "Status"
          [("oneof", oneof status_vocabulary (CreatePedidoRequest_Status req))]).

Definition validate_UpdatePedidoRequest (req : UpdatePedidoRequest) : list FieldError :=
  first_failure "Status"
    [("required", nonempty (UpdatePedidoRequest_Status req));
     ("oneof", oneof status_vocabulary (UpdatePedidoRequest_Status req))].

Definition validate_CreateProdutoRequest (req : CreateProdutoRequest) : list FieldError :=
  first_failure "Nome"
    [("required", nonempty (CreateProdutoRequest_Nome req));
     ("min", min_runes 3 (CreateProdutoRequest_Nome req));
     ("max", max_runes 200 (CreateProdutoRequest_Nome req))]
  ++ first_failure "Descricao"
    [("max", max_runes 1000 (CreateProdutoRequest_Descricao req))]
  ++ first_failure "Preco"
    [("required", negb (CreateProdutoRequest_Preco req =? 0)%float);
     ("gt", (0 <? CreateProdutoRequest_Preco req)%float)]
  ++ first_failure "Estoque"
    [("gte", 0 <=? CreateProdutoRequest_Estoque req)]
  ++ first_failure "SKU"
    [("required", nonempty (CreateProdutoRequest_SKU req));
     ("min", min_runes 3 (CreateProdutoRequest_SKU req));
     ("max", max_runes 50 (CreateProdutoRequest_SKU req))]
  ++ first_failure "Categoria"
    [("max", max_runes 100 (CreateProdutoRequest_Categoria req))].

Definition validate_UpdateProdutoRequest (req : UpdateProdutoRequest) : list FieldError :=
  omitempty (String.eqb (UpdateProdutoRequest_Nome req) "")
    (first_failure "Nome"
       [("min", min_runes 3 (UpdateProdutoRequest_Nome req));
        ("max", max_runes 200 (UpdateProdutoRequest_Nome req))])
  ++ first_failure "Descricao"
    [("max", max_runes 1000 (UpdateProdutoRequest_Descricao req))]
  ++ omitempty (UpdateProdutoRequest_Preco req =? 0)%float
    (first_failure "Preco"
       [("gt", (0 <? UpdateProdutoRequest_Preco req)%float)])
  ++ first_failure "Estoque"
    [("gte", 0 <=? UpdateProdutoRequest_Estoque req)]
  ++ omitempty (String.eqb (UpdateProdutoRequest_SKU req) "")
    (first_failure "SKU"
       [("min", min_runes 3 (UpdateProdutoRequest_SKU req));
        ("max", max_runes 50 (UpdateProdutoRequest_SKU req))])
  ++ first_failure "Categoria"
    [("max", max_runes 100 (UpdateProdutoRequest_Categoria req))].

(** [validate.Struct]: nil when no field fails. *)
Definition validate_Struct (errs : list FieldError) : option error :=
  match errs with
  | [] => None
  | _ :: _ => Some (ValidationErrors errs)
  end.

(** ** The database

    The tables clientes, produtos and pedidos are finite maps from the
    primary key to the row; pedido_produtos, whose rows a preload returns in
    rowid order, is the list of its rows in that order.  A row of pedidos
    holds the columns only: its [Pedido_Cliente] and [Pedido_Itens] are
    filled by the preloads of a read.  Deletion is logical: a row whose
    DeletedAt is set stays in its table and is skipped by every read. *)

Record DB := mkDB {
  clientes : gmap N Cliente;
  produtos : gmap N Produto;
  pedidos : gmap N Pedido;
  pedido_produtos : list PedidoProduto
}.

Definition is_null {A : Type} (d : option A) : bool :=
  match d with None => true | Some _ => false end.

(** [First(&row, id)]: the row of that primary key, unless deleted.  The key
    of the table is the id column: [set_id] writes it into the struct. *)
Definition First {A : Type} (deleted_at : A -> option Z) (set_id : N -> A -> A)
  (t : gmap N A) (id : N) : option A :=
  match t !! id with
  | Some row => if is_null (deleted_at row) then Some (set_id id row) else None
  | None => None
  end.

Definition Cliente_with_ID (id : N) (c : Cliente) : Cliente :=
  mkCliente id (Cliente_Nome c) (Cliente_Email c) (Cliente_CPF c) (Cliente_Telefone c)
    (Cliente_DeletedAt c).

Definition Produto_with_ID (id : N) (p : Produto) : Produto :=
  mkProduto id (Produto_Nome p) (Produto_Descricao p) (Produto_Preco p)
    (Produto_Estoque p) (Produto_SKU p) (Produto_Categoria p) (Produto_Ativo p)
    (Produto_DeletedAt p).

Definition Pedido_with_ID (id : N) (p : Pedido) : Pedido :=
  mkPedido id (Pedido_ClienteID p) (Pedido_Cliente p) (Pedido_Itens p)
    (Pedido_ValorTotal p) (Pedido_Status p) (Pedido_DataPedido p) (Pedido_DeletedAt p).

Definition First_Cliente (db : DB) (id : N) : option Cliente :=
  First Cliente_DeletedAt Cliente_with_ID (clientes db) id.

Definition First_Produto (db : DB) (id : N) : option Produto :=
  First Produto_DeletedAt Produto_with_ID (produtos db) id.

Definition First_Pedido (db : DB) (id : N) : option Pedido :=
  First Pedido_DeletedAt Pedido_with_ID (pedidos db) id.

(** The primary key an INSERT assigns (AUTOINCREMENT): one more than the
    largest key of the table, deleted rows included. *)
Definition next_id {A : Type} (t : gmap N A) : N :=
  N.succ (map_fold (fun k _ m => N.max k m) 0%N t).

Definition next_row_id (rows : list PedidoProduto) : N :=
  N.succ (fold_right (fun r m => N.max (PedidoProduto_ID r) m) 0%N rows).

(** *** clienteRepositorySQLite *)

(** A missing customer is reported as [(nil, nil)]. *)
Definition clienteRepositorySQLite_FindByID (id : N) (db : DB) : option Cliente * option error :=
  match First_Cliente db id with
  | None => (None, None)
  | Some cliente => (Some cliente, None)
  end.

(** *** produtoRepositorySQLite *)

Definition produtoRepositorySQLite_FindByID (id : N) (db : DB) : option Produto * option error :=
  match First_Produto db id with
  | None => (None, Some (errors_New "produto not found"))
  | Some produto => (Some produto, None)
  end.

(** The live row of least primary key among those satisfying [f]
    (ORDER BY id LIMIT 1). *)
Definition first_where (f : Produto -> bool) (t : gmap N Produto) : option Produto :=
  snd <$>
  map_fold
    (fun k p acc =>
       if f p && is_null (Produto_DeletedAt p) then
         match acc with
         | Some (j, _) => if (j <? k)%N then acc else Some (k, Produto_with_ID k p)
         | None => Some (k, Produto_with_ID k p)
         end
       else acc)
    None t.

(** A missing SKU is no error: [(nil, nil)]. *)
Definition produtoRepositorySQLite_FindBySKU (sku : string) (db : DB) : option Produto * option error :=
  (first_where (fun p => String.eqb (Produto_SKU p) sku) (produtos db), None).

(** The unique index on sku, which covers deleted rows too: does a row other
    than [id] carry [sku]? *)
Definition sku_taken (id : N) (sku : string) (t : gmap N Produto) : bool :=
  map_fold
    (fun k p acc => acc || (String.eqb (Produto_SKU p) sku && negb (k =? id)%N))
    false t.

(** GORM on INSERT: a field tagged with a default and holding its zero value
    is written as the default, and the struct is updated to match.  For
    [Produto] the tags are [default:0] on Estoque, where it changes nothing,
    and [default:true] on Ativo, where it turns false into true. *)
Definition Produto_defaults (p : Produto) : Produto :=
  mkProduto (Produto_ID p) (Produto_Nome p) (Produto_Descricao p) (Produto_Preco p)
    (Produto_Estoque p) (Produto_SKU p) (Produto_Categoria p)
    (if Produto_Ativo p then Produto_Ativo p else true)
    (Produto_DeletedAt p).

Definition set_produtos (t : gmap N Produto) (db : DB) : DB :=
  mkDB (clientes db) t (pedidos db) (pedido_produtos db).

(** [db.Create(produto)]: the struct comes back with its key and defaults. *)
Definition produtoRepositorySQLite_Create (produto : Produto) (db : DB)
  : Produto * option error * DB :=
  let id := if (Produto_ID produto =? 0)%N then next_id (produtos db) else Produto_ID produto in
  let row := Produto_with_ID id (Produto_defaults produto) in
  if bool_decide (is_Some (produtos db !! id)) then
    (produto, Some (sqlite_Error "UNIQUE constraint failed: produtos.id"), db)
  else if sku_taken id (Produto_SKU produto) (produtos db) then
    (produto, Some (sqlite_Error "UNIQUE constraint failed: produtos.sku"), db)
  else (row, None, set_produtos (<[id := row]> (produtos db)) db).

(** [db.Save(produto)]: every column of the live row is rewritten, zero
    values included; when no live row has that key, Save falls back on an
    INSERT that overwrites on conflict.  The count of rows affected comes
    with the result. *)
Definition Save_Produto (produto : Produto) (db : DB) : Produto * option error * N * DB :=
  if (Produto_ID produto =? 0)%N then
    let '(row, err, db') := produtoRepositorySQLite_Create produto db in
    (row, err, if is_null err then 1%N else 0%N, db')
  else if sku_taken (Produto_ID produto) (Produto_SKU produto) (produtos db) then
    (produto, Some (sqlite_Error "UNIQUE constraint failed: produtos.sku"), 0%N, db)
  else
    let row :=
      match First_Produto db (Produto_ID produto) with
      | Some _ => produto
      | None => Produto_defaults produto
      end in
    (row, None, 1%N, set_produtos (<[Produto_ID produto := row]> (produtos db)) db).

Definition produtoRepositorySQLite_Update (produto : Produto) (db : DB)
  : Produto * option error * DB :=
  let '(row, err, rows_affected, db') := Save_Produto produto db in
  match err with
  | Some e => (row, Some e, db')
  | None =>
    if (rows_affected =? 0)%N then (row, Some (errors_New "produto not found"), db')
    else (row, None, db')
  end.

(** *** pedidoRepositorySQLite *)

Definition set_pedidos (t : gmap N Pedido) (rows : list PedidoProduto) (db : DB) : DB :=
  mkDB (clientes db) (produtos db) t rows.

Definition PedidoProduto_with_Produto (p : Produto) (pp : PedidoProduto) : PedidoProduto :=
  mkPedidoProduto
    (PedidoProduto_ID pp) (PedidoProduto_PedidoID pp) (PedidoProduto_ProdutoID pp)
    p (PedidoProduto_Quantidade pp) (PedidoProduto_PrecoUnitario pp)
    (PedidoProduto_Subtotal pp) (PedidoProduto_DeletedAt pp).

Definition PedidoProduto_with_keys (id pedido_id : N) (pp : PedidoProduto) : PedidoProduto :=
  mkPedidoProduto
    id pedido_id (PedidoProduto_ProdutoID pp)
    (PedidoProduto_Produto pp) (PedidoProduto_Quantidade pp) (PedidoProduto_PrecoUnitario pp)
    (PedidoProduto_Subtotal pp) (PedidoProduto_DeletedAt pp).

Definition Pedido_with_relations (c : Cliente) (itens : list PedidoProduto) (p : Pedido) : Pedido :=
  mkPedido (Pedido_ID p) (Pedido_ClienteID p) c itens (Pedido_ValorTotal p)
    (Pedido_Status p) (Pedido_DataPedido p) (Pedido_DeletedAt p).

(** The columns of a row: the relations are not stored with it. *)
Definition Pedido_columns (id : N) (p : Pedido) : Pedido :=
  mkPedido id (Pedido_ClienteID p) Cliente_zero [] (Pedido_ValorTotal p)
    (Pedido_Status p) (Pedido_DataPedido p) (Pedido_DeletedAt p).

Definition PedidoProduto_columns (pp : PedidoProduto) : PedidoProduto :=
  PedidoProduto_with_Produto Produto_zero pp.

(** [Preload("Itens.Produto")]: the live product of the line, the zero value
    when there is none. *)
Definition preload_Produto (db : DB) (pp : PedidoProduto) : PedidoProduto :=
  PedidoProduto_with_Produto
    (default Produto_zero (First_Produto db (PedidoProduto_ProdutoID pp)))
    pp.

Definition is_line_of (id : N) (pp : PedidoProduto) : bool :=
  (PedidoProduto_PedidoID pp =? id)%N && is_null (PedidoProduto_DeletedAt pp).

(** [Preload("Itens")]: the live lines of the order. *)
Definition preload_Itens (db : DB) (id : N) : list PedidoProduto :=
  map (preload_Produto db) (List.filter (is_line_of id) (pedido_produtos db)).

(** [Preload("Cliente")]. *)
Definition preload_Cliente (db : DB) (cliente_id : N) : Cliente :=
  default Cliente_zero (First_Cliente db cliente_id).

Definition pedidoRepositorySQLite_FindByID (id : N) (db : DB) : option Pedido * option error :=
  match First_Pedido db id with
  | None => (None, Some (errors_New "pedido not found"))
  | Some row =>
    (Some (Pedido_with_relations
             (preload_Cliente db (Pedido_ClienteID row))
             (preload_Itens db id) row),
     None)
  end.

Definition has_row (id : N) (rows : list PedidoProduto) : bool :=
  existsb (fun r => (PedidoProduto_ID r =? id)%N) rows.

(** A row with an explicit key takes its place in rowid order. *)
Fixpoint insert_row (r : PedidoProduto) (rows : list PedidoProduto) : list PedidoProduto :=
  match rows with
  | [] => [r]
  | x :: rest =>
    if (PedidoProduto_ID r <? PedidoProduto_ID x)%N then r :: rows
    else x :: insert_row r rest
  end.

(** Saving the has-many relation Itens of order [pedido_id], one line: the
    pre-save hook runs, the foreign key is set, and the line is inserted, or,
    when a row has its key already, only the foreign key of that row is
    rewritten (ON CONFLICT (id) DO UPDATE SET pedido_id).  The accumulator
    holds the lines as the caller's struct sees them afterwards, and the
    table. *)
Definition save_item (pedido_id : N) (acc : list PedidoProduto * list PedidoProduto)
  (pp : PedidoProduto) : list PedidoProduto * list PedidoProduto :=
  let '(saved, rows) := acc in
  let pp := BeforeSave pp in
  if (PedidoProduto_ID pp =? 0)%N then
    let pp := PedidoProduto_with_keys (next_row_id rows) pedido_id pp in
    (saved ++ [pp], rows ++ [PedidoProduto_columns pp])
  else
    let pp := PedidoProduto_with_keys (PedidoProduto_ID pp) pedido_id pp in
    if has_row (PedidoProduto_ID pp) rows then
      (saved ++ [pp],
       map (fun r => if (PedidoProduto_ID r =? PedidoProduto_ID pp)%N
                     then PedidoProduto_with_keys (PedidoProduto_ID r) pedido_id r
                     else r) rows)
    else (saved ++ [pp], insert_row (PedidoProduto_columns pp) rows).

Definition save_Itens (pedido_id : N) (itens rows : list PedidoProduto)
  : list PedidoProduto * list PedidoProduto :=
  fold_left (save_item pedido_id) itens ([], rows).

(** GORM on INSERT, for [Pedido]: [default:'pendente'] on Status ([default:0]
    on ValorTotal changes nothing). *)
Definition Pedido_defaults (p : Pedido) : Pedido :=
  mkPedido (Pedido_ID p) (Pedido_ClienteID p) (Pedido_Cliente p) (Pedido_Itens p)
    (Pedido_ValorTotal p)
    (if String.eqb (Pedido_Status p) "" then "pendente" else Pedido_Status p)
    (Pedido_DataPedido p) (Pedido_DeletedAt p).

(** [db.Create(pedido)], in one transaction: the row of the order, then its
    lines.  The belongs-to relations (Cliente, and Produto of a line) are
    written by GORM only when they are non-zero and absent from their table;
    the services pass them zero here, and just read from the database to
    [Save] below, so no row of clientes or produtos is written. *)
Definition pedidoRepositorySQLite_Create (pedido : Pedido) (db : DB)
  : Pedido * option error * DB :=
  let id := if (Pedido_ID pedido =? 0)%N then next_id (pedidos db) else Pedido_ID pedido in
  if bool_decide (is_Some (pedidos db !! id)) then
    (pedido, Some (sqlite_Error "UNIQUE constraint failed: pedidos.id"), db)
  else
    let pedido := Pedido_defaults pedido in
    let '(itens, rows) := save_Itens id (Pedido_Itens pedido) (pedido_produtos db) in
    let saved :=
      mkPedido id (Pedido_ClienteID pedido) (Pedido_Cliente pedido) itens
        (Pedido_ValorTotal pedido) (Pedido_Status pedido) (Pedido_DataPedido pedido)
        (Pedido_DeletedAt pedido) in
    (saved, None, set_pedidos (<[id := Pedido_columns id saved]> (pedidos db)) rows db).

(** [db.Save(pedido)]: as for a product, with the lines saved as above. *)
Definition Save_Pedido (pedido : Pedido) (db : DB) : Pedido * option error * N * DB :=
  if (Pedido_ID pedido =? 0)%N then
    let '(saved, err, db') := pedidoRepositorySQLite_Create pedido db in
    (saved, err, if is_null err then 1%N else 0%N, db')
  else
    let id := Pedido_ID pedido in
    let pedido :=
      match First_Pedido db id with
      | Some _ => pedido
      | None => Pedido_defaults pedido
      end in
    let '(itens, rows) := save_Itens id (Pedido_Itens pedido) (pedido_produtos db) in
    let saved :=
      mkPedido id (Pedido_ClienteID pedido) (Pedido_Cliente pedido) itens
        (Pedido_ValorTotal pedido) (Pedido_Status pedido) (Pedido_DataPedido pedido)
        (Pedido_DeletedAt pedido) in
    (saved, None, 1%N, set_pedidos (<[id := Pedido_columns id saved]> (pedidos db)) rows db).

Definition pedidoRepositorySQLite_Update (pedido : Pedido) (db : DB)
  : Pedido * option error * DB :=
  let '(saved, err, rows_affected, db') := Save_Pedido pedido db in
  match err with
  | Some e => (saved, Some e, db')
  | None =>
    if (rows_affected =? 0)%N then (saved, Some (errors_New "pedido not found"), db')
    else (saved, None, db')
  end.

(** ** internal/service: pedidoServiceImpl *)

Definition Cliente_toResponse (c : Cliente) : ClienteResponse :=
  mkClienteResponse (Cliente_ID c) (Cliente_Nome c) (Cliente_Email c) (Cliente_CPF c)
    (Cliente_Telefone c).

Definition produtoServiceImpl_toResponse (p : Produto) : ProdutoResponse :=
  mkProdutoResponse (Produto_ID p) (Produto_Nome p) (Produto_Descricao p) (Produto_Preco p)
    (Produto_Estoque p) (Produto_SKU p) (Produto_Categoria p) (Produto_Ativo p).

Definition item_toResponse (item : PedidoProduto) : ItemPedidoResponse :=
  mkItemPedidoResponse
    (PedidoProduto_ID item) (PedidoProduto_ProdutoID item)
    (if (Produto_ID (PedidoProduto_Produto item) =? 0)%N then None
     else Some (produtoServiceImpl_toResponse (PedidoProduto_Produto item)))
    (PedidoProduto_Quantidade item) (PedidoProduto_PrecoUnitario item)
    (PedidoProduto_Subtotal item).

(** A relation that was not resolved (its key is zero) is left out of the
    response. *)
Definition pedidoServiceImpl_toResponse (pedido : Pedido) : PedidoResponse :=
  mkPedidoResponse
    (Pedido_ID pedido) (Pedido_ClienteID pedido)
    (if (Cliente_ID (Pedido_Cliente pedido) =? 0)%N then None
     else Some (Cliente_toResponse (Pedido_Cliente pedido)))
    (map item_toResponse (Pedido_Itens pedido))
    (Pedido_ValorTotal pedido) (Pedido_Status pedido) (Pedido_DataPedido pedido).

Definition produto_nao_encontrado (id : N) : error :=
  errors_New ("produto " +:+ string_of_rune (rune_of_uint id) +:+ " não encontrado").

Definition estoque_insuficiente (produto : Produto) : error :=
  errors_New ("estoque insuficiente para produto: " +:+ Produto_Nome produto).

Definition produto_inativo (produto : Produto) : error :=
  errors_New ("produto inativo: " +:+ Produto_Nome produto).

Definition cliente_nao_encontrado : error := errors_New "cliente não encontrado".

(** The loop of [Create] over the lines of the request, with its two
    accumulators: the lines built so far and the running total.  The first
    line that fails ends it; the database is only read. *)
Fixpoint Create_itens (db : DB) (reqs : list CreateItemPedidoRequest)
  (itens : list PedidoProduto) (valorTotal : float)
  : outcome (list PedidoProduto * float) :=
  match reqs with
  | [] => Ok (itens, valorTotal)
  | itemReq :: reqs =>
    let '(produto, err) :=
      produtoRepositorySQLite_FindByID (CreateItemPedidoRequest_ProdutoID itemReq) db in
    match err, produto with
    | Some _, _ => Err (produto_nao_encontrado (CreateItemPedidoRequest_ProdutoID itemReq))
    | None, None => Panic
    | None, Some produto =>
      if Produto_Estoque produto <? CreateItemPedidoRequest_Quantidade itemReq then
        Err (estoque_insuficiente produto)
      else if negb (Produto_Ativo produto) then
        Err (produto_inativo produto)
      else
        let subtotal :=
          (float64_of_int (CreateItemPedidoRequest_Quantidade itemReq)
           * Produto_Preco produto)%float in
        let item :=
          mkPedidoProduto 0 0 (CreateItemPedidoRequest_ProdutoID itemReq) Produto_zero
            (CreateItemPedidoRequest_Quantidade itemReq) (Produto_Preco produto)
            subtotal None in
        Create_itens db reqs (itens ++ [item]) (valorTotal + subtotal)%float
    end
  end.

(** [Create], with [now] the reading of the clock. *)
Definition pedidoServiceImpl_Create (now : Z) (req : CreatePedidoRequest) (db : DB)
  : outcome PedidoResponse * DB :=
  match validate_Struct (validate_CreatePedidoRequest req) with
  | Some err => (Err err, db)
  | None =>
    let '(cliente, err) :=
      clienteRepositorySQLite_FindByID (CreatePedidoRequest_ClienteID req) db in
    match err with
    | Some _ => (Err cliente_nao_encontrado, db)
    | None =>
      match Create_itens db (request_lines req) [] 0%float with
      | Err e => (Err e, db)
      | Panic => (Panic, db)
      | Ok (itens, valorTotal) =>
        let status :=
          if String.eqb (CreatePedidoRequest_Status req) "" then "pendente"
          else CreatePedidoRequest_Status req in
        let pedido :=
          mkPedido 0 (CreatePedidoRequest_ClienteID req) Cliente_zero itens valorTotal
            status now None in
        let '(pedido, err, db') := pedidoRepositorySQLite_Create pedido db in
        match err with
        | Some e => (Err e, db')
        | None =>
          let '(pedidoCompleto, err) :=
            pedidoRepositorySQLite_FindByID (Pedido_ID pedido) db' in
          match err, pedidoCompleto, cliente with
          | Some e, _, _ => (Err e, db')
          | None, Some pedidoCompleto, Some cliente =>
            (Ok (pedidoServiceImpl_toResponse
                   (Pedido_with_relations cliente (Pedido_Itens pedidoCompleto)
                      pedidoCompleto)),
             db')
          | None, _, _ => (Panic, db')
          end
        end
      end
    end
  end.

Definition Pedido_with_Status (status : string) (p : Pedido) : Pedido :=
  mkPedido (Pedido_ID p) (Pedido_ClienteID p) (Pedido_Cliente p) (Pedido_Itens p)
    (Pedido_ValorTotal p) status (Pedido_DataPedido p) (Pedido_DeletedAt p).

Definition pedidoServiceImpl_UpdateStatus (id : N) (req : UpdatePedidoRequest) (db : DB)
  : outcome PedidoResponse * DB :=
  match validate_Struct (validate_UpdatePedidoRequest req) with
  | Some err => (Err err, db)
  | None =>
    let '(pedido, err) := pedidoRepositorySQLite_FindByID id db in
    match err, pedido with
    | Some e, _ => (Err e, db)
    | None, None => (Panic, db)
    | None, Some pedido =>
      let pedido := Pedido_with_Status (UpdatePedidoRequest_Status req) pedido in
      let '(pedido, err, db') := pedidoRepositorySQLite_Update pedido db in
      match err with
      | Some e => (Err e, db')
      | None => (Ok (pedidoServiceImpl_toResponse pedido), db')
      end
    end
  end.

(** ** internal/service: produtoServiceImpl *)

Definition produtoServiceImpl_Create (req : CreateProdutoRequest) (db : DB)
  : outcome ProdutoResponse * DB :=
  match validate_Struct (validate_CreateProdutoRequest req) with
  | Some err => (Err err, db)
  | None =>
    let '(existente, err) :=
      produtoRepositorySQLite_FindBySKU (CreateProdutoRequest_SKU req) db in
    match err, existente with
    | Some e, _ => (Err e, db)
    | None, Some _ => (Err (errors_New "SKU já cadastrado"), db)
    | None, None =>
      let ativo :=
        match CreateProdutoRequest_Ativo req with
        | Some b => b
        | None => true
        end in
      let produto :=
        mkProduto 0 (CreateProdutoRequest_Nome req) (CreateProdutoRequest_Descricao req)
          (CreateProdutoRequest_Preco req) (CreateProdutoRequest_Estoque req)
          (CreateProdutoRequest_SKU req) (CreateProdutoRequest_Categoria req) ativo None in
      let '(produto, err, db') := produtoRepositorySQLite_Create produto db in
      match err with
      | Some e => (Err e, db')
      | None => (Ok (produtoServiceImpl_toResponse produto), db')
      end
    end
  end.

(** The field updates of [Update], in the order of the source; the check of
    a new SKU against the other products may end the call. *)
Definition produtoServiceImpl_Update (id : N) (req : UpdateProdutoRequest) (db : DB)
  : outcome ProdutoResponse * DB :=
  match validate_Struct (validate_UpdateProdutoRequest req) with
  | Some err => (Err err, db)
  | None =>
    let '(produto, err) := produtoRepositorySQLite_FindByID id db in
    match err, produto with
    | Some e, _ => (Err e, db)
    | None, None => (Panic, db)
    | None, Some produto =>
      let nome :=
        if nonempty (UpdateProdutoRequest_Nome req) then UpdateProdutoRequest_Nome req
        else Produto_Nome produto in
      let descricao :=
        if nonempty (UpdateProdutoRequest_Descricao req) then UpdateProdutoRequest_Descricao req
        else Produto_Descricao produto in
      let preco :=
        if (0 <? UpdateProdutoRequest_Preco req)%float then UpdateProdutoRequest_Preco req
        else Produto_Preco produto in
      let estoque :=
        if 0 <=? UpdateProdutoRequest_Estoque req then UpdateProdutoRequest_Estoque req
        else Produto_Estoque produto in
      let sku_check :=
        if nonempty (UpdateProdutoRequest_SKU req) then
          let '(existente, err) :=
            produtoRepositorySQLite_FindBySKU (UpdateProdutoRequest_SKU req) db in
          match err, existente with
          | Some e, _ => inl e
          | None, Some existente =>
            if negb (Produto_ID existente =? id)%N
            then inl (errors_New "SKU já cadastrado em outro produto")
            else inr (UpdateProdutoRequest_SKU req)
          | None, None => inr (UpdateProdutoRequest_SKU req)
          end
        else inr (Produto_SKU produto) in
      match sku_check with
      | inl e => (Err e, db)
      | inr sku =>
        let categoria :=
          if nonempty (UpdateProdutoRequest_Categoria req)
          then UpdateProdutoRequest_Categoria req
          else Produto_Categoria produto in
        let ativo :=
          match UpdateProdutoRequest_Ativo req with
          | Some b => b
          | None => Produto_Ativo produto
          end in
        let produto :=
          mkProduto (Produto_ID produto) nome descricao preco estoque sku categoria ativo
            (Produto_DeletedAt produto) in
        let '(produto, err, db') := produtoRepositorySQLite_Update produto db in
        match err with
        | Some e => (Err e, db')
        | None => (Ok (produtoServiceImpl_toResponse produto), db')
        end
      end
    end
  end.

(** ** Vocabulary of the properties *)

(** The product a line refers to, as [Create] finds it. *)
Definition line_product (db : DB) (l : CreateItemPedidoRequest) : option Produto :=
  First_Produto db (CreateItemPedidoRequest_ProdutoID l).

(** A line passes the checks of [Create]: its product resolves, has stock
    for the quantity and is active. *)
Definition line_passes (db : DB) (l : CreateItemPedidoRequest) : bool :=
  match line_product db l with
  | Some p => (CreateItemPedidoRequest_Quantidade l <=? Produto_Estoque p) && Produto_Ativo p
  | None => false
  end.

(** The unit price of the product of a line in [db], and the subtotal of the
    line at that price. *)
Definition unit_price (db : DB) (l : CreateItemPedidoRequest) : float :=
  Produto_Preco (default Produto_zero (line_product db l)).

Definition line_subtotal (db : DB) (l : CreateItemPedidoRequest) : float :=
  (float64_of_int (CreateItemPedidoRequest_Quantidade l) * unit_price db l)%float.

(** The line [Create] builds for a line of the request that passes. *)
Definition new_item (db : DB) (l : CreateItemPedidoRequest) : PedidoProduto :=
  mkPedidoProduto 0 0 (CreateItemPedidoRequest_ProdutoID l) Produto_zero
    (CreateItemPedidoRequest_Quantidade l) (unit_price db l) (line_subtotal db l) None.

(** Summation as the code performs it: from zero, left to right. *)
Definition sum_floats (xs : list float) : float :=
  fold_left (fun acc x => (acc + x)%float) xs 0%float.

(** Every stored line belongs to a stored order. *)
Definition lines_owned (db : DB) : Prop :=
  Forall (fun pp => is_Some (pedidos db !! PedidoProduto_PedidoID pp)) (pedido_produtos db).

(** An order id resolves: its row is stored and not deleted. *)
Definition order_resolves (db : DB) (id : N) : bool :=
  negb (is_null (First_Pedido db id)).

Definition customer_resolves (db : DB) (id : N) : bool :=
  negb (is_null (First_Cliente db id)).

(** The error of a request that fails validation on its field [field]. *)
Definition fails_on (field : string) (e : error) : Prop :=
  match e with
  | ValidationErrors errs => exists tag, In (mkFieldError field tag) errs
  | _ => False
  end.

(** A stored line is the line of the request: it belongs to the order, and
    carries the product, the quantity, the unit price the product had in
    [db] and the subtotal at that price. *)
Definition line_persisted_as (db : DB) (pedido_id : N)
  (l : CreateItemPedidoRequest) (it : PedidoProduto) : Prop :=
  PedidoProduto_PedidoID it = pedido_id
  /\ PedidoProduto_ProdutoID it = CreateItemPedidoRequest_ProdutoID l
  /\ PedidoProduto_Quantidade it = CreateItemPedidoRequest_Quantidade l
  /\ PedidoProduto_PrecoUnitario it = unit_price db l
  /\ PedidoProduto_Subtotal it = line_subtotal db l.

(** Two readings of a line agree on what the order recorded. *)
Definition same_snapshot (old new : PedidoProduto) : Prop :=
  PedidoProduto_ID new = PedidoProduto_ID old
  /\ PedidoProduto_ProdutoID new = PedidoProduto_ProdutoID old
  /\ PedidoProduto_Quantidade new = PedidoProduto_Quantidade old
  /\ PedidoProduto_PrecoUnitario new = PedidoProduto_PrecoUnitario old
  /\ PedidoProduto_Subtotal new = PedidoProduto_Subtotal old.

(** ** Sample data: a shop with one customer and three products, the third
    inactive and out of stock *)

Definition joao : Cliente := mkCliente 1 "Joao Silva" "joao@example.com" "12345678901" "" None.

Definition notebook : Produto :=
  mkProduto 1 "Notebook" "" 0x1.76ffae147ae14p+11 10 "NB-001" "" true None.

Definition mouse : Produto :=
  mkProduto 2 "Mouse" "" 0x1.8ff5c28f5c28fp+6 5 "MS-001" "" true None.

Definition teclado : Produto :=
  mkProduto 3 "Teclado" "" 0x1p+6 0 "TC-001" "" false None.

Definition loja : DB :=
  mkDB (<[1%N := joao]> ∅)
       (<[1%N := notebook]> (<[2%N := mouse]> (<[3%N := teclado]> ∅)))
       ∅ [].

(** Two notebooks and a mouse for customer 1. *)
Definition pedido_joao : CreatePedidoRequest :=
  mkCreatePedidoRequest 1
    (Some [mkCreateItemPedidoRequest 1 2; mkCreateItemPedidoRequest 2 1]) "".

(** The shop after that order. *)
Definition loja_com_pedido : DB := snd (pedidoServiceImpl_Create 100 pedido_joao loja).

(** An inactive keyboard with stock for the order. *)
Definition loja_teclado_em_estoque : DB :=
  set_produtos
    (<[3%N := mkProduto 3 "Teclado" "" 0x1p+6 10 "TC-001" "" false None]> (produtos loja))
    loja.

(** The shop after the order was delivered. *)
Definition loja_entregue : DB :=
  snd (pedidoServiceImpl_UpdateStatus 1 (mkUpdatePedidoRequest "entregue") loja_com_pedido).

(** A new price, 64.00, for a product whose stock stays at 10. *)
Definition novo_preco : UpdateProdutoRequest :=
  mkUpdateProdutoRequest "" "" 0x1p+6 10 "" "" None.

(** ** Reads, counts and deletions of the repositories

    A query without ORDER BY returns the rows of a table in rowid order:
    the rows of a table are listed by increasing key. *)

Definition key_le {A : Type} (x y : N * A) : Prop := (fst x <= fst y)%N.

#[global] Instance key_le_dec {A : Type} : RelDecision (@key_le A) :=
  fun x y => decide (fst x <= fst y)%N.

(** The live rows of a table, each with its key written in. *)
Definition live_rows {A : Type} (deleted_at : A -> option Z) (set_id : N -> A -> A)
  (t : gmap N A) : list A :=
  omap (fun kr => if is_null (deleted_at (snd kr)) then Some (set_id (fst kr) (snd kr)) else None)
    (merge_sort key_le (map_to_list t)).

(** [Model(&row).Count(&count)]: the number of live rows. *)
Definition count_live {A : Type} (deleted_at : A -> option Z) (t : gmap N A) : Z :=
  Z.of_nat (size (filter (fun kr : N * A => deleted_at (snd kr) = None) t)).

(** [Delete(&row, id)] on a model with a DeletedAt field: the live row of
    that key is marked deleted at [now]; the count of rows affected comes
    with the table. *)
Definition soft_delete {A : Type} (deleted_at : A -> option Z) (set_deleted : Z -> A -> A)
  (now : Z) (id : N) (t : gmap N A) : N * gmap N A :=
  match t !! id with
  | Some row =>
    if is_null (deleted_at row) then (1%N, <[id := set_deleted now row]> t) else (0%N, t)
  | None => (0%N, t)
  end.

Definition Pedido_deleted (now : Z) (p : Pedido) : Pedido :=
  mkPedido (Pedido_ID p) (Pedido_ClienteID p) (Pedido_Cliente p) (Pedido_Itens p)
    (Pedido_ValorTotal p) (Pedido_Status p) (Pedido_DataPedido p) (Some now).

Definition Produto_deleted (now : Z) (p : Produto) : Produto :=
  mkProduto (Produto_ID p) (Produto_Nome p) (Produto_Descricao p) (Produto_Preco p)
    (Produto_Estoque p) (Produto_SKU p) (Produto_Categoria p) (Produto_Ativo p) (Some now).

(** *** pedidoRepositorySQLite, continued *)

(** The three preloads of a read, on a row that carries its key. *)
Definition preload_Pedido (db : DB) (row : Pedido) : Pedido :=
  Pedido_with_relations (preload_Cliente db (Pedido_ClienteID row))
    (preload_Itens db (Pedido_ID row)) row.

Definition pedidoRepositorySQLite_FindAll (db : DB) : list Pedido * option error :=
  (map (preload_Pedido db) (live_rows Pedido_DeletedAt Pedido_with_ID (pedidos db)), None).

Definition pedidoRepositorySQLite_FindByClienteID (clienteID : N) (db : DB)
  : list Pedido * option error :=
  (map (preload_Pedido db)
     (List.filter (fun row => (Pedido_ClienteID row =? clienteID)%N)
        (live_rows Pedido_DeletedAt Pedido_with_ID (pedidos db))),
   None).

Definition pedidoRepositorySQLite_FindByStatus (status : string) (db : DB)
  : list Pedido * option error :=
  (map (preload_Pedido db)
     (List.filter (fun row => String.eqb (Pedido_Status row) status)
        (live_rows Pedido_DeletedAt Pedido_with_ID (pedidos db))),
   None).

(** The lines of the order are not touched: the deletion is an UPDATE of
    the row of the order. *)
Definition pedidoRepositorySQLite_Delete (now : Z) (id : N) (db : DB) : option error * DB :=
  let '(rows_affected, t) := soft_delete Pedido_DeletedAt Pedido_deleted now id (pedidos db) in
  if (rows_affected =? 0)%N then (Some (errors_New "pedido not found"), db)
  else (None, set_pedidos t (pedido_produtos db) db).

Definition pedidoRepositorySQLite_Count (db : DB) : Z * option error :=
  (count_live Pedido_DeletedAt (pedidos db), None).

(** *** produtoRepositorySQLite, continued *)

Definition produtoRepositorySQLite_FindAll (db : DB) : list Produto * option error :=
  (live_rows Produto_DeletedAt Produto_with_ID (produtos db), None).

Definition produtoRepositorySQLite_FindByCategoria (categoria : string) (db : DB)
  : list Produto * option error :=
  (List.filter (fun row => String.eqb (Produto_Categoria row) categoria)
     (live_rows Produto_DeletedAt Produto_with_ID (produtos db)),
   None).

Definition produtoRepositorySQLite_Delete (now : Z) (id : N) (db : DB) : option error * DB :=
  let '(rows_affected, t) := soft_delete Produto_DeletedAt Produto_deleted now id (produtos db) in
  if (rows_affected =? 0)%N then (Some (errors_New "produto not found"), db)
  else (None, set_produtos t db).

Definition produtoRepositorySQLite_Count (db : DB) : Z * option error :=
  (count_live Produto_DeletedAt (produtos db), None).

(** ** internal/service, the remaining methods

    A method that only reads returns its outcome; the database is the one
    it was given. *)

Definition pedidoServiceImpl_FindAll (db : DB) : outcome (list PedidoResponse) :=
  let '(pedidos, err) := pedidoRepositorySQLite_FindAll db in
  match err with
  | Some e => Err e
  | None => Ok (map pedidoServiceImpl_toResponse pedidos)
  end.

Definition pedidoServiceImpl_FindByID (id : N) (db : DB) : outcome PedidoResponse :=
  let '(pedido, err) := pedidoRepositorySQLite_FindByID id db in
  match err, pedido with
  | Some e, _ => Err e
  | None, Some pedido => Ok (pedidoServiceImpl_toResponse pedido)
  | None, None => Panic
  end.

Definition pedidoServiceImpl_FindByClienteID (clienteID : N) (db : DB)
  : outcome (list PedidoResponse) :=
  let '(pedidos, err) := pedidoRepositorySQLite_FindByClienteID clienteID db in
  match err with
  | Some e => Err e
  | None => Ok (map pedidoServiceImpl_toResponse pedidos)
  end.

Definition pedidoServiceImpl_FindByStatus (status : string) (db : DB)
  : outcome (list PedidoResponse) :=
  let '(pedidos, err) := pedidoRepositorySQLite_FindByStatus status db in
  match err with
  | Some e => Err e
  | None => Ok (map pedidoServiceImpl_toResponse pedidos)
  end.

(** [Delete] looks the order up first. *)
Definition pedidoServiceImpl_Delete (now : Z) (id : N) (db : DB) : option error * DB :=
  let '(_, err) := pedidoRepositorySQLite_FindByID id db in
  match err with
  | Some e => (Some e, db)
  | None => pedidoRepositorySQLite_Delete now id db
  end.

Definition pedidoServiceImpl_Count (db : DB) : Z * option error :=
  pedidoRepositorySQLite_Count db.

Definition produtoServiceImpl_FindAll (db : DB) : outcome (list ProdutoResponse) :=
  let '(produtos, err) := produtoRepositorySQLite_FindAll db in
  match err with
  | Some e => Err e
  | None => Ok (map produtoServiceImpl_toResponse produtos)
  end.

Definition produtoServiceImpl_FindByID (id : N) (db : DB) : outcome ProdutoResponse :=
  let '(produto, err) := produtoRepositorySQLite_FindByID id db in
  match err, produto with
  | Some e, _ => Err e
  | None, Some produto => Ok (produtoServiceImpl_toResponse produto)
  | None, None => Panic
  end.

Definition produtoServiceImpl_FindByCategoria (categoria : string) (db : DB)
  : outcome (list ProdutoResponse) :=
  let '(produtos, err) := produtoRepositorySQLite_FindByCategoria categoria db in
  match err with
  | Some e => Err e
  | None => Ok (map produtoServiceImpl_toResponse produtos)
  end.

Definition produtoServiceImpl_Delete (now : Z) (id : N) (db : DB) : option error * DB :=
  let '(_, err) := produtoRepositorySQLite_FindByID id db in
  match err with
  | Some e => (Some e, db)
  | None => produtoRepositorySQLite_Delete now id db
  end.

Definition produtoServiceImpl_Count (db : DB) : Z * option error :=
  produtoRepositorySQLite_Count db.

(** *** clienteRepositorySQLite and clienteServiceImpl: lookup, deletion, count

    An error of the service is an error value, or one wrapped by
    [fmt.Errorf] with the verb [%w], kept here as the format and the error
    it wraps. *)

Inductive service_error : Type :=
| plain (e : error)
| Errorf_w (format : string) (e : error).

Definition ErrRecordNotFound : error := errors_New "record not found".

(** [errors.Is(err, gorm.ErrRecordNotFound)], on the errors of this store. *)
Definition is_ErrRecordNotFound (e : error) : bool :=
  match e with
  | errors_New s => String.eqb s "record not found"
  | _ => false
  end.

Definition Cliente_deleted (now : Z) (c : Cliente) : Cliente :=
  mkCliente (Cliente_ID c) (Cliente_Nome c) (Cliente_Email c) (Cliente_CPF c)
    (Cliente_Telefone c) (Some now).

Definition set_clientes (t : gmap N Cliente) (db : DB) : DB :=
  mkDB t (produtos db) (pedidos db) (pedido_produtos db).

Definition clienteRepositorySQLite_Delete (now : Z) (id : N) (db : DB) : option error * DB :=
  let '(rows_affected, t) := soft_delete Cliente_DeletedAt Cliente_deleted now id (clientes db) in
  if (rows_affected =? 0)%N then (Some ErrRecordNotFound, db)
  else (None, set_clientes t db).

Definition clienteRepositorySQLite_Count (db : DB) : Z * option error :=
  (count_live Cliente_DeletedAt (clientes db), None).

Definition clienteServiceImpl_FindByID (id : N) (db : DB)
  : option ClienteResponse * option service_error :=
  let '(cliente, err) := clienteRepositorySQLite_FindByID id db in
  match err, cliente with
  | Some e, _ => (None, Some (Errorf_w "falha ao buscar cliente por ID: %w" e))
  | None, None => (None, Some (plain (errors_New "cliente not found")))
  | None, Some cliente => (Some (Cliente_toResponse cliente), None)
  end.

Definition clienteServiceImpl_Delete (now : Z) (id : N) (db : DB)
  : option service_error * DB :=
  let '(err, db') := clienteRepositorySQLite_Delete now id db in
  match err with
  | Some e =>
    if is_ErrRecordNotFound e then (Some (plain (errors_New "cliente not found")), db')
    else (Some (Errorf_w "falha ao deletar cliente: %w" e), db')
  | None => (None, db')
  end.

Definition clienteServiceImpl_Count (db : DB) : Z * option service_error :=
  let '(count, err) := clienteRepositorySQLite_Count db in
  match err with
  | Some e => (0, Some (Errorf_w "falha ao contar clientes: %w" e))
  | None => (count, None)
  end.

(** ** Vocabulary of the further properties *)

(** The keys of the stored lines are distinct and none is zero. *)
Definition keyed (rows : list PedidoProduto) : Prop :=
  NoDup (map PedidoProduto_ID rows) /\ Forall (fun r => PedidoProduto_ID r <> 0%N) rows.

Definition rows_keyed (db : DB) : Prop := keyed (pedido_produtos db).

(** Every stored order carries a status of the vocabulary. *)
Definition statuses_in_vocabulary (db : DB) : Prop :=
  forall k row, pedidos db !! k = Some row -> oneof status_vocabulary (Pedido_Status row) = true.

(** The subtotal of a line is its quantity times its unit price, as the
    pre-save hook computes it. *)
Definition subtotal_computed (pp : PedidoProduto) : Prop :=
  PedidoProduto_Subtotal pp
  = (float64_of_int (PedidoProduto_Quantidade pp) * PedidoProduto_PrecoUnitario pp)%float.

Definition subtotals_computed (db : DB) : Prop :=
  Forall subtotal_computed (pedido_produtos db).

(** The four together: what the store looks like after any run of the
    services from the empty database. *)
Definition well_formed (db : DB) : Prop :=
  lines_owned db /\ rows_keyed db /\ statuses_in_vocabulary db /\ subtotals_computed db.

(** The error [Create] reports for a line that does not pass: the product
    is missing, or short of stock, or, with stock enough, inactive. *)
Definition line_error (db : DB) (l : CreateItemPedidoRequest) : error :=
  match line_product db l with
  | None => produto_nao_encontrado (CreateItemPedidoRequest_ProdutoID l)
  | Some p =>
    if Produto_Estoque p <? CreateItemPedidoRequest_Quantidade l
    then estoque_insuficiente p else produto_inativo p
  end.

(** * Properties *)

(** ** The store *)

Section Store.
Context {A : Type}.

Lemma next_id_above (t : gmap N A) (k : N) (row : A) :
  t !! k = Some row -> (k < next_id t)%N.
Proof.
  unfold next_id. revert k row.
  apply (map_fold_weak_ind
           (fun (m : N) (t : gmap N A) => forall k row, t !! k = Some row -> (k < N.succ m)%N)).
  - intros k row H. rewrite lookup_empty in H. discriminate.
  - intros i x m r Hi IH k row H.
    destruct (decide (i = k)) as [->|Hne].
    + lia.
    + rewrite lookup_insert_ne in H by done.
      specialize (IH k row H). lia.
Qed.

Lemma next_id_fresh (t : gmap N A) : t !! next_id t = None.
Proof.
  destruct (t !! next_id t) as [row|] eqn:E; [|done].
  apply next_id_above in E. lia.
Qed.

Lemma First_Some (deleted_at : A -> option Z) (set_id : N -> A -> A)
  (t : gmap N A) (id : N) (row : A) :
  First deleted_at set_id t id = Some row ->
  exists stored, t !! id = Some stored /\ deleted_at stored = None /\ row = set_id id stored.
Proof.
  unfold First. destruct (t !! id) as [r|]; [|discriminate].
  destruct (deleted_at r) eqn:E; simpl; [discriminate|].
  intros [= <-]. exists r. done.
Qed.

Lemma First_insert (deleted_at : A -> option Z) (set_id : N -> A -> A)
  (t : gmap N A) (id : N) (row : A) :
  deleted_at row = None ->
  First deleted_at set_id (<[id := row]> t) id = Some (set_id id row).
Proof. intros H. unfold First. rewrite lookup_insert_eq, H. done. Qed.

End Store.

(** ** The loop of [Create] *)

Lemma Create_itens_cons_passes db l reqs itens valorTotal :
  line_passes db l = true ->
  Create_itens db (l :: reqs) itens valorTotal =
  Create_itens db reqs (itens ++ [new_item db l]) (valorTotal + line_subtotal db l)%float.
Proof.
  unfold line_passes, new_item, line_subtotal, unit_price, line_product.
  cbn [Create_itens]. unfold produtoRepositorySQLite_FindByID.
  destruct (First_Produto db (CreateItemPedidoRequest_ProdutoID l)) as [p|]; [|discriminate].
  intros [Hq Ha]%andb_prop. cbn [default].
  apply Z.leb_le in Hq. apply Z.ltb_ge in Hq. rewrite Hq, Ha. reflexivity.
Qed.

Lemma Create_itens_passes db reqs : forall itens valorTotal,
  Forall (fun l => line_passes db l = true) reqs ->
  Create_itens db reqs itens valorTotal =
  Ok (itens ++ map (new_item db) reqs,
      fold_left (fun acc l => (acc + line_subtotal db l)%float) reqs valorTotal).
Proof.
  induction reqs as [|l reqs IH]; intros itens valorTotal H.
  - cbn. rewrite app_nil_r. reflexivity.
  - inversion H as [|? ? Hl Hrest]; subst.
    rewrite Create_itens_cons_passes by exact Hl.
    rewrite IH by exact Hrest.
    cbn [map fold_left]. rewrite <- app_assoc. reflexivity.
Qed.

(** The lines before the first failing one only grow the accumulators. *)
Lemma Create_itens_app db pre rest : forall itens valorTotal,
  Forall (fun l => line_passes db l = true) pre ->
  Create_itens db (pre ++ rest) itens valorTotal =
  Create_itens db rest (itens ++ map (new_item db) pre)
    (fold_left (fun acc l => (acc + line_subtotal db l)%float) pre valorTotal).
Proof.
  induction pre as [|l pre IH]; intros itens valorTotal H.
  - cbn. rewrite app_nil_r. reflexivity.
  - inversion H as [|? ? Hl Hrest]; subst.
    cbn [app]. rewrite Create_itens_cons_passes by exact Hl.
    rewrite IH by exact Hrest.
    cbn [map fold_left]. rewrite <- app_assoc. reflexivity.
Qed.

Lemma Create_itens_not_found db l reqs itens valorTotal :
  line_product db l = None ->
  Create_itens db (l :: reqs) itens valorTotal =
  Err (produto_nao_encontrado (CreateItemPedidoRequest_ProdutoID l)).
Proof.
  unfold line_product. intros H. cbn [Create_itens].
  unfold produtoRepositorySQLite_FindByID. rewrite H. reflexivity.
Qed.

Lemma Create_itens_checks db l p reqs itens valorTotal :
  line_product db l = Some p ->
  line_passes db l = false ->
  Create_itens db (l :: reqs) itens valorTotal =
  Err (if Produto_Estoque p <? CreateItemPedidoRequest_Quantidade l
       then estoque_insuficiente p else produto_inativo p).
Proof.
  unfold line_passes, line_product. intros H. cbn [Create_itens].
  unfold produtoRepositorySQLite_FindByID. rewrite H.
  destruct (Produto_Estoque p <? CreateItemPedidoRequest_Quantidade l) eqn:E.
  - reflexivity.
  - apply Z.ltb_ge in E. apply Z.leb_le in E. rewrite E. cbn [andb].
    intros ->. reflexivity.
Qed.

(** ** [Create]: the request is validated, then the lines are checked *)

Lemma validate_Struct_nil errs : errs = [] -> validate_Struct errs = None.
Proof. intros ->. reflexivity. Qed.

Lemma validate_Struct_In errs fe :
  In fe errs -> validate_Struct errs = Some (ValidationErrors errs).
Proof. destruct errs; [intros []|reflexivity]. Qed.

(** Whether the customer resolves or not, a failure of the loop is the
    failure of [Create], and nothing is written. *)
Lemma Create_fails_in_loop now req db e :
  validate_CreatePedidoRequest req = [] ->
  Create_itens db (request_lines req) [] 0%float = Err e ->
  pedidoServiceImpl_Create now req db = (Err e, db).
Proof.
  intros Hv Hl. unfold pedidoServiceImpl_Create.
  rewrite (validate_Struct_nil _ Hv).
  unfold clienteRepositorySQLite_FindByID.
  destruct (First_Cliente db (CreatePedidoRequest_ClienteID req)); rewrite Hl; reflexivity.
Qed.

Lemma Create_fails_at_line now req db pre l post p :
  validate_CreatePedidoRequest req = [] ->
  request_lines req = pre ++ l :: post ->
  Forall (fun l' => line_passes db l' = true) pre ->
  line_product db l = Some p ->
  line_passes db l = false ->
  pedidoServiceImpl_Create now req db =
  (Err (if Produto_Estoque p <? CreateItemPedidoRequest_Quantidade l
        then estoque_insuficiente p else produto_inativo p), db).
Proof.
  intros Hv Hlines Hpre Hp Hfail.
  apply Create_fails_in_loop; [exact Hv|].
  rewrite Hlines, Create_itens_app by exact Hpre.
  apply Create_itens_checks; assumption.
Qed.

(** C3.  A line whose product has less stock than the quantity asked for,
    all earlier lines passing: [Create] fails with the insufficient-stock
    error naming that product, and the database is the one it started from,
    so no order or line is stored and no stock has changed.  The request is
    one that passed input-shape validation, which precedes these checks. *)
Theorem Create_insufficient_stock now req db pre l post p :
  validate_CreatePedidoRequest req = [] ->
  request_lines req = pre ++ l :: post ->
  Forall (fun l' => line_passes db l' = true) pre ->
  line_product db l = Some p ->
  Produto_Estoque p < CreateItemPedidoRequest_Quantidade l ->
  pedidoServiceImpl_Create now req db = (Err (estoque_insuficiente p), db).
Proof.
  intros Hv Hlines Hpre Hp Hstock.
  assert (Hlt : (Produto_Estoque p <? CreateItemPedidoRequest_Quantidade l) = true)
    by (apply Z.ltb_lt; exact Hstock).
  rewrite (Create_fails_at_line now req db pre l post p Hv Hlines Hpre Hp).
  - rewrite Hlt. reflexivity.
  - unfold line_passes. rewrite Hp.
    apply Z.leb_gt in Hstock. rewrite Hstock. reflexivity.
Qed.

Lemma Create_insufficient_stock_witness :
  pedidoServiceImpl_Create 100
    (mkCreatePedidoRequest 1
       (Some [mkCreateItemPedidoRequest 1 2; mkCreateItemPedidoRequest 2 10]) "")
    loja
  = (Err (errors_New "estoque insuficiente para produto: Mouse"), loja).
Proof.
  apply (Create_insufficient_stock 100 _ loja
           [mkCreateItemPedidoRequest 1 2] (mkCreateItemPedidoRequest 2 10) [] mouse).
  - reflexivity.
  - reflexivity.
  - repeat constructor.
  - reflexivity.
  - cbn. lia.
Defined.

(** C4, as the code has it.  A line whose product is stored but not active,
    all earlier lines passing: nothing is written, and the error names the
    product; it is the inactive-product error when the stock covers the
    quantity asked for, and the insufficient-stock error otherwise, because
    the stock is checked first. *)
Theorem Create_inactive_product now req db pre l post p :
  validate_CreatePedidoRequest req = [] ->
  request_lines req = pre ++ l :: post ->
  Forall (fun l' => line_passes db l' = true) pre ->
  line_product db l = Some p ->
  Produto_Ativo p = false ->
  pedidoServiceImpl_Create now req db =
  (Err (if Produto_Estoque p <? CreateItemPedidoRequest_Quantidade l
        then estoque_insuficiente p else produto_inativo p), db).
Proof.
  intros Hv Hlines Hpre Hp Hinactive.
  apply (Create_fails_at_line now req db pre l post p Hv Hlines Hpre Hp).
  unfold line_passes. rewrite Hp, Hinactive. apply andb_false_r.
Qed.


Lemma Create_inactive_product_witness :
  pedidoServiceImpl_Create 100
    (mkCreatePedidoRequest 1
       (Some [mkCreateItemPedidoRequest 1 2; mkCreateItemPedidoRequest 3 1]) "")
    loja_teclado_em_estoque
  = (Err (errors_New "produto inativo: Teclado"), loja_teclado_em_estoque).
Proof.
  apply (Create_inactive_product 100 _ loja_teclado_em_estoque
           [mkCreateItemPedidoRequest 1 2] (mkCreateItemPedidoRequest 3 1) []
           (mkProduto 3 "Teclado" "" 0x1p+6 10 "TC-001" "" false None)).
  - reflexivity.
  - reflexivity.
  - repeat constructor.
  - reflexivity.
  - reflexivity.
Defined.

(** C4 as stated fails: one unit of the inactive keyboard, which is out of
    stock, is refused for its stock, not for being inactive. *)
Lemma Create_inactive_product_out_of_stock :
  line_product loja (mkCreateItemPedidoRequest 3 1) = Some teclado
  /\ Produto_Ativo teclado = false
  /\ pedidoServiceImpl_Create 100
       (mkCreatePedidoRequest 1 (Some [mkCreateItemPedidoRequest 3 1]) "") loja
     = (Err (errors_New "estoque insuficiente para produto: Teclado"), loja)
  /\ errors_New "estoque insuficiente para produto: Teclado" <> produto_inativo teclado.
Proof.
  split; [reflexivity|]. split; [reflexivity|]. split; [reflexivity|].
  intros H. discriminate H.
Qed.

(** C6.  The message of the missing-product error carries [string(rune(id))],
    not the digits of the id: the ids 2000000 and 3000000, both beyond the
    last code point, give the same error, here on a request for either. *)
Theorem Create_product_not_found_same_error :
  pedidoServiceImpl_Create 100
    (mkCreatePedidoRequest 1 (Some [mkCreateItemPedidoRequest 2000000 1]) "") loja
  = (Err (produto_nao_encontrado 2000000), loja)
  /\ pedidoServiceImpl_Create 100
       (mkCreatePedidoRequest 1 (Some [mkCreateItemPedidoRequest 3000000 1]) "") loja
     = (Err (produto_nao_encontrado 3000000), loja)
  /\ produto_nao_encontrado 2000000 = produto_nao_encontrado 3000000
  /\ produto_nao_encontrado 65 = errors_New "produto A não encontrado".
Proof. repeat split; reflexivity. Qed.

(** What does hold of a line whose product is missing: [Create] fails with
    the error built from the id, and nothing is written. *)
Lemma Create_product_not_found now req db pre l post :
  validate_CreatePedidoRequest req = [] ->
  request_lines req = pre ++ l :: post ->
  Forall (fun l' => line_passes db l' = true) pre ->
  line_product db l = None ->
  pedidoServiceImpl_Create now req db =
  (Err (produto_nao_encontrado (CreateItemPedidoRequest_ProdutoID l)), db).
Proof.
  intros Hv Hlines Hpre Hp.
  apply Create_fails_in_loop; [exact Hv|].
  rewrite Hlines, Create_itens_app by exact Hpre.
  apply Create_itens_not_found; assumption.
Qed.

(** Every id that is no code point is reported as U+FFFD. *)
Lemma string_of_rune_invalid (r : Z) :
  MaxRune < r < 2 ^ 31 -> string_of_rune r = string_of_rune RuneError.
Proof.
  intros [Hlo Hhi]. unfold string_of_rune, encoderune.
  unfold MaxRune in *.
  rewrite (Z.mod_small r) by lia.
  assert (H1 : (r <=? 0x7F) = false) by (apply Z.leb_gt; lia).
  assert (H2 : (r <=? 0x7FF) = false) by (apply Z.leb_gt; lia).
  assert (H3 : (0x10FFFF <? r) = true) by (apply Z.ltb_lt; lia).
  rewrite H1, H2, H3. reflexivity.
Qed.

(** C7.  A request without lines, its slice nil or empty, fails validation
    on the field Itens, and the database is the one it started from: no
    order is stored. *)
Theorem Create_rejects_empty_cart now req db :
  request_lines req = [] ->
  exists e,
    pedidoServiceImpl_Create now req db = (Err e, db) /\ fails_on "Itens" e.
Proof.
  intros Hempty. unfold pedidoServiceImpl_Create.
  assert (Hin : exists tag,
             In (mkFieldError "Itens" tag) (validate_CreatePedidoRequest req)).
  { unfold validate_CreatePedidoRequest. unfold request_lines in Hempty.
    destruct (CreatePedidoRequest_Itens req) as [l|].
    - cbn in Hempty. subst l. exists "min". cbn [length Nat.ltb Nat.leb].
      apply in_or_app. right. left. reflexivity.
    - exists "required". apply in_or_app. right. left. reflexivity. }
  destruct Hin as [tag Hin].
  rewrite (validate_Struct_In _ _ Hin).
  eexists. split; [reflexivity|]. exists tag. exact Hin.
Qed.

Lemma Create_rejects_empty_cart_witness :
  exists e,
    pedidoServiceImpl_Create 100 (mkCreatePedidoRequest 1 (Some []) "") loja = (Err e, loja)
    /\ fails_on "Itens" e.
Proof. apply (Create_rejects_empty_cart 100 _ loja). reflexivity. Defined.

(** ** Persisting an order *)

Lemma save_item_new pedido_id saved rows pp :
  PedidoProduto_ID pp = 0%N ->
  save_item pedido_id (saved, rows) pp =
  let pp' := PedidoProduto_with_keys (next_row_id rows) pedido_id (BeforeSave pp) in
  (saved ++ [pp'], rows ++ [PedidoProduto_columns pp']).
Proof.
  intros H. unfold save_item.
  replace (PedidoProduto_ID (BeforeSave pp)) with 0%N by (symmetry; exact H).
  reflexivity.
Qed.

(** Lines without a key are appended to the table, hook applied and keys
    set, in their order. *)
Lemma save_Itens_new pedido_id items : forall saved rows,
  Forall (fun pp => PedidoProduto_ID pp = 0%N) items ->
  exists news,
    fold_left (save_item pedido_id) items (saved, rows) =
    (saved ++ news, rows ++ map PedidoProduto_columns news)
    /\ Forall2 (fun pp new =>
                  exists k, new = PedidoProduto_with_keys k pedido_id (BeforeSave pp))
         items news.
Proof.
  induction items as [|pp items IH]; intros saved rows H.
  - exists []. cbn. rewrite !app_nil_r. split; [reflexivity|constructor].
  - inversion H as [|? ? Hpp Hrest]; subst.
    cbn [fold_left]. rewrite save_item_new by exact Hpp. cbv zeta.
    destruct (IH (saved ++ [PedidoProduto_with_keys (next_row_id rows) pedido_id (BeforeSave pp)])
                 (rows ++ [PedidoProduto_columns
                             (PedidoProduto_with_keys (next_row_id rows) pedido_id (BeforeSave pp))])
                 Hrest) as (news & Heq & Hall).
    exists (PedidoProduto_with_keys (next_row_id rows) pedido_id (BeforeSave pp) :: news).
    split.
    + rewrite Heq. cbn [map]. rewrite <- !app_assoc. reflexivity.
    + constructor; [eexists; reflexivity|exact Hall].
Qed.

Lemma filter_lines_none db id :
  lines_owned db -> pedidos db !! id = None ->
  List.filter (is_line_of id) (pedido_produtos db) = [].
Proof.
  unfold lines_owned. intros Hown Hid.
  induction Hown as [|pp rows Hpp _ IH]; [reflexivity|].
  cbn [List.filter]. unfold is_line_of at 1.
  destruct (PedidoProduto_PedidoID pp =? id)%N eqn:E.
  - apply N.eqb_eq in E. rewrite E, Hid in Hpp. destruct Hpp as [? [=]].
  - cbn [andb]. exact IH.
Qed.

Lemma filter_lines_all id rows :
  Forall (fun pp => is_line_of id pp = true) rows ->
  List.filter (is_line_of id) rows = rows.
Proof.
  induction 1 as [|pp rows Hpp _ IH]; [reflexivity|].
  cbn [List.filter]. rewrite Hpp, IH. reflexivity.
Qed.

Lemma clienteRepositorySQLite_FindByID_nil_error id db :
  clienteRepositorySQLite_FindByID id db = (First_Cliente db id, None).
Proof.
  unfold clienteRepositorySQLite_FindByID. destruct (First_Cliente db id); reflexivity.
Qed.



Lemma pedidoRepositorySQLite_Create_new pedido db :
  Pedido_ID pedido = 0%N ->
  Forall (fun pp => PedidoProduto_ID pp = 0%N) (Pedido_Itens pedido) ->
  exists news,
    let id := next_id (pedidos db) in
    let saved :=
      mkPedido id (Pedido_ClienteID pedido) (Pedido_Cliente pedido) news
        (Pedido_ValorTotal pedido) (Pedido_Status (Pedido_defaults pedido))
        (Pedido_DataPedido pedido) (Pedido_DeletedAt pedido) in
    pedidoRepositorySQLite_Create pedido db =
    (saved, None,
     set_pedidos (<[id := Pedido_columns id saved]> (pedidos db))
       (pedido_produtos db ++ map PedidoProduto_columns news) db)
    /\ Forall2 (fun pp new => exists k, new = PedidoProduto_with_keys k id (BeforeSave pp))
         (Pedido_Itens pedido) news.
Proof.
  intros Hid Hitens. unfold pedidoRepositorySQLite_Create.
  rewrite Hid. cbn [N.eqb].
  rewrite bool_decide_eq_false_2
    by (rewrite next_id_fresh; intros [? [=]]).
  unfold save_Itens.
  destruct (save_Itens_new (next_id (pedidos db)) (Pedido_Itens pedido) []
              (pedido_produtos db) Hitens) as (news & Heq & Hall).
  exists news. cbv zeta. cbn [Pedido_Itens Pedido_defaults].
  rewrite Heq. cbn [app]. split; [reflexivity|exact Hall].
Qed.

Lemma new_items_have_no_key db reqs :
  Forall (fun pp => PedidoProduto_ID pp = 0%N) (map (new_item db) reqs).
Proof. induction reqs; constructor; [reflexivity|assumption]. Qed.

(** Reading back an order just inserted under a fresh key: its lines are
    the rows appended with it. *)
Lemma FindByID_after_insert db id saved rows :
  lines_owned db ->
  pedidos db !! id = None ->
  Pedido_DeletedAt saved = None ->
  Forall (fun pp => is_line_of id pp = true) rows ->
  let db' :=
    set_pedidos (<[id := Pedido_columns id saved]> (pedidos db))
      (pedido_produtos db ++ rows) db in
  pedidoRepositorySQLite_FindByID id db' =
  (Some (Pedido_with_relations
           (preload_Cliente db' (Pedido_ClienteID saved))
           (map (preload_Produto db') rows)
           (Pedido_with_ID id (Pedido_columns id saved))),
   None).
Proof.
  intros Hown Hfresh Hlive Hrows db'.
  unfold pedidoRepositorySQLite_FindByID, First_Pedido.
  subst db'. cbn [pedidos set_pedidos].
  rewrite First_insert by exact Hlive.
  unfold preload_Itens. cbn [pedido_produtos set_pedidos Pedido_ClienteID Pedido_with_ID Pedido_columns].
  rewrite List.filter_app, (filter_lines_none db id Hown Hfresh),
    (filter_lines_all id rows Hrows).
  reflexivity.
Qed.

Lemma saved_lines_persisted db id reqs news :
  Forall2 (fun pp new => exists k, new = PedidoProduto_with_keys k id (BeforeSave pp))
    (map (new_item db) reqs) news ->
  Forall (fun pp => is_line_of id pp = true) (map PedidoProduto_columns news)
  /\ forall db', Forall2 (line_persisted_as db id) reqs
                   (map (preload_Produto db') (map PedidoProduto_columns news)).
Proof.
  revert news. induction reqs as [|l reqs IH]; intros news H.
  - inversion H; subst. split; [constructor|]. intros db'. constructor.
  - cbn [map] in H. inversion H as [|? new ? news' (k & Hk) Hrest]; subst.
    destruct (IH news' Hrest) as [IH1 IH2].
    split.
    + cbn [map]. constructor; [|exact IH1].
      unfold is_line_of. cbn. rewrite N.eqb_refl. reflexivity.
    + intros db'. cbn [map]. constructor; [|apply IH2].
      repeat split.
Qed.

Lemma Create_persists now req db :
  validate_CreatePedidoRequest req = [] ->
  Forall (fun l => line_passes db l = true) (request_lines req) ->
  lines_owned db ->
  exists pedido db',
    pedidoServiceImpl_Create now req db =
    (match First_Cliente db (CreatePedidoRequest_ClienteID req) with
     | Some cliente =>
       Ok (pedidoServiceImpl_toResponse
             (Pedido_with_relations cliente (Pedido_Itens pedido) pedido))
     | None => Panic
     end, db')
    /\ pedidoRepositorySQLite_FindByID (next_id (pedidos db)) db' = (Some pedido, None)
    /\ Pedido_ID pedido = next_id (pedidos db)
    /\ Pedido_ClienteID pedido = CreatePedidoRequest_ClienteID req
    /\ Pedido_ValorTotal pedido =
       fold_left (fun acc l => (acc + line_subtotal db l)%float) (request_lines req) 0%float
    /\ Forall2 (line_persisted_as db (next_id (pedidos db)))
         (request_lines req) (Pedido_Itens pedido)
    /\ clientes db' = clientes db /\ produtos db' = produtos db
    /\ pedidos db !! next_id (pedidos db) = None.
Proof.
  intros Hv Hpass Hown. unfold pedidoServiceImpl_Create.
  rewrite (validate_Struct_nil _ Hv), clienteRepositorySQLite_FindByID_nil_error.
  rewrite Create_itens_passes by exact Hpass. cbn [app].
  match goal with |- context [pedidoRepositorySQLite_Create ?p db] => set (pedido0 := p) end.
  destruct (pedidoRepositorySQLite_Create_new pedido0 db eq_refl
              (new_items_have_no_key db (request_lines req))) as (news & Hc & Hall).
  cbv zeta in Hc. rewrite Hc. clear Hc.
  cbn [Pedido_Itens pedido0] in Hall.
  destruct (saved_lines_persisted db _ _ _ Hall) as [Hrows Hlines].
  match goal with
  | |- context [set_pedidos (<[ _ := Pedido_columns _ ?s ]> _) _ db] => set (saved := s)
  end.
  pose proof (FindByID_after_insert db (next_id (pedidos db)) saved
                (map PedidoProduto_columns news) Hown (next_id_fresh _) eq_refl Hrows)
    as Hfind.
  cbv zeta in Hfind.
  cbn [Pedido_ID saved]. fold saved. rewrite Hfind.
  eexists. eexists. split.
  { destruct (First_Cliente db (CreatePedidoRequest_ClienteID req)); reflexivity. }
  split; [exact Hfind|].
  split; [reflexivity|]. split; [reflexivity|]. split; [reflexivity|].
  split; [apply Hlines|].
  split; [reflexivity|]. split; [reflexivity|]. apply next_id_fresh.
Qed.

Lemma fold_left_add_map {A : Type} (f : A -> float) (xs : list A) : forall acc,
  fold_left (fun acc x => (acc + f x)%float) xs acc =
  fold_left (fun acc x => (acc + x)%float) (map f xs) acc.
Proof. induction xs as [|x xs IH]; intros acc; [reflexivity|apply IH]. Qed.

Lemma persisted_subtotals db id reqs itens :
  Forall2 (line_persisted_as db id) reqs itens ->
  map PedidoProduto_Subtotal itens = map (line_subtotal db) reqs.
Proof.
  induction 1 as [|l it reqs itens (_ & _ & _ & _ & Hs) _ IH]; [reflexivity|].
  cbn [map]. rewrite Hs, IH. reflexivity.
Qed.

(** C2.  A request that passes validation, for a customer that resolves and
    lines that all pass, against a database whose stored lines belong to
    stored orders: [Create] succeeds, and the order read back from the
    database has one line per line of the request, each with the unit price
    its product had when [Create] was called and the subtotal
    quantity times that price, and a total that is the sum of those
    subtotals, taken from zero in the order of the lines. *)
Theorem Create_total_is_sum_of_subtotals now req db :
  validate_CreatePedidoRequest req = [] ->
  customer_resolves db (CreatePedidoRequest_ClienteID req) = true ->
  Forall (fun l => line_passes db l = true) (request_lines req) ->
  lines_owned db ->
  exists resp db' pedido,
    pedidoServiceImpl_Create now req db = (Ok resp, db')
    /\ pedidoRepositorySQLite_FindByID (PedidoResponse_ID resp) db' = (Some pedido, None)
    /\ Forall2 (line_persisted_as db (PedidoResponse_ID resp))
         (request_lines req) (Pedido_Itens pedido)
    /\ Pedido_ValorTotal pedido = sum_floats (map (line_subtotal db) (request_lines req))
    /\ Pedido_ValorTotal pedido = sum_floats (map PedidoProduto_Subtotal (Pedido_Itens pedido))
    /\ PedidoResponse_ValorTotal resp = Pedido_ValorTotal pedido.
Proof.
  intros Hv Hc Hpass Hown.
  destruct (Create_persists now req db Hv Hpass Hown)
    as (pedido & db' & Hcreate & Hfind & Hid & _ & Htotal & Hlines & _).
  unfold customer_resolves in Hc.
  destruct (First_Cliente db (CreatePedidoRequest_ClienteID req)) as [cliente|];
    [|discriminate].
  eexists. exists db', pedido.
  split; [exact Hcreate|].
  cbn [PedidoResponse_ID PedidoResponse_ValorTotal pedidoServiceImpl_toResponse
       Pedido_ID Pedido_ValorTotal Pedido_with_relations].
  rewrite Hid.
  split; [exact Hfind|]. split; [exact Hlines|].
  assert (Hsum : Pedido_ValorTotal pedido =
                 sum_floats (map (line_subtotal db) (request_lines req))).
  { rewrite Htotal. apply fold_left_add_map. }
  split; [exact Hsum|].
  split; [|reflexivity].
  rewrite (persisted_subtotals _ _ _ _ Hlines). exact Hsum.
Qed.

Lemma Create_total_is_sum_of_subtotals_witness :
  exists resp db' pedido,
    pedidoServiceImpl_Create 200 pedido_joao loja_com_pedido = (Ok resp, db')
    /\ pedidoRepositorySQLite_FindByID (PedidoResponse_ID resp) db' = (Some pedido, None)
    /\ Forall2 (line_persisted_as loja_com_pedido (PedidoResponse_ID resp))
         (request_lines pedido_joao) (Pedido_Itens pedido)
    /\ Pedido_ValorTotal pedido =
       sum_floats (map (line_subtotal loja_com_pedido) (request_lines pedido_joao))
    /\ Pedido_ValorTotal pedido = sum_floats (map PedidoProduto_Subtotal (Pedido_Itens pedido))
    /\ PedidoResponse_ValorTotal resp = Pedido_ValorTotal pedido.
Proof.
  apply (Create_total_is_sum_of_subtotals 200 pedido_joao loja_com_pedido).
  - reflexivity.
  - reflexivity.
  - repeat constructor.
  - unfold lines_owned. vm_compute.
    repeat (constructor; [eexists; reflexivity|]). constructor.
Defined.

(** The order of the sample: 2 x 2999.99 + 1 x 99.99 in binary64. *)
Example pedido_joao_total :
  exists resp, fst (pedidoServiceImpl_Create 100 pedido_joao loja) = Ok resp
               /\ PedidoResponse_ValorTotal resp = 0x1.7d3f851eb851ep+12%float.
Proof. eexists. split; vm_compute; reflexivity. Qed.

(** ** [Create] and a customer that does not resolve *)

(** C1.  Order for customer 999, who is not stored: [Create] does not
    return the customer-not-found error; it stores the order and its two
    lines, then panics on the nil customer. *)
Theorem Create_unknown_customer_is_persisted :
  customer_resolves loja 999 = false
  /\ fst (pedidoServiceImpl_Create 100
            (mkCreatePedidoRequest 999 (CreatePedidoRequest_Itens pedido_joao) "") loja)
     = Panic
  /\ pedidos loja = ∅
  /\ exists pedido,
       pedidoRepositorySQLite_FindByID 1
         (snd (pedidoServiceImpl_Create 100
                 (mkCreatePedidoRequest 999 (CreatePedidoRequest_Itens pedido_joao) "") loja))
       = (Some pedido, None)
       /\ Pedido_ClienteID pedido = 999%N
       /\ length (Pedido_Itens pedido) = 2%nat.
Proof.
  split; [reflexivity|]. split; [reflexivity|]. split; [reflexivity|].
  eexists. split; [vm_compute; reflexivity|]. split; reflexivity.
Qed.

(** The same for every request that reaches the store. *)
Lemma Create_unknown_customer now req db :
  validate_CreatePedidoRequest req = [] ->
  customer_resolves db (CreatePedidoRequest_ClienteID req) = false ->
  Forall (fun l => line_passes db l = true) (request_lines req) ->
  lines_owned db ->
  exists pedido db',
    pedidoServiceImpl_Create now req db = (Panic, db')
    /\ pedidos db !! Pedido_ID pedido = None
    /\ pedidoRepositorySQLite_FindByID (Pedido_ID pedido) db' = (Some pedido, None)
    /\ Pedido_ClienteID pedido = CreatePedidoRequest_ClienteID req
    /\ length (Pedido_Itens pedido) = length (request_lines req).
Proof.
  intros Hv Hc Hpass Hown.
  destruct (Create_persists now req db Hv Hpass Hown)
    as (pedido & db' & Hcreate & Hfind & Hid & Hcid & _ & Hlines & _ & _ & Hfresh).
  unfold customer_resolves in Hc.
  destruct (First_Cliente db (CreatePedidoRequest_ClienteID req)) as [cliente|];
    [discriminate|].
  exists pedido, db'. rewrite Hid.
  split; [exact Hcreate|]. split; [exact Hfresh|]. split; [exact Hfind|].
  split; [exact Hcid|]. symmetry. eapply Forall2_length. exact Hlines.
Qed.

(** ** [UpdateStatus] *)

Lemma vocabulary_nonempty s : oneof status_vocabulary s = true -> nonempty s = true.
Proof.
  unfold nonempty. destruct (String.eqb s "") eqn:E; [|reflexivity].
  apply String.eqb_eq in E. subst s. discriminate.
Qed.

Lemma validate_UpdatePedidoRequest_in req :
  oneof status_vocabulary (UpdatePedidoRequest_Status req) = true ->
  validate_UpdatePedidoRequest req = [].
Proof.
  intros H. unfold validate_UpdatePedidoRequest. cbn [first_failure].
  rewrite (vocabulary_nonempty _ H), H. reflexivity.
Qed.

Lemma validate_UpdatePedidoRequest_out req :
  oneof status_vocabulary (UpdatePedidoRequest_Status req) = false ->
  exists tag, validate_UpdatePedidoRequest req = [mkFieldError "Status" tag].
Proof.
  intros H. unfold validate_UpdatePedidoRequest. cbn [first_failure]. rewrite H.
  destruct (nonempty (UpdatePedidoRequest_Status req)); eexists; reflexivity.
Qed.

Lemma order_resolves_First db id :
  order_resolves db id = true ->
  exists stored,
    pedidos db !! id = Some stored /\ Pedido_DeletedAt stored = None
    /\ First_Pedido db id = Some (Pedido_with_ID id stored).
Proof.
  unfold order_resolves. destruct (First_Pedido db id) as [row|] eqn:E; [|discriminate].
  intros _. apply First_Some in E as (stored & H1 & H2 & ->). exists stored. done.
Qed.

Lemma UpdateStatus_succeeds id req db :
  oneof status_vocabulary (UpdatePedidoRequest_Status req) = true ->
  order_resolves db id = true ->
  exists resp db',
    pedidoServiceImpl_UpdateStatus id req db = (Ok resp, db')
    /\ PedidoResponse_Status resp = UpdatePedidoRequest_Status req
    /\ (id <> 0%N ->
        exists row, First_Pedido db' id = Some row
                    /\ Pedido_Status row = UpdatePedidoRequest_Status req).
Proof.
  intros Hin Hres.
  destruct (order_resolves_First db id Hres) as (stored & Hstored & Hlive & Hfirst).
  unfold pedidoServiceImpl_UpdateStatus.
  rewrite (validate_Struct_nil _ (validate_UpdatePedidoRequest_in req Hin)).
  unfold pedidoRepositorySQLite_FindByID. rewrite Hfirst.
  unfold pedidoRepositorySQLite_Update, Save_Pedido.
  cbn [Pedido_ID Pedido_with_Status Pedido_with_relations Pedido_with_ID].
  destruct (id =? 0)%N eqn:Eid.
  - (* a row under key 0: Save inserts *)
    unfold pedidoRepositorySQLite_Create.
    cbn [Pedido_ID Pedido_with_Status Pedido_with_relations Pedido_with_ID].
    rewrite Eid.
    rewrite bool_decide_eq_false_2 by (rewrite next_id_fresh; intros [? [=]]).
    match goal with |- context [save_Itens ?a ?b ?c] => destruct (save_Itens a b c) end.
    cbn [is_null N.eqb].
    eexists. eexists. split; [reflexivity|]. split.
    + cbn. unfold nonempty in *.
      pose proof (vocabulary_nonempty _ Hin) as Hne. unfold nonempty in Hne.
      apply negb_true_iff in Hne. rewrite Hne. reflexivity.
    + apply N.eqb_eq in Eid. intros Hne. contradiction.
  - rewrite Hfirst.
    match goal with |- context [save_Itens ?a ?b ?c] => destruct (save_Itens a b c) end.
    cbn [N.eqb].
    eexists. eexists. split; [reflexivity|]. split; [reflexivity|].
    intros _. eexists. split.
    + unfold First_Pedido. cbn [pedidos set_pedidos].
      apply First_insert. cbn. exact Hlive.
    + reflexivity.
Qed.

Lemma UpdateStatus_invalid id req db :
  oneof status_vocabulary (UpdatePedidoRequest_Status req) = false ->
  exists tag,
    pedidoServiceImpl_UpdateStatus id req db =
    (Err (ValidationErrors [mkFieldError "Status" tag]), db).
Proof.
  intros H. destruct (validate_UpdatePedidoRequest_out req H) as [tag Htag].
  exists tag. unfold pedidoServiceImpl_UpdateStatus. rewrite Htag. reflexivity.
Qed.

Lemma UpdateStatus_not_found id req db :
  oneof status_vocabulary (UpdatePedidoRequest_Status req) = true ->
  order_resolves db id = false ->
  pedidoServiceImpl_UpdateStatus id req db = (Err (errors_New "pedido not found"), db).
Proof.
  intros Hin Hres. unfold pedidoServiceImpl_UpdateStatus.
  rewrite (validate_Struct_nil _ (validate_UpdatePedidoRequest_in req Hin)).
  unfold pedidoRepositorySQLite_FindByID. unfold order_resolves in Hres.
  destruct (First_Pedido db id); [discriminate|reflexivity].
Qed.

(** C5.  [UpdateStatus] over the closed vocabulary.  A status of the
    vocabulary on an order that resolves: success, whatever the status the
    order had, the response and the stored row carrying the new status.  Any
    other string: the validation error on the field Status, nothing
    written.  A status of the vocabulary on an id that does not resolve:
    the order-not-found error, nothing written. *)
Theorem UpdateStatus_closed_vocabulary id req db :
  (oneof status_vocabulary (UpdatePedidoRequest_Status req) = true ->
   order_resolves db id = true ->
   exists resp db',
     pedidoServiceImpl_UpdateStatus id req db = (Ok resp, db')
     /\ PedidoResponse_Status resp = UpdatePedidoRequest_Status req
     /\ (id <> 0%N ->
         exists row, First_Pedido db' id = Some row
                     /\ Pedido_Status row = UpdatePedidoRequest_Status req))
  /\ (oneof status_vocabulary (UpdatePedidoRequest_Status req) = false ->
      exists e, pedidoServiceImpl_UpdateStatus id req db = (Err e, db)
                /\ fails_on "Status" e)
  /\ (oneof status_vocabulary (UpdatePedidoRequest_Status req) = true ->
      order_resolves db id = false ->
      pedidoServiceImpl_UpdateStatus id req db = (Err (errors_New "pedido not found"), db)).
Proof.
  split; [apply UpdateStatus_succeeds|]. split; [|apply UpdateStatus_not_found].
  intros H. destruct (UpdateStatus_invalid id req db H) as [tag Htag].
  eexists. split; [exact Htag|]. exists tag. left. reflexivity.
Qed.

(** C10.  The status is validated before the order is looked up: a status
    outside the vocabulary on an id that does not resolve yields the
    validation error on Status, which is not the order-not-found error, and
    the database is the one the call started from. *)
Theorem UpdateStatus_validates_before_lookup id req db :
  oneof status_vocabulary (UpdatePedidoRequest_Status req) = false ->
  order_resolves db id = false ->
  exists tag,
    pedidoServiceImpl_UpdateStatus id req db =
    (Err (ValidationErrors [mkFieldError "Status" tag]), db)
    /\ ValidationErrors [mkFieldError "Status" tag] <> errors_New "pedido not found".
Proof.
  intros H _. destruct (UpdateStatus_invalid id req db H) as [tag Htag].
  exists tag. split; [exact Htag|]. discriminate.
Qed.

Lemma UpdateStatus_validates_before_lookup_witness :
  exists tag,
    pedidoServiceImpl_UpdateStatus 9999 (mkUpdatePedidoRequest "pending") loja_com_pedido =
    (Err (ValidationErrors [mkFieldError "Status" tag]), loja_com_pedido)
    /\ ValidationErrors [mkFieldError "Status" tag] <> errors_New "pedido not found".
Proof.
  apply (UpdateStatus_validates_before_lookup 9999 (mkUpdatePedidoRequest "pending")
           loja_com_pedido); reflexivity.
Defined.




Lemma UpdateStatus_closed_vocabulary_witness :
  (exists resp db',
     pedidoServiceImpl_UpdateStatus 1 (mkUpdatePedidoRequest "pendente") loja_entregue
     = (Ok resp, db')
     /\ PedidoResponse_Status resp = "pendente"
     /\ exists row, First_Pedido db' 1 = Some row /\ Pedido_Status row = "pendente")
  /\ (exists e,
        pedidoServiceImpl_UpdateStatus 1 (mkUpdatePedidoRequest "pending") loja_entregue
        = (Err e, loja_entregue)
        /\ fails_on "Status" e)
  /\ pedidoServiceImpl_UpdateStatus 7 (mkUpdatePedidoRequest "pago") loja_entregue
     = (Err (errors_New "pedido not found"), loja_entregue).
Proof.
  destruct (UpdateStatus_closed_vocabulary 1 (mkUpdatePedidoRequest "pendente") loja_entregue)
    as (Hok & _ & _).
  destruct (UpdateStatus_closed_vocabulary 1 (mkUpdatePedidoRequest "pending") loja_entregue)
    as (_ & Hbad & _).
  destruct (UpdateStatus_closed_vocabulary 7 (mkUpdatePedidoRequest "pago") loja_entregue)
    as (_ & _ & Hnone).
  split; [|split].
  - destruct (Hok eq_refl eq_refl) as (resp & db' & H1 & H2 & H3).
    exists resp, db'. split; [exact H1|]. split; [exact H2|].
    apply H3. discriminate.
  - apply Hbad. reflexivity.
  - apply Hnone; reflexivity.
Defined.

(** ** Products *)

Lemma produtoRepositorySQLite_Create_frame produto db :
  let db' := snd (produtoRepositorySQLite_Create produto db) in
  clientes db' = clientes db /\ pedidos db' = pedidos db
  /\ pedido_produtos db' = pedido_produtos db.
Proof.
  unfold produtoRepositorySQLite_Create.
  destruct (bool_decide _); [done|]. destruct (sku_taken _ _ _); done.
Qed.

Lemma produtoRepositorySQLite_Update_frame produto db :
  let db' := snd (produtoRepositorySQLite_Update produto db) in
  clientes db' = clientes db /\ pedidos db' = pedidos db
  /\ pedido_produtos db' = pedido_produtos db.
Proof.
  unfold produtoRepositorySQLite_Update, Save_Produto.
  destruct (Produto_ID produto =? 0)%N.
  - pose proof (produtoRepositorySQLite_Create_frame produto db) as H.
    destruct (produtoRepositorySQLite_Create produto db) as [[row err] db'].
    destruct err; [exact H|]. cbn [is_null]. exact H.
  - destruct (sku_taken _ _ _); [done|]. cbn. done.
Qed.

(** [Update] of a product writes the table produtos only. *)
Lemma produtoServiceImpl_Update_frame id req db :
  let db' := snd (produtoServiceImpl_Update id req db) in
  clientes db' = clientes db /\ pedidos db' = pedidos db
  /\ pedido_produtos db' = pedido_produtos db.
Proof.
  unfold produtoServiceImpl_Update.
  destruct (validate_Struct _); [done|].
  destruct (produtoRepositorySQLite_FindByID id db) as [[produto|] [e|]]; try done.
  match goal with |- context [match ?c with inl _ => _ | inr _ => _ end] => destruct c end;
    [done|].
  match goal with
  | |- context [produtoRepositorySQLite_Update ?p db] =>
    pose proof (produtoRepositorySQLite_Update_frame p db) as H;
    destruct (produtoRepositorySQLite_Update p db) as [[row err] db']
  end.
  destruct err; exact H.
Qed.

Lemma preload_keeps_snapshots db db' rows :
  Forall2 same_snapshot (map (preload_Produto db) rows) (map (preload_Produto db') rows).
Proof. induction rows; constructor; [repeat split|assumption]. Qed.

(** C8.  An order that is stored when a product is updated, price included:
    read back after the update, whatever its outcome, the order has the
    same total and the same lines, each with the unit price, quantity and
    subtotal it had, and the pre-save hook run on such a line yields
    quantity times that unit price again. *)
Theorem product_update_keeps_snapshots id req db oid pedido :
  pedidoRepositorySQLite_FindByID oid db = (Some pedido, None) ->
  exists pedido',
    pedidoRepositorySQLite_FindByID oid (snd (produtoServiceImpl_Update id req db))
    = (Some pedido', None)
    /\ Pedido_ValorTotal pedido' = Pedido_ValorTotal pedido
    /\ Forall2 same_snapshot (Pedido_Itens pedido) (Pedido_Itens pedido')
    /\ Forall2 (fun old new =>
                  PedidoProduto_Subtotal (BeforeSave new) =
                  (float64_of_int (PedidoProduto_Quantidade old)
                   * PedidoProduto_PrecoUnitario old)%float)
         (Pedido_Itens pedido) (Pedido_Itens pedido').
Proof.
  destruct (produtoServiceImpl_Update_frame id req db) as (_ & Hp & Hl).
  set (db' := snd (produtoServiceImpl_Update id req db)) in *.
  unfold pedidoRepositorySQLite_FindByID, First_Pedido, preload_Itens.
  rewrite Hp, Hl.
  destruct (First Pedido_DeletedAt Pedido_with_ID (pedidos db) oid) as [row|];
    [|discriminate].
  intros [= <-]. eexists. split; [reflexivity|]. split; [reflexivity|].
  cbn [Pedido_Itens Pedido_with_relations]. split.
  - apply preload_keeps_snapshots.
  - eapply Forall2_impl; [apply (preload_keeps_snapshots db db')|].
    intros old new (_ & _ & Hq & Hu & _). cbn. rewrite Hq, Hu. reflexivity.
Qed.

Lemma product_update_keeps_snapshots_witness :
  exists pedido pedido',
    pedidoRepositorySQLite_FindByID 1 loja_com_pedido = (Some pedido, None)
    /\ pedidoRepositorySQLite_FindByID 1
         (snd (produtoServiceImpl_Update 1 novo_preco loja_com_pedido))
       = (Some pedido', None)
    /\ Pedido_ValorTotal pedido' = Pedido_ValorTotal pedido
    /\ Forall2 same_snapshot (Pedido_Itens pedido) (Pedido_Itens pedido')
    /\ Forall2 (fun old new =>
                  PedidoProduto_Subtotal (BeforeSave new) =
                  (float64_of_int (PedidoProduto_Quantidade old)
                   * PedidoProduto_PrecoUnitario old)%float)
         (Pedido_Itens pedido) (Pedido_Itens pedido').
Proof.
  assert (H : pedidoRepositorySQLite_FindByID 1 loja_com_pedido
              = (fst (pedidoRepositorySQLite_FindByID 1 loja_com_pedido), None))
    by reflexivity.
  destruct (fst (pedidoRepositorySQLite_FindByID 1 loja_com_pedido)) as [pedido|] eqn:E;
    [|vm_compute in E; discriminate E].
  destruct (product_update_keeps_snapshots 1 novo_preco loja_com_pedido 1 pedido H)
    as (pedido' & H1 & H2 & H3 & H4).
  exists pedido, pedido'. repeat split; assumption.
Defined.

(** The update of the witness does change the price of the notebook. *)
Example novo_preco_changes_price :
  unit_price loja_com_pedido (mkCreateItemPedidoRequest 1 2) = 0x1.76ffae147ae14p+11%float
  /\ unit_price (snd (produtoServiceImpl_Update 1 novo_preco loja_com_pedido))
       (mkCreateItemPedidoRequest 1 2) = 0x1p+6%float.
Proof. split; vm_compute; reflexivity. Qed.

(** C9.  A product created with the flag explicitly false is stored, and
    returned, as active: the column default of the model overrides the zero
    value. *)
Theorem Create_product_explicit_false_is_active :
  exists resp db',
    produtoServiceImpl_Create
      (mkCreateProdutoRequest "Monitor" "" 0x1p+6 3 "MN-001" "" (Some false)) loja
    = (Ok resp, db')
    /\ ProdutoResponse_Ativo resp = true
    /\ exists row, First_Produto db' (ProdutoResponse_ID resp) = Some row
                   /\ Produto_Ativo row = true.
Proof.
  eexists. eexists. split; [vm_compute; reflexivity|]. split; [reflexivity|].
  eexists. split; [vm_compute; reflexivity|reflexivity].
Qed.

(** Every product [Create] stores is active, whatever the request says. *)
Lemma Create_product_always_active req db resp db' :
  produtoServiceImpl_Create req db = (Ok resp, db') ->
  ProdutoResponse_Ativo resp = true
  /\ exists row, First_Produto db' (ProdutoResponse_ID resp) = Some row
                 /\ Produto_Ativo row = true.
Proof.
  unfold produtoServiceImpl_Create.
  destruct (validate_Struct _); [discriminate|].
  destruct (produtoRepositorySQLite_FindBySKU _ db) as [[existente|] [e|]]; try discriminate.
  unfold produtoRepositorySQLite_Create. cbn [Produto_ID N.eqb].
  destruct (bool_decide _); [discriminate|].
  destruct (sku_taken _ _ _); [discriminate|].
  intros [= <- <-]. split.
  - cbn. destruct (CreateProdutoRequest_Ativo req) as [[|]|]; reflexivity.
  - eexists. split.
    + unfold First_Produto. cbn [produtos set_produtos ProdutoResponse_ID
                                   produtoServiceImpl_toResponse Produto_ID Produto_with_ID].
      apply First_insert. reflexivity.
    + cbn. destruct (CreateProdutoRequest_Ativo req) as [[|]|]; reflexivity.
Qed.

(** What the service computes before the store is called is the flag of the
    request, true when absent; an update, which rewrites every column, does
    store an explicit false. *)
Example Update_product_explicit_false :
  exists resp,
    fst (produtoServiceImpl_Update 1 (mkUpdateProdutoRequest "" "" 0%float 10 "" "" (Some false))
           loja) = Ok resp
    /\ ProdutoResponse_Ativo resp = false.
Proof. eexists. split; vm_compute; reflexivity. Qed.

(** ** The invariant [lines_owned] *)

Lemma Forall_insert_row (P : PedidoProduto -> Prop) r rows :
  P r -> Forall P rows -> Forall P (insert_row r rows).
Proof.
  intros Hr. induction 1 as [|x rows Hx Hrows IH]; cbn [insert_row].
  - repeat constructor. exact Hr.
  - destruct (PedidoProduto_ID r <? PedidoProduto_ID x)%N; repeat constructor; assumption.
Qed.

Section SaveItens.
Variable pedido_id : N.
Variable P : PedidoProduto -> Prop.
Hypothesis P_keys : forall k pp, P (PedidoProduto_with_keys k pedido_id pp).
Hypothesis P_columns : forall pp, P pp -> P (PedidoProduto_columns pp).

Lemma save_item_Forall acc pp :
  Forall P (snd acc) -> Forall P (snd (save_item pedido_id acc pp)).
Proof.
  destruct acc as [saved rows]. cbn [snd]. intros H. unfold save_item.
  destruct (PedidoProduto_ID (BeforeSave pp) =? 0)%N; cbn [snd].
  - apply Forall_app. split; [exact H|]. repeat constructor. apply P_columns, P_keys.
  - destruct (has_row _ rows); cbn [snd].
    + apply Forall_map. eapply Forall_impl; [exact H|].
      intros r Hr. cbn beta.
      destruct (PedidoProduto_ID r =? _)%N; [apply P_keys|exact Hr].
    + apply Forall_insert_row; [apply P_columns, P_keys|exact H].
Qed.

Lemma save_Itens_Forall itens : forall acc,
  Forall P (snd acc) -> Forall P (snd (fold_left (save_item pedido_id) itens acc)).
Proof.
  induction itens as [|pp itens IH]; intros acc H; [exact H|].
  cbn [fold_left]. apply IH, save_item_Forall, H.
Qed.

End SaveItens.

(** Saving the lines of an order whose row is written with them keeps every
    stored line owned. *)
Lemma save_Itens_owned db id row itens :
  lines_owned db ->
  Forall (fun pp => is_Some (<[id := row]> (pedidos db) !! PedidoProduto_PedidoID pp))
    (snd (save_Itens id itens (pedido_produtos db))).
Proof.
  intros Hown. unfold save_Itens. apply save_Itens_Forall.
  - intros k pp. cbn. rewrite lookup_insert_eq. eexists; reflexivity.
  - intros pp H. exact H.
  - cbn [snd]. eapply Forall_impl; [exact Hown|].
    intros pp [x Hx]. cbn beta.
    destruct (decide (id = PedidoProduto_PedidoID pp)) as [->|Hne].
    + rewrite lookup_insert_eq. eexists; reflexivity.
    + rewrite lookup_insert_ne by exact Hne. eexists; exact Hx.
Qed.

Lemma pedidoRepositorySQLite_Create_owned pedido db :
  lines_owned db -> lines_owned (snd (pedidoRepositorySQLite_Create pedido db)).
Proof.
  intros Hown. unfold pedidoRepositorySQLite_Create.
  destruct (bool_decide _); [exact Hown|].
  match goal with
  | |- context [save_Itens ?i ?l ?r] =>
    pose proof (fun row => save_Itens_owned db i row l Hown) as H;
    destruct (save_Itens i l r) as [itens rows]
  end.
  cbn [snd] in *. unfold lines_owned. cbn [pedidos pedido_produtos set_pedidos]. apply H.
Qed.

Lemma pedidoRepositorySQLite_Update_owned pedido db :
  lines_owned db -> lines_owned (snd (pedidoRepositorySQLite_Update pedido db)).
Proof.
  intros Hown. unfold pedidoRepositorySQLite_Update, Save_Pedido.
  destruct (Pedido_ID pedido =? 0)%N.
  - pose proof (pedidoRepositorySQLite_Create_owned pedido db Hown) as H.
    destruct (pedidoRepositorySQLite_Create pedido db) as [[saved err] db'].
    destruct err; exact H.
  - match goal with
    | |- context [save_Itens ?i ?l ?r] =>
      pose proof (fun row => save_Itens_owned db i row l Hown) as H;
      destruct (save_Itens i l r) as [itens rows]
    end.
    cbn [snd N.eqb] in *. unfold lines_owned. cbn [pedidos pedido_produtos set_pedidos].
    apply H.
Qed.

(** The services keep the invariant, which holds of the empty database. *)
Lemma lines_owned_empty : lines_owned (mkDB ∅ ∅ ∅ []).
Proof. constructor. Qed.

Lemma Create_owned now req db :
  lines_owned db -> lines_owned (snd (pedidoServiceImpl_Create now req db)).
Proof.
  intros Hown. unfold pedidoServiceImpl_Create.
  destruct (validate_Struct _); [exact Hown|].
  destruct (clienteRepositorySQLite_FindByID _ db) as [cliente [e|]]; [exact Hown|].
  destruct (Create_itens _ _ _ _) as [[itens valorTotal]| |]; try exact Hown.
  match goal with
  | |- context [pedidoRepositorySQLite_Create ?p db] =>
    pose proof (pedidoRepositorySQLite_Create_owned p db Hown) as H;
    destruct (pedidoRepositorySQLite_Create p db) as [[saved err] db']
  end.
  cbn [snd] in H. destruct err; [exact H|].
  destruct (pedidoRepositorySQLite_FindByID _ db') as [[pc|] [e|]];
    try exact H; destruct cliente; exact H.
Qed.

Lemma UpdateStatus_owned id req db :
  lines_owned db -> lines_owned (snd (pedidoServiceImpl_UpdateStatus id req db)).
Proof.
  intros Hown. unfold pedidoServiceImpl_UpdateStatus.
  destruct (validate_Struct _); [exact Hown|].
  destruct (pedidoRepositorySQLite_FindByID id db) as [[pedido|] [e|]]; try exact Hown.
  match goal with
  | |- context [pedidoRepositorySQLite_Update ?p db] =>
    pose proof (pedidoRepositorySQLite_Update_owned p db Hown) as H;
    destruct (pedidoRepositorySQLite_Update p db) as [[saved err] db']
  end.
  destruct err; exact H.
Qed.

Lemma produto_Update_owned id req db :
  lines_owned db -> lines_owned (snd (produtoServiceImpl_Update id req db)).
Proof.
  destruct (produtoServiceImpl_Update_frame id req db) as (_ & Hp & Hl).
  unfold lines_owned. rewrite Hp, Hl. trivial.
Qed.

(** [Create] writes no product: stock is never decremented, whether the
    order is refused or stored. *)
Lemma Create_writes_no_product now req db :
  produtos (snd (pedidoServiceImpl_Create now req db)) = produtos db.
Proof.
  unfold pedidoServiceImpl_Create.
  destruct (validate_Struct _); [reflexivity|].
  destruct (clienteRepositorySQLite_FindByID _ db) as [cliente [e|]]; [reflexivity|].
  destruct (Create_itens _ _ _ _) as [[itens valorTotal]| |]; try reflexivity.
  match goal with
  | |- context [pedidoRepositorySQLite_Create ?p db] =>
    assert (H : produtos (snd (pedidoRepositorySQLite_Create p db)) = produtos db);
    [|destruct (pedidoRepositorySQLite_Create p db) as [[saved err] db']]
  end.
  { unfold pedidoRepositorySQLite_Create.
    destruct (bool_decide _); [reflexivity|].
    destruct (save_Itens _ _ _); reflexivity. }
  cbn [snd] in H. destruct err; [exact H|].
  destruct (pedidoRepositorySQLite_FindByID _ db') as [[pc|] [e|]];
    try exact H; destruct cliente; exact H.
Qed.

(** The customer-not-found error is never the outcome of [Create]. *)
Lemma Create_itens_error db reqs : forall itens valorTotal e,
  Create_itens db reqs itens valorTotal = Err e -> e <> cliente_nao_encontrado.
Proof.
  induction reqs as [|l reqs IH]; intros itens valorTotal e; cbn [Create_itens];
    [discriminate|].
  destruct (produtoRepositorySQLite_FindByID _ db) as [[produto|] [e'|]];
    try discriminate.
  - intros [= <-]. discriminate.
  - destruct (_ <? _); [intros [= <-]; discriminate|].
    destruct (negb _); [intros [= <-]; discriminate|]. apply IH.
  - intros [= <-]. discriminate.
Qed.

Lemma Create_never_customer_not_found now req db :
  fst (pedidoServiceImpl_Create now req db) <> Err cliente_nao_encontrado.
Proof.
  unfold pedidoServiceImpl_Create.
  destruct (validate_Struct _) as [e|] eqn:Ev.
  { unfold validate_Struct in Ev.
    destruct (validate_CreatePedidoRequest req); [discriminate|].
    injection Ev as <-. discriminate. }
  rewrite clienteRepositorySQLite_FindByID_nil_error.
  destruct (Create_itens _ _ _ _) as [[itens valorTotal]|e|] eqn:El.
  - match goal with
    | |- context [pedidoRepositorySQLite_Create ?p db] =>
      assert (H : forall e, snd (fst (pedidoRepositorySQLite_Create p db)) = Some e ->
                            e <> cliente_nao_encontrado);
      [|destruct (pedidoRepositorySQLite_Create p db) as [[saved err] db']]
    end.
    { unfold pedidoRepositorySQLite_Create.
      destruct (bool_decide _); [intros e [= <-]; discriminate|].
      destruct (save_Itens _ _ _). discriminate. }
    cbn [fst snd] in H. destruct err as [e|].
    + cbn [fst]. intros [= He]. exact (H e eq_refl He).
    + unfold pedidoRepositorySQLite_FindByID.
      destruct (First_Pedido db' (Pedido_ID saved)); [|discriminate].
      destruct (First_Cliente db _); discriminate.
  - cbn [fst]. intros [= He]. exact (Create_itens_error _ _ _ _ _ El He).
  - discriminate.
Qed.

(** * Further properties of the services and repositories *)

(** ** Tables: live rows and counts *)

Section Tables.
Context {A : Type}.
Variable deleted_at : A -> option Z.
Variable set_id : N -> A -> A.

Lemma live_rows_elem (t : gmap N A) (row : A) :
  row ∈ live_rows deleted_at set_id t <->
  exists k, First deleted_at set_id t k = Some row.
Proof.
  unfold live_rows, First. rewrite list_elem_of_omap. split.
  - intros ([k stored] & Hin & Hrow).
    rewrite merge_sort_Permutation in Hin. apply elem_of_map_to_list in Hin.
    exists k. rewrite Hin. exact Hrow.
  - intros (k & Hk). destruct (t !! k) as [stored|] eqn:E; [|discriminate].
    exists (k, stored). split; [|exact Hk].
    rewrite merge_sort_Permutation. apply elem_of_map_to_list. exact E.
Qed.

Lemma live_rows_length (t : gmap N A) :
  Z.of_nat (length (live_rows deleted_at set_id t)) = count_live deleted_at t.
Proof.
  unfold live_rows, count_live. f_equal.
  rewrite merge_sort_Permutation.
  induction t as [|k row t Hk _ IH] using map_first_key_ind.
  - rewrite map_to_list_empty, map_filter_empty, map_size_empty. reflexivity.
  - rewrite map_to_list_insert by exact Hk. cbn [omap list_omap fst snd].
    destruct (deleted_at row) eqn:E; cbn [is_null].
    + rewrite map_filter_insert_False by (cbn; congruence).
      rewrite delete_id by exact Hk. exact IH.
    + rewrite map_filter_insert_True by exact E.
      rewrite map_size_insert_None by (apply map_lookup_filter_None; left; exact Hk).
      cbn [length]. f_equal. exact IH.
Qed.

Lemma count_live_insert_new (t : gmap N A) (k : N) (row : A) :
  t !! k = None -> deleted_at row = None ->
  count_live deleted_at (<[k := row]> t) = count_live deleted_at t + 1.
Proof.
  intros Hk Hrow. unfold count_live.
  rewrite map_filter_insert_True by exact Hrow.
  rewrite map_size_insert_None by (apply map_lookup_filter_None; left; exact Hk).
  lia.
Qed.

Lemma count_live_soft_delete (set_deleted : Z -> A -> A) now (t : gmap N A) (k : N) (row : A) :
  t !! k = Some row -> deleted_at row = None ->
  deleted_at (set_deleted now row) <> None ->
  count_live deleted_at (<[k := set_deleted now row]> t) = count_live deleted_at t - 1.
Proof.
  intros Hk Hrow Hdel. unfold count_live.
  rewrite map_filter_insert_False by exact Hdel.
  rewrite map_filter_delete.
  rewrite map_size_delete_Some
    by (exists row; apply map_lookup_filter_Some; split; [exact Hk|exact Hrow]).
  assert (size (filter (fun kr : N * A => deleted_at (snd kr) = None) t) <> 0%nat).
  { apply map_size_ne_0_lookup_2 with k. exists row.
    apply map_lookup_filter_Some. split; [exact Hk|exact Hrow]. }
  lia.
Qed.

End Tables.

(** ** Orders: what [Create] leaves behind *)

(** The shape of [Create] on the path that reaches the store: the key is
    fresh, the row written is live, and the outcome is decided by the
    customer read at the start. *)
Lemma Create_inversion now req db r db' :
  pedidoServiceImpl_Create now req db = (r, db') ->
  (exists e, r = Err e /\ db' = db)
  \/ (r = Panic /\ db' = db)
  \/ exists itens valorTotal saved rows,
       Create_itens db (request_lines req) [] 0%float = Ok (itens, valorTotal)
       /\ validate_CreatePedidoRequest req = []
       /\ pedidos db !! next_id (pedidos db) = None
       /\ saved =
          mkPedido (next_id (pedidos db)) (CreatePedidoRequest_ClienteID req) Cliente_zero []
            valorTotal
            (if String.eqb (CreatePedidoRequest_Status req) "" then "pendente"
             else CreatePedidoRequest_Status req)
            now None
       /\ db' = set_pedidos (<[next_id (pedidos db) := saved]> (pedidos db)) rows db
       /\ snd (save_Itens (next_id (pedidos db)) itens (pedido_produtos db)) = rows
       /\ r = match First_Cliente db (CreatePedidoRequest_ClienteID req) with
              | Some cliente =>
                Ok (pedidoServiceImpl_toResponse
                      (Pedido_with_relations cliente
                         (preload_Itens db' (next_id (pedidos db)))
                         (Pedido_with_ID (next_id (pedidos db)) saved)))
              | None => Panic
              end.
Proof.
  unfold pedidoServiceImpl_Create.
  destruct (validate_Struct _) as [e|] eqn:Ev.
  { intros [= <- <-]. left. eauto. }
  assert (Hv : validate_CreatePedidoRequest req = []).
  { unfold validate_Struct in Ev.
    destruct (validate_CreatePedidoRequest req); [reflexivity|discriminate]. }
  rewrite clienteRepositorySQLite_FindByID_nil_error.
  destruct (Create_itens _ _ _ _) as [[itens valorTotal]|e|] eqn:El.
  2: { intros [= <- <-]. left. eauto. }
  2: { intros [= <- <-]. right. left. split; reflexivity. }
  unfold pedidoRepositorySQLite_Create. cbn [Pedido_ID N.eqb].
  rewrite bool_decide_eq_false_2 by (rewrite next_id_fresh; intros [? [=]]).
  cbn [Pedido_Itens Pedido_defaults].
  destruct (save_Itens _ _ _) as [saved_itens rows] eqn:Es.
  cbn [Pedido_ID Pedido_ClienteID Pedido_Cliente Pedido_ValorTotal Pedido_Status
       Pedido_DataPedido Pedido_DeletedAt Pedido_columns].
  unfold pedidoRepositorySQLite_FindByID, First_Pedido.
  cbn [pedidos set_pedidos]. rewrite First_insert by reflexivity.
  cbn [Pedido_ID Pedido_ClienteID Pedido_Cliente Pedido_ValorTotal Pedido_Status
       Pedido_DataPedido Pedido_DeletedAt Pedido_columns Pedido_defaults].
  destruct (String.eqb (CreatePedidoRequest_Status req) "") eqn:E;
    [change (String.eqb "pendente" "") with false|rewrite E];
    cbv iota;
    (destruct (First_Cliente db (CreatePedidoRequest_ClienteID req)) as [cliente|];
     intros [= <- <-]; right; right;
     exists itens, valorTotal; eexists; exists rows;
     (split; [reflexivity|]); (split; [exact Hv|]); (split; [apply next_id_fresh|]);
     (split; [reflexivity|]); (split; [reflexivity|]);
     (split; [rewrite Es; reflexivity|reflexivity])).
Qed.



(** X2.  Round trip: the response of a successful [Create] is what
    [FindByID] returns for the id in that response, read from the database
    [Create] left. *)
Theorem Create_then_FindByID now req db resp db' :
  pedidoServiceImpl_Create now req db = (Ok resp, db') ->
  pedidoServiceImpl_FindByID (PedidoResponse_ID resp) db' = Ok resp.
Proof.
  intros H. destruct (Create_inversion _ _ _ _ _ H)
    as [(e' & [=] & _)|[([=] & _)|(itens & vt & saved & rows & _ & _ & _ & Hs & Hdb & _ & Hr)]].
  destruct (First_Cliente db (CreatePedidoRequest_ClienteID req)) as [cliente|] eqn:Ec;
    [|discriminate].
  injection Hr as ->.
  cbn [PedidoResponse_ID pedidoServiceImpl_toResponse Pedido_ID Pedido_with_relations
       Pedido_with_ID].
  unfold pedidoServiceImpl_FindByID, pedidoRepositorySQLite_FindByID, First_Pedido.
  rewrite Hdb at 1. cbn [pedidos set_pedidos].
  rewrite First_insert by (rewrite Hs; reflexivity).
  assert (Hc : preload_Cliente db' (Pedido_ClienteID (Pedido_with_ID (next_id (pedidos db)) saved))
               = cliente).
  { unfold preload_Cliente, First_Cliente. rewrite Hdb, Hs. cbn [clientes set_pedidos Pedido_ClienteID Pedido_with_ID].
    unfold First_Cliente in Ec. rewrite Ec. reflexivity. }
  rewrite Hc. reflexivity.
Qed.

Lemma Create_then_FindByID_witness :
  exists resp,
    fst (pedidoServiceImpl_Create 100 pedido_joao loja) = Ok resp
    /\ pedidoServiceImpl_FindByID (PedidoResponse_ID resp) loja_com_pedido = Ok resp.
Proof.
  destruct (pedidoServiceImpl_Create 100 pedido_joao loja) as [r db'] eqn:E.
  assert (Hdb : db' = loja_com_pedido) by (unfold loja_com_pedido; rewrite E; reflexivity).
  destruct r as [resp| |]; [|vm_compute in E; discriminate E|vm_compute in E; discriminate E].
  exists resp. split; [reflexivity|].
  rewrite <- Hdb. exact (Create_then_FindByID 100 pedido_joao loja resp db' E).
Defined.

(** X3.  A successful [Create] adds exactly one order to the count. *)
Theorem Create_counts_one_more now req db resp db' :
  pedidoServiceImpl_Create now req db = (Ok resp, db') ->
  fst (pedidoServiceImpl_Count db') = fst (pedidoServiceImpl_Count db) + 1.
Proof.
  intros H. destruct (Create_inversion _ _ _ _ _ H)
    as [(e' & [=] & _)|[([=] & _)|(itens & vt & saved & rows & _ & _ & Hf & Hs & Hdb & _ & _)]].
  unfold pedidoServiceImpl_Count, pedidoRepositorySQLite_Count. cbn [fst].
  rewrite Hdb. cbn [pedidos set_pedidos].
  apply count_live_insert_new; [exact Hf|rewrite Hs; reflexivity].
Qed.

Lemma Create_counts_one_more_witness :
  fst (pedidoServiceImpl_Count loja_com_pedido) = fst (pedidoServiceImpl_Count loja) + 1.
Proof.
  destruct (pedidoServiceImpl_Create 100 pedido_joao loja) as [r db'] eqn:E.
  assert (Hdb : db' = loja_com_pedido) by (unfold loja_com_pedido; rewrite E; reflexivity).
  destruct r as [resp| |]; [|vm_compute in E; discriminate E|vm_compute in E; discriminate E].
  rewrite <- Hdb. exact (Create_counts_one_more 100 pedido_joao loja resp db' E).
Defined.

(** ** Orders: the keys of the stored lines *)

Lemma next_row_id_above rows r :
  r ∈ rows -> (PedidoProduto_ID r < next_row_id rows)%N.
Proof.
  unfold next_row_id. induction 1 as [r rows|r x rows _ IH]; cbn [fold_right]; lia.
Qed.

Lemma insert_row_Permutation r rows : insert_row r rows ≡ₚ r :: rows.
Proof.
  induction rows as [|x rows IH]; cbn [insert_row]; [reflexivity|].
  destruct (PedidoProduto_ID r <? PedidoProduto_ID x)%N; [reflexivity|].
  rewrite IH. apply Permutation_swap.
Qed.

Lemma has_row_elem id rows :
  has_row id rows = true <-> id ∈ map PedidoProduto_ID rows.
Proof.
  unfold has_row. rewrite existsb_exists, list_elem_of_fmap. split.
  - intros (r & Hin & Heq). apply N.eqb_eq in Heq. exists r.
    split; [symmetry; exact Heq|apply list_elem_of_In; exact Hin].
  - intros (r & -> & Hin). exists r.
    split; [apply list_elem_of_In; exact Hin|apply N.eqb_refl].
Qed.

Lemma save_item_keyed pedido_id acc pp :
  keyed (snd acc) -> keyed (snd (save_item pedido_id acc pp)).
Proof.
  destruct acc as [saved rows]. cbn [snd]. intros [Hnd Hnz]. unfold save_item.
  destruct (PedidoProduto_ID (BeforeSave pp) =? 0)%N eqn:E; cbn [snd].
  - split.
    + rewrite map_app. cbn [map PedidoProduto_ID PedidoProduto_columns
                              PedidoProduto_with_Produto PedidoProduto_with_keys].
      apply NoDup_app. split; [exact Hnd|]. split; [|apply NoDup_singleton].
      intros id Hin Hid. apply list_elem_of_singleton in Hid. subst id.
      apply list_elem_of_fmap in Hin as (r & Hr & Hin).
      apply next_row_id_above in Hin. lia.
    + apply Forall_app. split; [exact Hnz|]. repeat constructor.
      cbn. unfold next_row_id. lia.
  - apply N.eqb_neq in E.
    destruct (has_row _ rows) eqn:Eh; cbn [snd].
    + split.
      * rewrite map_map.
        erewrite map_ext; [exact Hnd|].
        intros r. cbn beta. destruct (PedidoProduto_ID r =? _)%N; reflexivity.
      * apply Forall_map. eapply Forall_impl; [exact Hnz|].
        intros r Hr. cbn beta. destruct (PedidoProduto_ID r =? _)%N; exact Hr.
    + assert (Hnotin : PedidoProduto_ID (BeforeSave pp) ∉ map PedidoProduto_ID rows).
      { intros Hin. apply has_row_elem in Hin. cbn in Hin, Eh. congruence. }
      split.
      * rewrite (fmap_Permutation PedidoProduto_ID _ _ (insert_row_Permutation _ rows)).
        cbn [fmap list_fmap]. apply NoDup_cons. split; [exact Hnotin|exact Hnd].
      * rewrite insert_row_Permutation. constructor; [exact E|exact Hnz].
Qed.

Lemma save_Itens_keyed pedido_id itens rows :
  keyed rows -> keyed (snd (save_Itens pedido_id itens rows)).
Proof.
  unfold save_Itens. change rows with (snd (@nil PedidoProduto, rows)) at 1.
  generalize (@nil PedidoProduto, rows).
  induction itens as [|pp itens IH]; intros acc H; [exact H|].
  cbn [fold_left]. apply IH, save_item_keyed, H.
Qed.

Lemma keyed_same_row rows r r0 :
  keyed rows -> r ∈ rows -> r0 ∈ rows ->
  PedidoProduto_ID r = PedidoProduto_ID r0 -> r = r0.
Proof.
  intros [Hnd _]. induction rows as [|x rows IH]; intros Hr Hr0 Heq.
  - inversion Hr.
  - cbn [map] in Hnd. apply NoDup_cons in Hnd as [Hx Hnd].
    apply elem_of_cons in Hr as [->|Hr]; apply elem_of_cons in Hr0 as [->|Hr0].
    + reflexivity.
    + exfalso. apply Hx. rewrite Heq. apply list_elem_of_fmap. eauto.
    + exfalso. apply Hx. rewrite <- Heq. apply list_elem_of_fmap. eauto.
    + apply IH; assumption.
Qed.

(** Saving a line that was read from the table writes the table back as it
    was. *)
Lemma save_item_loaded pedido_id saved rows pp r0 :
  keyed rows -> r0 ∈ rows ->
  PedidoProduto_PedidoID r0 = pedido_id ->
  PedidoProduto_ID pp = PedidoProduto_ID r0 ->
  snd (save_item pedido_id (saved, rows) pp) = rows.
Proof.
  intros Hk Hr0 Hown Hid. unfold save_item.
  assert (Hnz : PedidoProduto_ID r0 <> 0%N).
  { destruct Hk as [_ Hnz]. rewrite Forall_forall in Hnz. apply Hnz. exact Hr0. }
  change (PedidoProduto_ID (BeforeSave pp)) with (PedidoProduto_ID pp).
  rewrite Hid. apply N.eqb_neq in Hnz. rewrite Hnz.
  cbn [PedidoProduto_ID PedidoProduto_with_keys].
  assert (Hhas : has_row (PedidoProduto_ID r0) rows = true).
  { apply has_row_elem, list_elem_of_fmap. eauto. }
  rewrite Hhas. cbn [snd].
  rewrite <- (map_id rows) at 2. apply map_ext_in.
  intros r Hr. apply list_elem_of_In in Hr.
  destruct (PedidoProduto_ID r =? PedidoProduto_ID r0)%N eqn:E; [|reflexivity].
  apply N.eqb_eq in E.
  rewrite (keyed_same_row rows r r0 Hk Hr Hr0 E), <- Hown.
  destruct r0; reflexivity.
Qed.

Lemma save_Itens_loaded pedido_id itens rows :
  keyed rows ->
  Forall (fun pp => exists r0, r0 ∈ rows /\ PedidoProduto_PedidoID r0 = pedido_id
                               /\ PedidoProduto_ID pp = PedidoProduto_ID r0) itens ->
  snd (save_Itens pedido_id itens rows) = rows.
Proof.
  intros Hk. unfold save_Itens. generalize (@nil PedidoProduto).
  induction itens as [|pp itens IH]; intros saved H; [reflexivity|].
  inversion H as [|? ? (r0 & Hr0 & Hown & Hid) Hrest]; subst.
  cbn [fold_left].
  pose proof (save_item_loaded _ saved rows pp r0 Hk Hr0 eq_refl Hid) as Hs.
  destruct (save_item _ (saved, rows) pp) as [saved' rows']. cbn [snd] in Hs. subst rows'.
  apply IH. exact Hrest.
Qed.

Lemma preload_Itens_loaded db id :
  Forall (fun pp => exists r0, r0 ∈ pedido_produtos db /\ PedidoProduto_PedidoID r0 = id
                               /\ PedidoProduto_ID pp = PedidoProduto_ID r0)
    (preload_Itens db id).
Proof.
  unfold preload_Itens. apply Forall_map, Forall_forall.
  intros r Hr. apply list_elem_of_In, filter_In in Hr as [Hin Hline].
  exists r. split; [apply list_elem_of_In; exact Hin|].
  unfold is_line_of in Hline. apply andb_prop in Hline as [Hp _].
  apply N.eqb_eq in Hp. split; [exact Hp|reflexivity].
Qed.

(** The shape of [UpdateStatus] for a key that is not zero. *)
Lemma UpdateStatus_inversion id req db r db' :
  id <> 0%N ->
  pedidoServiceImpl_UpdateStatus id req db = (r, db') ->
  (exists e, r = Err e /\ db' = db)
  \/ exists stored,
       pedidos db !! id = Some stored
       /\ Pedido_DeletedAt stored = None
       /\ oneof status_vocabulary (UpdatePedidoRequest_Status req) = true
       /\ db' = set_pedidos
                  (<[id := Pedido_columns id
                             (Pedido_with_Status (UpdatePedidoRequest_Status req) stored)]>
                     (pedidos db))
                  (snd (save_Itens id (preload_Itens db id) (pedido_produtos db))) db
       /\ r = Ok (pedidoServiceImpl_toResponse
                   (mkPedido id (Pedido_ClienteID stored)
                      (preload_Cliente db (Pedido_ClienteID stored))
                      (fst (save_Itens id (preload_Itens db id) (pedido_produtos db)))
                      (Pedido_ValorTotal stored) (UpdatePedidoRequest_Status req)
                      (Pedido_DataPedido stored) (Pedido_DeletedAt stored))).
Proof.
  intros Hid. unfold pedidoServiceImpl_UpdateStatus.
  destruct (oneof status_vocabulary (UpdatePedidoRequest_Status req)) eqn:Hin.
  2: { destruct (validate_UpdatePedidoRequest_out req Hin) as [tag ->].
       intros [= <- <-]. left. eauto. }
  rewrite (validate_Struct_nil _ (validate_UpdatePedidoRequest_in req Hin)).
  unfold pedidoRepositorySQLite_FindByID.
  destruct (First_Pedido db id) as [row|] eqn:Ef.
  2: { intros [= <- <-]. left. eauto. }
  pose proof Ef as Ef'. unfold First_Pedido in Ef'.
  apply First_Some in Ef' as (stored & Hstored & Hlive & ->).
  unfold pedidoRepositorySQLite_Update, Save_Pedido.
  cbn [Pedido_ID Pedido_with_Status Pedido_with_relations Pedido_with_ID].
  apply N.eqb_neq in Hid. rewrite Hid, Ef.
  cbn [Pedido_Itens].
  destruct (save_Itens _ _ _) as [itens rows] eqn:Es.
  cbn [N.eqb]. intros [= <- <-]. right. exists stored.
  split; [exact Hstored|]. split; [exact Hlive|]. split; [reflexivity|].
  split; reflexivity.
Qed.

(** ** Orders: listing *)

Lemma pedidoRepositorySQLite_FindAll_elem db p :
  p ∈ fst (pedidoRepositorySQLite_FindAll db) <->
  exists id, pedidoRepositorySQLite_FindByID id db = (Some p, None).
Proof.
  unfold pedidoRepositorySQLite_FindAll, pedidoRepositorySQLite_FindByID. cbn [fst].
  rewrite list_elem_of_fmap. split.
  - intros (row & -> & Hrow). apply live_rows_elem in Hrow as (k & Hk).
    exists k. unfold First_Pedido. rewrite Hk.
    apply First_Some in Hk as (stored & _ & _ & ->). reflexivity.
  - intros (k & Hk). unfold First_Pedido in Hk.
    destruct (First Pedido_DeletedAt Pedido_with_ID (pedidos db) k) as [row|] eqn:E;
      [|discriminate].
    exists row. split.
    + injection Hk as <-. apply First_Some in E as (stored & _ & _ & ->). reflexivity.
    + apply live_rows_elem. eauto.
Qed.

Lemma filtered_rows_elem (f : Pedido -> bool) db p :
  (forall row, f (preload_Pedido db row) = f row) ->
  p ∈ map (preload_Pedido db)
        (List.filter f (live_rows Pedido_DeletedAt Pedido_with_ID (pedidos db))) <->
  p ∈ fst (pedidoRepositorySQLite_FindAll db) /\ f p = true.
Proof.
  intros Hf. unfold pedidoRepositorySQLite_FindAll. cbn [fst].
  rewrite !list_elem_of_fmap. split.
  - intros (row & -> & Hrow). apply list_elem_of_In, filter_In in Hrow as [Hin Hfr].
    split; [exists row; split; [reflexivity|apply list_elem_of_In; exact Hin]|].
    rewrite Hf. exact Hfr.
  - intros [(row & -> & Hrow) Hfp]. exists row. split; [reflexivity|].
    apply list_elem_of_In, filter_In. split; [apply list_elem_of_In; exact Hrow|].
    rewrite <- Hf. exact Hfp.
Qed.

Lemma pedidoRepositorySQLite_FindByStatus_elem status db p :
  p ∈ fst (pedidoRepositorySQLite_FindByStatus status db) <->
  p ∈ fst (pedidoRepositorySQLite_FindAll db) /\ Pedido_Status p = status.
Proof.
  unfold pedidoRepositorySQLite_FindByStatus. cbn [fst].
  rewrite (filtered_rows_elem (fun row => String.eqb (Pedido_Status row) status))
    by reflexivity.
  rewrite String.eqb_eq. reflexivity.
Qed.

Lemma pedidoRepositorySQLite_FindByClienteID_elem clienteID db p :
  p ∈ fst (pedidoRepositorySQLite_FindByClienteID clienteID db) <->
  p ∈ fst (pedidoRepositorySQLite_FindAll db) /\ Pedido_ClienteID p = clienteID.
Proof.
  unfold pedidoRepositorySQLite_FindByClienteID. cbn [fst].
  rewrite (filtered_rows_elem (fun row => (Pedido_ClienteID row =? clienteID)%N))
    by reflexivity.
  rewrite N.eqb_eq. reflexivity.
Qed.

(** X4.  Listing orders.  [FindAll] returns exactly the orders [FindByID]
    finds under some id; [FindByStatus] and [FindByClienteID] return exactly
    those of them that carry the status, or the customer id, asked for; and
    [Count] is the number of orders [FindAll] returns. *)
Theorem pedido_listings db :
  (forall resp,
     (exists l, pedidoServiceImpl_FindAll db = Ok l /\ resp ∈ l)
     <-> exists id, pedidoServiceImpl_FindByID id db = Ok resp)
  /\ (forall status p,
        p ∈ fst (pedidoRepositorySQLite_FindByStatus status db) <->
        p ∈ fst (pedidoRepositorySQLite_FindAll db) /\ Pedido_Status p = status)
  /\ (forall clienteID p,
        p ∈ fst (pedidoRepositorySQLite_FindByClienteID clienteID db) <->
        p ∈ fst (pedidoRepositorySQLite_FindAll db) /\ Pedido_ClienteID p = clienteID)
  /\ (exists l, pedidoServiceImpl_FindAll db = Ok l
                /\ fst (pedidoServiceImpl_Count db) = Z.of_nat (length l)).
Proof.
  split; [|split; [|split]].
  - intros resp. unfold pedidoServiceImpl_FindAll, pedidoServiceImpl_FindByID.
    split.
    + intros (l & Hl & Hin).
      destruct (pedidoRepositorySQLite_FindAll db) as [ps err] eqn:E.
      assert (err = None) by (unfold pedidoRepositorySQLite_FindAll in E; congruence).
      subst err. injection Hl as <-.
      apply list_elem_of_fmap in Hin as (p & -> & Hp).
      assert (Hp' : p ∈ fst (pedidoRepositorySQLite_FindAll db)) by (rewrite E; exact Hp).
      apply pedidoRepositorySQLite_FindAll_elem in Hp' as (id & Hid).
      exists id. rewrite Hid. reflexivity.
    + intros (id & Hid).
      destruct (pedidoRepositorySQLite_FindByID id db) as [[p|] [e|]] eqn:E;
        try discriminate.
      injection Hid as <-.
      assert (Hp : p ∈ fst (pedidoRepositorySQLite_FindAll db))
        by (apply pedidoRepositorySQLite_FindAll_elem; eauto).
      unfold pedidoRepositorySQLite_FindAll in *. cbn [fst] in Hp.
      eexists. split; [reflexivity|]. apply list_elem_of_fmap. eauto.
  - intros status p. apply pedidoRepositorySQLite_FindByStatus_elem.
  - intros clienteID p. apply pedidoRepositorySQLite_FindByClienteID_elem.
  - unfold pedidoServiceImpl_FindAll, pedidoRepositorySQLite_FindAll,
      pedidoServiceImpl_Count, pedidoRepositorySQLite_Count.
    eexists. split; [reflexivity|]. cbn [fst].
    rewrite !length_map. symmetry. apply live_rows_length.
Qed.

(** ** Orders: what [UpdateStatus] changes *)

(** X5.  [UpdateStatus] on a database whose line keys are distinct and not
    zero, for an id that is not zero: when it succeeds, customers, products
    and lines are the tables they were, every other order reads as before,
    and the order itself reads as before with its status replaced. *)
Theorem UpdateStatus_changes_only_status id req db resp db' :
  rows_keyed db -> id <> 0%N ->
  pedidoServiceImpl_UpdateStatus id req db = (Ok resp, db') ->
  clientes db' = clientes db /\ produtos db' = produtos db
  /\ pedido_produtos db' = pedido_produtos db
  /\ (forall other, other <> id ->
        pedidoRepositorySQLite_FindByID other db' = pedidoRepositorySQLite_FindByID other db)
  /\ exists before,
       pedidoRepositorySQLite_FindByID id db = (Some before, None)
       /\ pedidoRepositorySQLite_FindByID id db'
          = (Some (Pedido_with_Status (UpdatePedidoRequest_Status req) before), None).
Proof.
  intros Hk Hid H.
  destruct (UpdateStatus_inversion id req db _ _ Hid H)
    as [(e & [=] & _)|(stored & Hstored & Hlive & _ & Hdb & _)].
  rewrite (save_Itens_loaded id _ _ Hk (preload_Itens_loaded db id)) in Hdb.
  subst db'. cbn [clientes produtos pedido_produtos set_pedidos].
  split; [reflexivity|]. split; [reflexivity|]. split; [reflexivity|].
  split.
  - intros other Hother.
    unfold pedidoRepositorySQLite_FindByID, First_Pedido, First.
    cbn [pedidos set_pedidos]. rewrite lookup_insert_ne by congruence. reflexivity.
  - unfold pedidoRepositorySQLite_FindByID, First_Pedido, First.
    cbn [pedidos set_pedidos]. rewrite lookup_insert_eq, Hstored.
    cbn [Pedido_DeletedAt Pedido_columns Pedido_with_Status]. rewrite Hlive. cbn [is_null].
    eexists. split; reflexivity.
Qed.

Lemma UpdateStatus_changes_only_status_witness :
  exists resp db' before,
    pedidoServiceImpl_UpdateStatus 1 (mkUpdatePedidoRequest "pago") loja_com_pedido
    = (Ok resp, db')
    /\ pedido_produtos db' = pedido_produtos loja_com_pedido
    /\ pedidoRepositorySQLite_FindByID 1 loja_com_pedido = (Some before, None)
    /\ pedidoRepositorySQLite_FindByID 1 db' = (Some (Pedido_with_Status "pago" before), None).
Proof.
  destruct (pedidoServiceImpl_UpdateStatus 1 (mkUpdatePedidoRequest "pago") loja_com_pedido)
    as [r db'] eqn:E.
  destruct r as [resp| |]; [|vm_compute in E; discriminate E|vm_compute in E; discriminate E].
  assert (Hk : rows_keyed loja_com_pedido).
  { unfold rows_keyed, keyed. vm_compute. split.
    - repeat (constructor; [rewrite ?elem_of_cons, elem_of_nil; intuition discriminate|]).
      constructor.
    - repeat (constructor; [discriminate|]). constructor. }
  assert (Hid : 1%N <> 0%N) by discriminate.
  destruct (UpdateStatus_changes_only_status 1 (mkUpdatePedidoRequest "pago")
              loja_com_pedido resp db' Hk Hid E)
    as (_ & _ & Hl & _ & before & Hb & Ha).
  exists resp, db', before. repeat split; assumption.
Defined.

(** X6.  [UpdateStatus] is all or nothing on the error path: an error, be
    it the validation error, the order-not-found error or an error of the
    store, comes with the database the call started from. *)
Theorem UpdateStatus_error_writes_nothing id req db e db' :
  pedidoServiceImpl_UpdateStatus id req db = (Err e, db') -> db' = db.
Proof.
  unfold pedidoServiceImpl_UpdateStatus.
  destruct (validate_Struct _); [intros [= _ <-]; reflexivity|].
  destruct (pedidoRepositorySQLite_FindByID id db) as [[pedido|] [e'|]];
    try (intros [= _ <-]; reflexivity); try discriminate.
  unfold pedidoRepositorySQLite_Update, Save_Pedido.
  destruct (Pedido_ID _ =? 0)%N.
  - unfold pedidoRepositorySQLite_Create.
    destruct (bool_decide _); [intros [= _ <-]; reflexivity|].
    destruct (save_Itens _ _ _). cbn [is_null N.eqb]. discriminate.
  - destruct (save_Itens _ _ _). cbn [N.eqb]. discriminate.
Qed.

Lemma UpdateStatus_error_writes_nothing_witness :
  snd (pedidoServiceImpl_UpdateStatus 7 (mkUpdatePedidoRequest "pago") loja_com_pedido)
  = loja_com_pedido.
Proof.
  apply (UpdateStatus_error_writes_nothing 7 (mkUpdatePedidoRequest "pago") loja_com_pedido
           (errors_New "pedido not found")).
  reflexivity.
Defined.

(** X7.  After a successful [UpdateStatus] of order [id] (not zero),
    [FindByStatus] of the new status returns the order, and [FindByStatus]
    of any other status does not. *)
Theorem UpdateStatus_then_FindByStatus id req db resp db' :
  id <> 0%N ->
  pedidoServiceImpl_UpdateStatus id req db = (Ok resp, db') ->
  (exists p, p ∈ fst (pedidoRepositorySQLite_FindByStatus (UpdatePedidoRequest_Status req) db')
             /\ Pedido_ID p = id)
  /\ forall status p,
       status <> UpdatePedidoRequest_Status req ->
       p ∈ fst (pedidoRepositorySQLite_FindByStatus status db') -> Pedido_ID p <> id.
Proof.
  intros Hid H.
  destruct (UpdateStatus_inversion id req db _ _ Hid H)
    as [(e & [=] & _)|(stored & Hstored & Hlive & _ & Hdb & _)].
  assert (Hfind : exists p,
             pedidoRepositorySQLite_FindByID id db' = (Some p, None)
             /\ Pedido_ID p = id /\ Pedido_Status p = UpdatePedidoRequest_Status req).
  { unfold pedidoRepositorySQLite_FindByID, First_Pedido, First.
    rewrite Hdb. cbn [pedidos set_pedidos]. rewrite lookup_insert_eq.
    cbn [Pedido_DeletedAt Pedido_columns Pedido_with_Status]. rewrite Hlive. cbn [is_null].
    eexists. split; [reflexivity|]. split; reflexivity. }
  destruct Hfind as (p & Hp & Hpid & Hps).
  split.
  - exists p. split; [|exact Hpid].
    apply pedidoRepositorySQLite_FindByStatus_elem. split; [|exact Hps].
    apply pedidoRepositorySQLite_FindAll_elem. eauto.
  - intros status q Hne Hq Hqid.
    apply pedidoRepositorySQLite_FindByStatus_elem in Hq as [Hq Hqs].
    apply pedidoRepositorySQLite_FindAll_elem in Hq as (k & Hk).
    assert (k = id).
    { unfold pedidoRepositorySQLite_FindByID in Hk.
      destruct (First_Pedido db' k) as [row|] eqn:E; [|discriminate].
      injection Hk as <-. unfold First_Pedido in E.
      apply First_Some in E as (s0 & _ & _ & ->). exact Hqid. }
    subst k. rewrite Hp in Hk. injection Hk as <-. congruence.
Qed.

Lemma UpdateStatus_then_FindByStatus_witness :
  (exists p, p ∈ fst (pedidoRepositorySQLite_FindByStatus "entregue" loja_entregue)
             /\ Pedido_ID p = 1%N)
  /\ forall status p,
       status <> "entregue" ->
       p ∈ fst (pedidoRepositorySQLite_FindByStatus status loja_entregue) ->
       Pedido_ID p <> 1%N.
Proof.
  destruct (pedidoServiceImpl_UpdateStatus 1 (mkUpdatePedidoRequest "entregue") loja_com_pedido)
    as [r db'] eqn:E.
  assert (Hdb : db' = loja_entregue) by (unfold loja_entregue; rewrite E; reflexivity).
  destruct r as [resp| |]; [|vm_compute in E; discriminate E|vm_compute in E; discriminate E].
  assert (Hid : 1%N <> 0%N) by discriminate.
  rewrite <- Hdb.
  exact (UpdateStatus_then_FindByStatus 1 (mkUpdatePedidoRequest "entregue")
           loja_com_pedido resp db' Hid E).
Defined.

(** ** Orders: [Delete] *)

Lemma pedidoServiceImpl_Delete_inversion now id db e db' :
  pedidoServiceImpl_Delete now id db = (e, db') ->
  (pedidos db !! id = None \/ exists row t, pedidos db !! id = Some row /\ Pedido_DeletedAt row = Some t)
  /\ e = Some (errors_New "pedido not found") /\ db' = db
  \/ exists row,
       pedidos db !! id = Some row /\ Pedido_DeletedAt row = None
       /\ e = None
       /\ db' = set_pedidos (<[id := Pedido_deleted now row]> (pedidos db)) (pedido_produtos db) db.
Proof.
  unfold pedidoServiceImpl_Delete, pedidoRepositorySQLite_FindByID,
    pedidoRepositorySQLite_Delete, soft_delete, First_Pedido, First.
  destruct (pedidos db !! id) as [row|] eqn:E.
  - destruct (Pedido_DeletedAt row) as [t|] eqn:Ed; cbn [is_null N.eqb].
    + intros [= <- <-]. left. split; [right; eauto|]. split; reflexivity.
    + intros [= <- <-]. right. exists row.
      split; [reflexivity|]. split; [exact Ed|]. split; reflexivity.
  - intros [= <- <-]. left. split; [left; reflexivity|]. split; reflexivity.
Qed.

(** X8.  After a successful [Delete] the order is no longer found, a
    further [Delete] of it fails with the order-not-found error and writes
    nothing, the count is one less, and every other order reads as it
    did. *)
Theorem pedido_Delete_then_gone now id db db' :
  pedidoServiceImpl_Delete now id db = (None, db') ->
  pedidoServiceImpl_FindByID id db' = Err (errors_New "pedido not found")
  /\ (forall later,
        pedidoServiceImpl_Delete later id db' = (Some (errors_New "pedido not found"), db'))
  /\ fst (pedidoServiceImpl_Count db') = fst (pedidoServiceImpl_Count db) - 1
  /\ forall other, other <> id ->
       pedidoServiceImpl_FindByID other db' = pedidoServiceImpl_FindByID other db.
Proof.
  intros H.
  destruct (pedidoServiceImpl_Delete_inversion _ _ _ _ _ H)
    as [(_ & [=] & _)|(row & Hrow & Hlive & _ & ->)].
  split; [|split; [|split]].
  - unfold pedidoServiceImpl_FindByID, pedidoRepositorySQLite_FindByID, First_Pedido, First.
    cbn [pedidos set_pedidos]. rewrite lookup_insert_eq. reflexivity.
  - intros later.
    unfold pedidoServiceImpl_Delete, pedidoRepositorySQLite_FindByID, First_Pedido, First.
    cbn [pedidos set_pedidos]. rewrite lookup_insert_eq. reflexivity.
  - unfold pedidoServiceImpl_Count, pedidoRepositorySQLite_Count.
    cbn [fst pedidos set_pedidos].
    apply count_live_soft_delete; [exact Hrow|exact Hlive|discriminate].
  - intros other Hother.
    unfold pedidoServiceImpl_FindByID, pedidoRepositorySQLite_FindByID, First_Pedido, First.
    cbn [pedidos set_pedidos]. rewrite lookup_insert_ne by congruence. reflexivity.
Qed.

Lemma pedido_Delete_then_gone_witness :
  pedidoServiceImpl_FindByID 1 (snd (pedidoServiceImpl_Delete 1700000500 1 loja_com_pedido))
  = Err (errors_New "pedido not found")
  /\ fst (pedidoServiceImpl_Count (snd (pedidoServiceImpl_Delete 1700000500 1 loja_com_pedido)))
     = fst (pedidoServiceImpl_Count loja_com_pedido) - 1.
Proof.
  destruct (pedido_Delete_then_gone 1700000500 1 loja_com_pedido
              (snd (pedidoServiceImpl_Delete 1700000500 1 loja_com_pedido)))
    as (Hgone & _ & Hcount & _).
  - vm_compute. reflexivity.
  - split; [exact Hgone|exact Hcount].
Defined.

(** X9.  [Delete] of an order does not cascade: whatever its outcome, the
    stored lines, the products and the customers are the ones they were,
    so the lines of a deleted order stay in the table, not deleted.  Its
    only error is the order-not-found error, and then nothing at all is
    written. *)
Theorem pedido_Delete_keeps_lines now id db e db' :
  pedidoServiceImpl_Delete now id db = (e, db') ->
  pedido_produtos db' = pedido_produtos db
  /\ produtos db' = produtos db /\ clientes db' = clientes db
  /\ (e <> None -> e = Some (errors_New "pedido not found") /\ db' = db)
  /\ preload_Itens db' id = preload_Itens db id.
Proof.
  intros H.
  destruct (pedidoServiceImpl_Delete_inversion _ _ _ _ _ H)
    as [(_ & -> & ->)|(row & _ & _ & -> & ->)].
  - split; [reflexivity|]. split; [reflexivity|]. split; [reflexivity|].
    split; [|reflexivity]. intros _. split; reflexivity.
  - split; [reflexivity|]. split; [reflexivity|]. split; [reflexivity|].
    split; [|reflexivity]. intros Hn. destruct (Hn eq_refl).
Qed.

Lemma pedido_Delete_keeps_lines_witness :
  pedido_produtos (snd (pedidoServiceImpl_Delete 1700000500 1 loja_com_pedido))
  = pedido_produtos loja_com_pedido
  /\ length (preload_Itens (snd (pedidoServiceImpl_Delete 1700000500 1 loja_com_pedido)) 1)
     = 2%nat.
Proof.
  destruct (pedido_Delete_keeps_lines 1700000500 1 loja_com_pedido None
              (snd (pedidoServiceImpl_Delete 1700000500 1 loja_com_pedido)))
    as (Hl & _ & _ & _ & Hp).
  - vm_compute. reflexivity.
  - split; [exact Hl|]. rewrite Hp. vm_compute. reflexivity.
Defined.

(** ** An invariant of the store *)

Lemma oneof_default_status s :
  String.eqb s "" = true \/ oneof status_vocabulary s = true ->
  oneof status_vocabulary (if String.eqb s "" then "pendente" else s) = true.
Proof. destruct (String.eqb s ""); [reflexivity|]. intros [H|H]; [discriminate|exact H]. Qed.

Lemma statuses_insert db id row rows :
  statuses_in_vocabulary db ->
  oneof status_vocabulary (Pedido_Status row) = true ->
  statuses_in_vocabulary (set_pedidos (<[id := row]> (pedidos db)) rows db).
Proof.
  intros Hs Hrow k r. cbn [pedidos set_pedidos].
  destruct (decide (id = k)) as [->|Hne].
  - rewrite lookup_insert_eq. intros [= <-]. exact Hrow.
  - rewrite lookup_insert_ne by exact Hne. apply Hs.
Qed.

Lemma pedidoRepositorySQLite_Create_keyed pedido db :
  rows_keyed db -> rows_keyed (snd (pedidoRepositorySQLite_Create pedido db)).
Proof.
  intros Hk. unfold pedidoRepositorySQLite_Create.
  destruct (bool_decide _); [exact Hk|].
  match goal with
  | |- context [save_Itens ?i ?l ?r] =>
    pose proof (save_Itens_keyed i l r Hk) as H; destruct (save_Itens i l r) as [itens rows]
  end.
  exact H.
Qed.

Lemma pedidoRepositorySQLite_Update_keyed pedido db :
  rows_keyed db -> rows_keyed (snd (pedidoRepositorySQLite_Update pedido db)).
Proof.
  intros Hk. unfold pedidoRepositorySQLite_Update, Save_Pedido.
  destruct (Pedido_ID pedido =? 0)%N.
  - pose proof (pedidoRepositorySQLite_Create_keyed pedido db Hk) as H.
    destruct (pedidoRepositorySQLite_Create pedido db) as [[saved err] db'].
    destruct err; exact H.
  - match goal with
    | |- context [save_Itens ?i ?l ?r] =>
      pose proof (save_Itens_keyed i l r Hk) as H; destruct (save_Itens i l r) as [itens rows]
    end.
    exact H.
Qed.

Lemma pedidoRepositorySQLite_Create_statuses pedido db :
  statuses_in_vocabulary db ->
  String.eqb (Pedido_Status pedido) "" = true
  \/ oneof status_vocabulary (Pedido_Status pedido) = true ->
  statuses_in_vocabulary (snd (pedidoRepositorySQLite_Create pedido db)).
Proof.
  intros Hs Hp. unfold pedidoRepositorySQLite_Create.
  destruct (bool_decide _); [exact Hs|].
  destruct (save_Itens _ _ _) as [itens rows]. cbn [snd].
  apply statuses_insert; [exact Hs|]. apply oneof_default_status, Hp.
Qed.

Lemma pedidoRepositorySQLite_Update_statuses pedido db :
  statuses_in_vocabulary db ->
  oneof status_vocabulary (Pedido_Status pedido) = true ->
  statuses_in_vocabulary (snd (pedidoRepositorySQLite_Update pedido db)).
Proof.
  intros Hs Hp. unfold pedidoRepositorySQLite_Update, Save_Pedido.
  destruct (Pedido_ID pedido =? 0)%N.
  - pose proof (pedidoRepositorySQLite_Create_statuses pedido db Hs (or_intror Hp)) as H.
    destruct (pedidoRepositorySQLite_Create pedido db) as [[saved err] db'].
    destruct err; exact H.
  - destruct (First_Pedido db (Pedido_ID pedido));
      destruct (save_Itens _ _ _) as [itens rows]; cbn [snd N.eqb];
      (apply statuses_insert; [exact Hs|]).
    + exact Hp.
    + apply oneof_default_status. right. exact Hp.
Qed.

Lemma subtotal_computed_BeforeSave k id pp :
  subtotal_computed (PedidoProduto_columns (PedidoProduto_with_keys k id (BeforeSave pp))).
Proof. reflexivity. Qed.

Lemma save_item_subtotals pedido_id acc pp :
  Forall subtotal_computed (snd acc) ->
  Forall subtotal_computed (snd (save_item pedido_id acc pp)).
Proof.
  destruct acc as [saved rows]. cbn [snd]. intros H. unfold save_item.
  destruct (PedidoProduto_ID (BeforeSave pp) =? 0)%N; cbn [snd].
  - apply Forall_app. split; [exact H|]. repeat constructor.
  - destruct (has_row _ rows); cbn [snd].
    + apply Forall_map. eapply Forall_impl; [exact H|].
      intros r Hr. cbn beta.
      destruct (PedidoProduto_ID r =? _)%N; [exact Hr|exact Hr].
    + apply Forall_insert_row; [apply subtotal_computed_BeforeSave|exact H].
Qed.

Lemma save_Itens_subtotals pedido_id itens rows :
  Forall subtotal_computed rows ->
  Forall subtotal_computed (snd (save_Itens pedido_id itens rows)).
Proof.
  unfold save_Itens. change rows with (snd (@nil PedidoProduto, rows)) at 1.
  generalize (@nil PedidoProduto, rows).
  induction itens as [|pp itens IH]; intros acc H; [exact H|].
  cbn [fold_left]. apply IH, save_item_subtotals, H.
Qed.

Lemma pedidoRepositorySQLite_Create_subtotals pedido db :
  subtotals_computed db -> subtotals_computed (snd (pedidoRepositorySQLite_Create pedido db)).
Proof.
  intros Hc. unfold pedidoRepositorySQLite_Create.
  destruct (bool_decide _); [exact Hc|].
  match goal with
  | |- context [save_Itens ?i ?l ?r] =>
    pose proof (save_Itens_subtotals i l r Hc) as H; destruct (save_Itens i l r) as [itens rows]
  end.
  exact H.
Qed.

Lemma pedidoRepositorySQLite_Update_subtotals pedido db :
  subtotals_computed db -> subtotals_computed (snd (pedidoRepositorySQLite_Update pedido db)).
Proof.
  intros Hc. unfold pedidoRepositorySQLite_Update, Save_Pedido.
  destruct (Pedido_ID pedido =? 0)%N.
  - pose proof (pedidoRepositorySQLite_Create_subtotals pedido db Hc) as H.
    destruct (pedidoRepositorySQLite_Create pedido db) as [[saved err] db'].
    destruct err; exact H.
  - match goal with
    | |- context [save_Itens ?i ?l ?r] =>
      pose proof (save_Itens_subtotals i l r Hc) as H; destruct (save_Itens i l r) as [itens rows]
    end.
    exact H.
Qed.

Lemma Create_subtotals now req db :
  subtotals_computed db -> subtotals_computed (snd (pedidoServiceImpl_Create now req db)).
Proof.
  intros Hc. destruct (pedidoServiceImpl_Create now req db) as [r db'] eqn:E.
  destruct (Create_inversion _ _ _ _ _ E)
    as [(e & _ & ->)|[(_ & ->)|(itens & v & saved & rows & _ & _ & _ & _ & -> & <- & _)]];
    try exact Hc.
  apply save_Itens_subtotals, Hc.
Qed.

Lemma validate_CreatePedidoRequest_status req :
  validate_CreatePedidoRequest req = [] ->
  String.eqb (CreatePedidoRequest_Status req) "" = true
  \/ oneof status_vocabulary (CreatePedidoRequest_Status req) = true.
Proof.
  unfold validate_CreatePedidoRequest. intros H.
  apply app_eq_nil in H as [_ H]. apply app_eq_nil in H as [_ H].
  destruct (String.eqb (CreatePedidoRequest_Status req) ""); [left; reflexivity|].
  right. cbn [omitempty first_failure] in H.
  destruct (oneof _ _); [reflexivity|discriminate].
Qed.

Lemma Create_statuses now req db :
  statuses_in_vocabulary db ->
  statuses_in_vocabulary (snd (pedidoServiceImpl_Create now req db)).
Proof.
  intros Hs. destruct (pedidoServiceImpl_Create now req db) as [r db'] eqn:E.
  destruct (Create_inversion _ _ _ _ _ E)
    as [(e & _ & ->)|[(_ & ->)|(itens & v & saved & rows & _ & Hv & _ & -> & -> & _)]];
    try exact Hs.
  cbn [snd]. apply statuses_insert; [exact Hs|].
  apply oneof_default_status, validate_CreatePedidoRequest_status, Hv.
Qed.

Lemma Create_keyed now req db :
  rows_keyed db -> rows_keyed (snd (pedidoServiceImpl_Create now req db)).
Proof.
  intros Hk. destruct (pedidoServiceImpl_Create now req db) as [r db'] eqn:E.
  destruct (Create_inversion _ _ _ _ _ E)
    as [(e & _ & ->)|[(_ & ->)|(itens & v & saved & rows & _ & _ & _ & _ & -> & <- & _)]];
    try exact Hk.
  apply save_Itens_keyed, Hk.
Qed.

Lemma UpdateStatus_well_formed id req db :
  well_formed db -> well_formed (snd (pedidoServiceImpl_UpdateStatus id req db)).
Proof.
  intros (Ho & Hk & Hs & Hc). split; [apply UpdateStatus_owned, Ho|].
  unfold pedidoServiceImpl_UpdateStatus.
  destruct (oneof status_vocabulary (UpdatePedidoRequest_Status req)) eqn:Hin.
  2: { destruct (validate_UpdatePedidoRequest_out req Hin) as [tag ->].
       (split; [|split]; assumption). }
  rewrite (validate_Struct_nil _ (validate_UpdatePedidoRequest_in req Hin)).
  destruct (pedidoRepositorySQLite_FindByID id db) as [[pedido|] [e|]];
    try ((split; [|split]; assumption)).
  match goal with
  | |- context [pedidoRepositorySQLite_Update ?p db] =>
    pose proof (pedidoRepositorySQLite_Update_keyed p db Hk) as H1;
    pose proof (pedidoRepositorySQLite_Update_statuses p db Hs Hin) as H2;
    pose proof (pedidoRepositorySQLite_Update_subtotals p db Hc) as H3;
    destruct (pedidoRepositorySQLite_Update p db) as [[saved err] db']
  end.
  destruct err; (split; [|split]; assumption).
Qed.

Lemma well_formed_frame db db' :
  pedidos db' = pedidos db -> pedido_produtos db' = pedido_produtos db ->
  well_formed db -> well_formed db'.
Proof.
  unfold well_formed, lines_owned, rows_keyed, statuses_in_vocabulary, subtotals_computed.
  intros -> ->. trivial.
Qed.

Lemma produtoServiceImpl_Create_frame req db :
  let db' := snd (produtoServiceImpl_Create req db) in
  clientes db' = clientes db /\ pedidos db' = pedidos db
  /\ pedido_produtos db' = pedido_produtos db.
Proof.
  unfold produtoServiceImpl_Create.
  destruct (validate_Struct _); [done|].
  destruct (produtoRepositorySQLite_FindBySKU _ db) as [[existente|] [e|]]; try done.
  unfold produtoRepositorySQLite_Create. cbn [Produto_ID N.eqb].
  destruct (bool_decide _); [done|]. destruct (sku_taken _ _ _); done.
Qed.

Lemma produtoServiceImpl_Delete_frame now id db :
  let db' := snd (produtoServiceImpl_Delete now id db) in
  clientes db' = clientes db /\ pedidos db' = pedidos db
  /\ pedido_produtos db' = pedido_produtos db.
Proof.
  unfold produtoServiceImpl_Delete, produtoRepositorySQLite_Delete, soft_delete.
  destruct (produtoRepositorySQLite_FindByID id db) as [p [e|]]; [done|].
  destruct (produtos db !! id) as [row|]; [|done].
  destruct (is_null _); done.
Qed.

(** X10.  The services keep the store well formed: when every stored line
    belongs to a stored order, the keys of the lines are distinct and not
    zero, every stored order has a status of the vocabulary and every
    stored line has for subtotal its quantity times its unit price, the
    same holds after any call of the order service or of the product
    service, whatever its outcome.  The empty database is well formed. *)
Theorem services_keep_well_formed db :
  well_formed db ->
  (forall now req, well_formed (snd (pedidoServiceImpl_Create now req db)))
  /\ (forall id req, well_formed (snd (pedidoServiceImpl_UpdateStatus id req db)))
  /\ (forall now id, well_formed (snd (pedidoServiceImpl_Delete now id db)))
  /\ (forall req, well_formed (snd (produtoServiceImpl_Create req db)))
  /\ (forall id req, well_formed (snd (produtoServiceImpl_Update id req db)))
  /\ (forall now id, well_formed (snd (produtoServiceImpl_Delete now id db)))
  /\ well_formed (mkDB ∅ ∅ ∅ []).
Proof.
  intros Hw. split; [|split; [|split; [|split; [|split; [|split]]]]].
  - intros now req. destruct Hw as (Ho & Hk & Hs & Hc).
    split; [apply Create_owned, Ho|]. split; [apply Create_keyed, Hk|].
    split; [apply Create_statuses, Hs|apply Create_subtotals, Hc].
  - intros id req. apply UpdateStatus_well_formed, Hw.
  - intros now id. destruct (pedidoServiceImpl_Delete now id db) as [e db'] eqn:E.
    destruct (pedidoServiceImpl_Delete_inversion _ _ _ _ _ E)
      as [(_ & _ & ->)|(row & Hrow & _ & _ & ->)]; [exact Hw|].
    destruct Hw as (Ho & Hk & Hs & Hc). cbn [snd]. split; [|split; [|split]].
    + unfold lines_owned. cbn [pedidos pedido_produtos set_pedidos].
      eapply Forall_impl; [exact Ho|]. intros pp [x Hx]. cbn beta.
      destruct (decide (id = PedidoProduto_PedidoID pp)) as [->|Hne].
      * rewrite lookup_insert_eq. eexists; reflexivity.
      * rewrite lookup_insert_ne by exact Hne. eexists; exact Hx.
    + exact Hk.
    + apply statuses_insert; [exact Hs|]. exact (Hs _ _ Hrow).
    + exact Hc.
  - intros req. destruct (produtoServiceImpl_Create_frame req db) as (_ & Hp & Hl).
    exact (well_formed_frame _ _ Hp Hl Hw).
  - intros id req. destruct (produtoServiceImpl_Update_frame id req db) as (_ & Hp & Hl).
    exact (well_formed_frame _ _ Hp Hl Hw).
  - intros now id. destruct (produtoServiceImpl_Delete_frame now id db) as (_ & Hp & Hl).
    exact (well_formed_frame _ _ Hp Hl Hw).
  - split; [constructor|]. split; [split; constructor|]. split; [|constructor].
    intros k row. cbn [pedidos]. rewrite lookup_empty. discriminate.
Qed.

Lemma services_keep_well_formed_witness : well_formed loja /\ well_formed loja_com_pedido.
Proof.
  assert (Hw : well_formed loja).
  { split; [constructor|]. split; [split; constructor|]. split; [|constructor].
    intros k row. cbn [pedidos loja]. rewrite lookup_empty. discriminate. }
  split; [exact Hw|].
  destruct (services_keep_well_formed loja Hw) as (H & _). apply H.
Defined.

(** ** Orders: the outcomes of [Create] *)

(** The loop ends well exactly when every line passes; otherwise it ends
    with the error of the first line that does not. *)
Lemma Create_itens_outcome db reqs : forall itens valorTotal,
  (Forall (fun l => line_passes db l = true) reqs
   /\ Create_itens db reqs itens valorTotal =
      Ok (itens ++ map (new_item db) reqs,
          fold_left (fun acc l => (acc + line_subtotal db l)%float) reqs valorTotal))
  \/ exists pre l post,
       reqs = pre ++ l :: post
       /\ Forall (fun l' => line_passes db l' = true) pre
       /\ line_passes db l = false
       /\ Create_itens db reqs itens valorTotal = Err (line_error db l).
Proof.
  induction reqs as [|l reqs IH]; intros itens valorTotal.
  - left. split; [constructor|]. cbn. rewrite app_nil_r. reflexivity.
  - destruct (line_passes db l) eqn:Hl.
    + rewrite Create_itens_cons_passes by exact Hl.
      destruct (IH (itens ++ [new_item db l]) (valorTotal + line_subtotal db l)%float)
        as [[Hall Hok]|(pre & l' & post & -> & Hpre & Hl' & Herr)].
      * left. split; [constructor; assumption|].
        rewrite Hok. cbn [map fold_left]. rewrite <- app_assoc. reflexivity.
      * right. exists (l :: pre), l', post.
        split; [reflexivity|]. split; [constructor; assumption|]. split; assumption.
    + right. exists [], l, reqs.
      split; [reflexivity|]. split; [constructor|]. split; [exact Hl|].
      unfold line_error. destruct (line_product db l) as [p|] eqn:Hp.
      * apply Create_itens_checks; assumption.
      * apply Create_itens_not_found; assumption.
Qed.

(** Past validation and the loop, [Create] stores the order; its outcome
    is then decided by the customer read at the start. *)
Lemma Create_store_path now req db itens valorTotal :
  validate_CreatePedidoRequest req = [] ->
  Create_itens db (request_lines req) [] 0%float = Ok (itens, valorTotal) ->
  match First_Cliente db (CreatePedidoRequest_ClienteID req) with
  | Some _ => exists resp db', pedidoServiceImpl_Create now req db = (Ok resp, db')
  | None => exists db', pedidoServiceImpl_Create now req db = (Panic, db')
  end.
Proof.
  intros Hv Hok. unfold pedidoServiceImpl_Create.
  rewrite (validate_Struct_nil _ Hv), clienteRepositorySQLite_FindByID_nil_error, Hok.
  unfold pedidoRepositorySQLite_Create. cbn [Pedido_ID N.eqb].
  rewrite bool_decide_eq_false_2 by (rewrite next_id_fresh; intros [? [=]]).
  cbn [Pedido_Itens Pedido_defaults].
  destruct (save_Itens _ _ _) as [saved_itens rows].
  cbn [Pedido_ID Pedido_ClienteID Pedido_Cliente Pedido_ValorTotal Pedido_Status
       Pedido_DataPedido Pedido_DeletedAt Pedido_columns].
  unfold pedidoRepositorySQLite_FindByID, First_Pedido.
  cbn [pedidos set_pedidos]. rewrite First_insert by reflexivity.
  destruct (First_Cliente db (CreatePedidoRequest_ClienteID req)); eauto.
Qed.

Lemma Create_outcome now req db :
  (validate_CreatePedidoRequest req <> []
   /\ pedidoServiceImpl_Create now req db
      = (Err (ValidationErrors (validate_CreatePedidoRequest req)), db))
  \/ (validate_CreatePedidoRequest req = []
      /\ exists pre l post,
           request_lines req = pre ++ l :: post
           /\ Forall (fun l' => line_passes db l' = true) pre
           /\ line_passes db l = false
           /\ pedidoServiceImpl_Create now req db = (Err (line_error db l), db))
  \/ (validate_CreatePedidoRequest req = []
      /\ Forall (fun l => line_passes db l = true) (request_lines req)
      /\ match First_Cliente db (CreatePedidoRequest_ClienteID req) with
         | Some _ => exists resp db', pedidoServiceImpl_Create now req db = (Ok resp, db')
         | None => exists db', pedidoServiceImpl_Create now req db = (Panic, db')
         end).
Proof.
  destruct (validate_CreatePedidoRequest req) as [|fe errs] eqn:Hv.
  - right.
    destruct (Create_itens_outcome db (request_lines req) [] 0%float)
      as [[Hall Hok]|(pre & l & post & Hlines & Hpre & Hl & Herr)].
    + right. split; [reflexivity|]. split; [exact Hall|].
      exact (Create_store_path now req db _ _ Hv Hok).
    + left. split; [reflexivity|]. exists pre, l, post.
      split; [exact Hlines|]. split; [exact Hpre|]. split; [exact Hl|].
      apply Create_fails_in_loop; assumption.
  - left. split; [discriminate|].
    unfold pedidoServiceImpl_Create. rewrite Hv. reflexivity.
Qed.

(** X11.  [Create] returns a response exactly when the request passes
    validation, its customer resolves and every line passes the checks:
    the product of the line resolves, has stock for the quantity and is
    active. *)
Theorem Create_succeeds_exactly_when now req db :
  (exists resp db', pedidoServiceImpl_Create now req db = (Ok resp, db'))
  <-> validate_CreatePedidoRequest req = []
      /\ customer_resolves db (CreatePedidoRequest_ClienteID req) = true
      /\ Forall (fun l => line_passes db l = true) (request_lines req).
Proof.
  unfold customer_resolves.
  destruct (Create_outcome now req db)
    as [[Hv H]|[(Hv & pre & l & post & Hlines & Hpre & Hl & H)|(Hv & Hall & H)]].
  - split.
    + intros (resp & db' & E). rewrite H in E. discriminate.
    + intros (Hv' & _). contradiction.
  - split.
    + intros (resp & db' & E). rewrite H in E. discriminate.
    + intros (_ & _ & Hall). rewrite Hlines in Hall.
      apply Forall_app in Hall as [_ Hall]. inversion Hall; congruence.
  - destruct (First_Cliente db (CreatePedidoRequest_ClienteID req)) as [cliente|].
    + split; [intros _|intros _; exact H]. repeat split; assumption.
    + destruct H as (db' & H). split.
      * intros (resp & db'' & E). rewrite H in E. discriminate.
      * intros (_ & [=] & _).
Qed.



(** ** Products: lookups by SKU *)

Lemma first_where_spec (f : Produto -> bool) (t : gmap N Produto) :
  match first_where f t with
  | None =>
    forall k p, t !! k = Some p -> f p = true -> Produto_DeletedAt p = None -> False
  | Some row =>
    exists k p, t !! k = Some p /\ f p = true /\ Produto_DeletedAt p = None
                /\ row = Produto_with_ID k p
                /\ forall j q, t !! j = Some q -> f q = true ->
                               Produto_DeletedAt q = None -> (k <= j)%N
  end.
Proof.
  unfold first_where.
  match goal with
  | |- context [map_fold ?g None t] =>
    assert (H : match map_fold g None t with
                | None =>
                  forall k p, t !! k = Some p -> f p = true ->
                              Produto_DeletedAt p = None -> False
                | Some (k, row) =>
                  exists p, t !! k = Some p /\ f p = true /\ Produto_DeletedAt p = None
                            /\ row = Produto_with_ID k p
                            /\ forall j q, t !! j = Some q -> f q = true ->
                                           Produto_DeletedAt q = None -> (k <= j)%N
                end);
    [|destruct (map_fold g None t) as [[k row]|]; cbn [fmap option_fmap option_map snd];
      [destruct H as (p & H); exists k, p; exact H|exact H]]
  end.
  apply (map_fold_weak_ind
           (fun acc (m : gmap N Produto) =>
              match acc with
              | None =>
                forall k p, m !! k = Some p -> f p = true ->
                            Produto_DeletedAt p = None -> False
              | Some (k, row) =>
                exists p, m !! k = Some p /\ f p = true /\ Produto_DeletedAt p = None
                          /\ row = Produto_with_ID k p
                          /\ forall j q, m !! j = Some q -> f q = true ->
                                         Produto_DeletedAt q = None -> (k <= j)%N
              end)).
  - intros k p Hk. rewrite lookup_empty in Hk. discriminate.
  - intros i x m r Hi IH.
    destruct (f x) eqn:Hf; [destruct (Produto_DeletedAt x) eqn:Hd|]; cbn [andb is_null].
    2: { destruct r as [[j row]|].
         - destruct IH as (p & Hp & Hfp & Hdp & Hrow & Hmin).
           assert (Hji : j <> i) by (intros ->; congruence).
           destruct (j <? i)%N eqn:Hlt.
           + exists p. rewrite lookup_insert_ne by congruence.
             repeat (split; [assumption|]).
             intros j' q Hq Hfq Hdq. destruct (decide (i = j')) as [<-|Hne].
             * apply N.ltb_lt in Hlt. lia.
             * rewrite lookup_insert_ne in Hq by exact Hne. eauto.
           + exists x. rewrite lookup_insert_eq.
             repeat (split; [first [assumption|reflexivity]|]).
             intros j' q Hq Hfq Hdq. destruct (decide (i = j')) as [<-|Hne]; [lia|].
             rewrite lookup_insert_ne in Hq by exact Hne.
             apply N.ltb_ge in Hlt. specialize (Hmin _ _ Hq Hfq Hdq). lia.
         - exists x. rewrite lookup_insert_eq.
           repeat (split; [first [assumption|reflexivity]|]).
           intros j' q Hq Hfq Hdq. destruct (decide (i = j')) as [<-|Hne]; [lia|].
           rewrite lookup_insert_ne in Hq by exact Hne. destruct (IH _ _ Hq Hfq Hdq). }
    all: destruct r as [[j row]|];
      [destruct IH as (p & Hp & Hfp & Hdp & Hrow & Hmin);
       assert (Hji : j <> i) by (intros ->; congruence);
       exists p; rewrite lookup_insert_ne by congruence;
       repeat (split; [assumption|]);
       intros j' q Hq Hfq Hdq; destruct (decide (i = j')) as [<-|Hne];
       [rewrite lookup_insert_eq in Hq; injection Hq as <-; congruence
       |rewrite lookup_insert_ne in Hq by exact Hne; eauto]
      |intros k p Hk Hfp Hdp; destruct (decide (i = k)) as [<-|Hne];
       [rewrite lookup_insert_eq in Hk; injection Hk as <-; congruence
       |rewrite lookup_insert_ne in Hk by exact Hne; eauto]].
Qed.

Lemma sku_taken_spec id sku (t : gmap N Produto) :
  sku_taken id sku t = true <->
  exists k p, t !! k = Some p /\ Produto_SKU p = sku /\ k <> id.
Proof.
  unfold sku_taken.
  apply (map_fold_weak_ind
           (fun acc (m : gmap N Produto) =>
              acc = true <-> exists k p, m !! k = Some p /\ Produto_SKU p = sku /\ k <> id)).
  - split; [discriminate|]. intros (k & p & Hk & _). rewrite lookup_empty in Hk. discriminate.
  - intros i x m r Hi IH. rewrite orb_true_iff, andb_true_iff, negb_true_iff, IH.
    rewrite String.eqb_eq, N.eqb_neq. split.
    + intros [(k & p & Hk & Hs & Hne)|[Hs Hne]].
      * exists k, p. rewrite lookup_insert_ne by congruence. auto.
      * exists i, x. rewrite lookup_insert_eq. auto.
    + intros (k & p & Hk & Hs & Hne). destruct (decide (i = k)) as [<-|Hik].
      * rewrite lookup_insert_eq in Hk. injection Hk as <-. right. auto.
      * rewrite lookup_insert_ne in Hk by exact Hik. left. eauto.
Qed.

(** ** Products: [Create] *)

Lemma produtoServiceImpl_Create_inversion req db resp db' :
  produtoServiceImpl_Create req db = (Ok resp, db') ->
  exists row,
    row = mkProduto (next_id (produtos db)) (CreateProdutoRequest_Nome req)
            (CreateProdutoRequest_Descricao req) (CreateProdutoRequest_Preco req)
            (CreateProdutoRequest_Estoque req) (CreateProdutoRequest_SKU req)
            (CreateProdutoRequest_Categoria req) true None
    /\ validate_CreateProdutoRequest req = []
    /\ (forall k p, produtos db !! k = Some p ->
                    Produto_SKU p <> CreateProdutoRequest_SKU req)
    /\ produtos db !! next_id (produtos db) = None
    /\ resp = produtoServiceImpl_toResponse row
    /\ db' = set_produtos (<[next_id (produtos db) := row]> (produtos db)) db.
Proof.
  unfold produtoServiceImpl_Create.
  destruct (validate_Struct _) as [e|] eqn:Ev; [discriminate|].
  assert (Hv : validate_CreateProdutoRequest req = []).
  { unfold validate_Struct in Ev.
    destruct (validate_CreateProdutoRequest req); [reflexivity|discriminate]. }
  destruct (produtoRepositorySQLite_FindBySKU _ db) as [[existente|] [e|]]; try discriminate.
  unfold produtoRepositorySQLite_Create. cbn [Produto_ID N.eqb].
  destruct (bool_decide _); [discriminate|].
  cbn [Produto_SKU].
  destruct (sku_taken _ _ _) eqn:Et; [discriminate|].
  assert (Hsku : forall k p, produtos db !! k = Some p ->
                             Produto_SKU p <> CreateProdutoRequest_SKU req).
  { intros k p Hk Hs.
    assert (H : sku_taken (next_id (produtos db)) (CreateProdutoRequest_SKU req) (produtos db)
                = true).
    { apply sku_taken_spec. exists k, p. split; [exact Hk|]. split; [exact Hs|].
      intros ->. rewrite next_id_fresh in Hk. discriminate. }
    congruence. }
  destruct (CreateProdutoRequest_Ativo req) as [[|]|]; intros [= <- <-];
    (eexists; split; [reflexivity|]; split; [exact Hv|]; split; [exact Hsku|];
     split; [apply next_id_fresh|]; split; reflexivity).
Qed.

(** X13.  Round trip of a product: after a successful [Create], [FindByID]
    of the id in the response returns that response, the lookup by the SKU
    of the request finds that product, the count is one more, and every
    other id reads as before. *)
Theorem produto_Create_then_find req db resp db' :
  produtoServiceImpl_Create req db = (Ok resp, db') ->
  produtoServiceImpl_FindByID (ProdutoResponse_ID resp) db' = Ok resp
  /\ (exists p, produtoRepositorySQLite_FindBySKU (CreateProdutoRequest_SKU req) db'
                = (Some p, None)
                /\ produtoServiceImpl_toResponse p = resp)
  /\ fst (produtoServiceImpl_Count db') = fst (produtoServiceImpl_Count db) + 1
  /\ forall other, other <> ProdutoResponse_ID resp ->
       produtoServiceImpl_FindByID other db' = produtoServiceImpl_FindByID other db.
Proof.
  intros H.
  destruct (produtoServiceImpl_Create_inversion _ _ _ _ H)
    as (row & Hrow & _ & Hsku & Hfresh & -> & ->).
  assert (Hid : Produto_ID row = next_id (produtos db)) by (rewrite Hrow; reflexivity).
  assert (Hlive : Produto_DeletedAt row = None) by (rewrite Hrow; reflexivity).
  assert (Hself : Produto_with_ID (next_id (produtos db)) row = row)
    by (rewrite Hrow; reflexivity).
  cbn [ProdutoResponse_ID produtoServiceImpl_toResponse]. rewrite Hid.
  split; [|split; [|split]].
  - unfold produtoServiceImpl_FindByID, produtoRepositorySQLite_FindByID, First_Produto.
    cbn [produtos set_produtos]. rewrite First_insert by exact Hlive.
    rewrite Hself. reflexivity.
  - exists row. split; [|reflexivity].
    unfold produtoRepositorySQLite_FindBySKU. cbn [produtos set_produtos]. f_equal.
    pose proof (first_where_spec
                  (fun p => String.eqb (Produto_SKU p) (CreateProdutoRequest_SKU req))
                  (<[next_id (produtos db) := row]> (produtos db))) as Hspec.
    destruct (first_where _ _) as [found|].
    + destruct Hspec as (k & p & Hk & Hf & _ & -> & _).
      destruct (decide (next_id (produtos db) = k)) as [<-|Hne].
      * rewrite lookup_insert_eq in Hk. injection Hk as <-. rewrite Hself. reflexivity.
      * rewrite lookup_insert_ne in Hk by exact Hne.
        apply String.eqb_eq in Hf. destruct (Hsku _ _ Hk Hf).
    + exfalso. apply (Hspec (next_id (produtos db)) row).
      * apply lookup_insert_eq.
      * rewrite Hrow. cbn [Produto_SKU]. apply String.eqb_refl.
      * exact Hlive.
  - unfold produtoServiceImpl_Count, produtoRepositorySQLite_Count.
    cbn [fst produtos set_produtos].
    apply count_live_insert_new; assumption.
  - intros other Hother.
    unfold produtoServiceImpl_FindByID, produtoRepositorySQLite_FindByID, First_Produto, First.
    cbn [produtos set_produtos]. rewrite lookup_insert_ne by congruence. reflexivity.
Qed.

Lemma produto_Create_then_find_witness :
  exists resp,
    fst (produtoServiceImpl_Create
           (mkCreateProdutoRequest "Monitor" "" 0x1p+6 3 "MN-001" "" None) loja) = Ok resp
    /\ produtoServiceImpl_FindByID (ProdutoResponse_ID resp)
         (snd (produtoServiceImpl_Create
                 (mkCreateProdutoRequest "Monitor" "" 0x1p+6 3 "MN-001" "" None) loja))
       = Ok resp.
Proof.
  destruct (produtoServiceImpl_Create
              (mkCreateProdutoRequest "Monitor" "" 0x1p+6 3 "MN-001" "" None) loja)
    as [r db'] eqn:E.
  destruct r as [resp| |]; [|vm_compute in E; discriminate E|vm_compute in E; discriminate E].
  exists resp. split; [reflexivity|].
  destruct (produto_Create_then_find _ loja resp db' E) as (H & _). exact H.
Defined.

(** X14.  A SKU that a stored product carries is refused by [Create], and
    nothing is written: with the error of the service when the product is
    not deleted, and with the error of the unique index of the table when
    every product that carries the SKU is deleted, since the index covers
    deleted rows. *)
Theorem produto_Create_SKU_in_use req db k p :
  validate_CreateProdutoRequest req = [] ->
  produtos db !! k = Some p ->
  Produto_SKU p = CreateProdutoRequest_SKU req ->
  exists e,
    produtoServiceImpl_Create req db = (Err e, db)
    /\ (Produto_DeletedAt p = None -> e = errors_New "SKU já cadastrado")
    /\ ((forall k' p', produtos db !! k' = Some p' ->
                       Produto_SKU p' = CreateProdutoRequest_SKU req ->
                       Produto_DeletedAt p' <> None) ->
        e = sqlite_Error "UNIQUE constraint failed: produtos.sku").
Proof.
  intros Hv Hk Hs. unfold produtoServiceImpl_Create.
  rewrite (validate_Struct_nil _ Hv). unfold produtoRepositorySQLite_FindBySKU.
  pose proof (first_where_spec
                (fun p => String.eqb (Produto_SKU p) (CreateProdutoRequest_SKU req))
                (produtos db)) as Hspec.
  destruct (first_where _ _) as [found|].
  - eexists. split; [reflexivity|]. split; [reflexivity|].
    intros Hdel. destruct Hspec as (k' & p' & Hk' & Hf & Hlive & _).
    apply String.eqb_eq in Hf. destruct (Hdel _ _ Hk' Hf Hlive).
  - unfold produtoRepositorySQLite_Create. cbn [Produto_ID N.eqb Produto_SKU].
    rewrite bool_decide_eq_false_2 by (rewrite next_id_fresh; intros [? [=]]).
    assert (Ht : sku_taken (next_id (produtos db)) (CreateProdutoRequest_SKU req) (produtos db)
                 = true).
    { apply sku_taken_spec. exists k, p. split; [exact Hk|]. split; [exact Hs|].
      intros ->. rewrite next_id_fresh in Hk. discriminate. }
    rewrite Ht. eexists. split; [reflexivity|]. split; [|reflexivity].
    intros Hlive. exfalso. apply (Hspec k p Hk); [|exact Hlive].
    rewrite Hs. apply String.eqb_refl.
Qed.

Lemma produto_Create_SKU_in_use_witness :
  exists e,
    produtoServiceImpl_Create
      (mkCreateProdutoRequest "Mouse sem fio" "" 0x1p+6 3 "MS-001" "" None) loja
    = (Err e, loja)
    /\ e = errors_New "SKU já cadastrado".
Proof.
  destruct (produto_Create_SKU_in_use
              (mkCreateProdutoRequest "Mouse sem fio" "" 0x1p+6 3 "MS-001" "" None)
              loja 2%N mouse)
    as (e & He & Hlive & _).
  - vm_compute. reflexivity.
  - vm_compute. reflexivity.
  - reflexivity.
  - exists e. split; [exact He|exact (Hlive eq_refl)].
Defined.

(** ** Products: [Update] and [Delete] *)

Lemma validate_UpdateProdutoRequest_Estoque req :
  validate_UpdateProdutoRequest req = [] -> (0 <=? UpdateProdutoRequest_Estoque req) = true.
Proof.
  unfold validate_UpdateProdutoRequest. intros H.
  apply app_eq_nil in H as [_ H]. apply app_eq_nil in H as [_ H].
  apply app_eq_nil in H as [_ H]. apply app_eq_nil in H as [H _].
  cbn [first_failure] in H. destruct (0 <=? _); [reflexivity|discriminate].
Qed.

Lemma produtoServiceImpl_Update_inversion id req db resp db' :
  id <> 0%N ->
  produtoServiceImpl_Update id req db = (Ok resp, db') ->
  exists stored row,
    produtos db !! id = Some stored /\ Produto_DeletedAt stored = None
    /\ validate_UpdateProdutoRequest req = []
    /\ row = mkProduto id
               (if nonempty (UpdateProdutoRequest_Nome req)
                then UpdateProdutoRequest_Nome req else Produto_Nome stored)
               (if nonempty (UpdateProdutoRequest_Descricao req)
                then UpdateProdutoRequest_Descricao req else Produto_Descricao stored)
               (if (0 <? UpdateProdutoRequest_Preco req)%float
                then UpdateProdutoRequest_Preco req else Produto_Preco stored)
               (UpdateProdutoRequest_Estoque req)
               (if nonempty (UpdateProdutoRequest_SKU req)
                then UpdateProdutoRequest_SKU req else Produto_SKU stored)
               (if nonempty (UpdateProdutoRequest_Categoria req)
                then UpdateProdutoRequest_Categoria req else Produto_Categoria stored)
               (match UpdateProdutoRequest_Ativo req with
                | Some b => b
                | None => Produto_Ativo stored
                end)
               None
    /\ resp = produtoServiceImpl_toResponse row
    /\ db' = set_produtos (<[id := row]> (produtos db)) db.
Proof.
  intros Hid. unfold produtoServiceImpl_Update.
  destruct (validate_Struct _) as [e|] eqn:Ev; [discriminate|].
  assert (Hv : validate_UpdateProdutoRequest req = []).
  { unfold validate_Struct in Ev.
    destruct (validate_UpdateProdutoRequest req); [reflexivity|discriminate]. }
  rewrite (validate_UpdateProdutoRequest_Estoque req Hv).
  unfold produtoRepositorySQLite_FindByID.
  destruct (First_Produto db id) as [produto|] eqn:Ef; [|discriminate].
  pose proof Ef as Ef'. unfold First_Produto in Ef'.
  apply First_Some in Ef' as (stored & Hstored & Hlive & ->).
  cbn [Produto_ID Produto_Nome Produto_Descricao Produto_Preco Produto_Estoque Produto_SKU
       Produto_Categoria Produto_Ativo Produto_DeletedAt Produto_with_ID].
  rewrite Hlive.
  pose (written := fun sku =>
          mkProduto id
            (if nonempty (UpdateProdutoRequest_Nome req)
             then UpdateProdutoRequest_Nome req else Produto_Nome stored)
            (if nonempty (UpdateProdutoRequest_Descricao req)
             then UpdateProdutoRequest_Descricao req else Produto_Descricao stored)
            (if (0 <? UpdateProdutoRequest_Preco req)%float
             then UpdateProdutoRequest_Preco req else Produto_Preco stored)
            (UpdateProdutoRequest_Estoque req) sku
            (if nonempty (UpdateProdutoRequest_Categoria req)
             then UpdateProdutoRequest_Categoria req else Produto_Categoria stored)
            (match UpdateProdutoRequest_Ativo req with
             | Some b => b
             | None => Produto_Ativo stored
             end)
            None).
  assert (Hsave : forall sku,
             exists r,
               produtoRepositorySQLite_Update (written sku) db = r
               /\ (snd (fst r) = None ->
                   r = (written sku, None,
                        set_produtos (<[id := written sku]> (produtos db)) db))).
  { intros sku. eexists. split; [reflexivity|]. unfold written.
    unfold produtoRepositorySQLite_Update, Save_Produto. cbn [Produto_ID Produto_SKU].
    apply N.eqb_neq in Hid. rewrite Hid.
    destruct (sku_taken _ _ _); [discriminate|].
    rewrite Ef. cbn [N.eqb]. reflexivity. }
  unfold written in Hsave. clear written.
  destruct (nonempty (UpdateProdutoRequest_SKU req)) eqn:Hsku.
  - unfold produtoRepositorySQLite_FindBySKU.
    destruct (first_where _ _) as [existente|].
    + destruct (negb _); [discriminate|].
      destruct (Hsave (UpdateProdutoRequest_SKU req)) as (r & -> & Hr).
      destruct r as [[row [e|]] db'']; [discriminate|].
      specialize (Hr eq_refl). injection Hr as -> ->.
      intros [= <- <-]. exists stored. eexists.
      repeat (split; [first [eassumption|reflexivity]|]). reflexivity.
    + destruct (Hsave (UpdateProdutoRequest_SKU req)) as (r & -> & Hr).
      destruct r as [[row [e|]] db'']; [discriminate|].
      specialize (Hr eq_refl). injection Hr as -> ->.
      intros [= <- <-]. exists stored. eexists.
      repeat (split; [first [eassumption|reflexivity]|]). reflexivity.
  - destruct (Hsave (Produto_SKU stored)) as (r & -> & Hr).
    destruct r as [[row [e|]] db'']; [discriminate|].
    specialize (Hr eq_refl). injection Hr as -> ->.
    intros [= <- <-]. exists stored. eexists.
    repeat (split; [first [eassumption|reflexivity]|]). reflexivity.
Qed.

Lemma count_live_insert_live {A : Type} (deleted_at : A -> option Z)
  (t : gmap N A) (k : N) (old row : A) :
  t !! k = Some old -> deleted_at old = None -> deleted_at row = None ->
  count_live deleted_at (<[k := row]> t) = count_live deleted_at t.
Proof.
  intros Hk Hold Hrow. unfold count_live.
  rewrite map_filter_insert_True by exact Hrow.
  rewrite map_size_insert_Some; [reflexivity|].
  exists old. apply map_lookup_filter_Some. split; [exact Hk|exact Hold].
Qed.

(** X15.  A successful [Update] of a product (id not zero) always writes
    the stock of the request, so that a request that leaves it out sets it
    to zero; a name, description, SKU or category that the request leaves
    empty, a price that is not positive and an active flag that is absent
    keep the stored value.  [FindByID] then returns the response, every
    other product reads as before and the count is unchanged. *)
Theorem produto_Update_result id req db resp db' :
  id <> 0%N ->
  produtoServiceImpl_Update id req db = (Ok resp, db') ->
  exists old,
    produtoServiceImpl_FindByID id db = Ok old
    /\ ProdutoResponse_ID resp = id
    /\ ProdutoResponse_Estoque resp = UpdateProdutoRequest_Estoque req
    /\ ProdutoResponse_Nome resp =
       (if String.eqb (UpdateProdutoRequest_Nome req) "" then ProdutoResponse_Nome old
        else UpdateProdutoRequest_Nome req)
    /\ ProdutoResponse_Descricao resp =
       (if String.eqb (UpdateProdutoRequest_Descricao req) "" then ProdutoResponse_Descricao old
        else UpdateProdutoRequest_Descricao req)
    /\ ProdutoResponse_Preco resp =
       (if (0 <? UpdateProdutoRequest_Preco req)%float then UpdateProdutoRequest_Preco req
        else ProdutoResponse_Preco old)
    /\ ProdutoResponse_SKU resp =
       (if String.eqb (UpdateProdutoRequest_SKU req) "" then ProdutoResponse_SKU old
        else UpdateProdutoRequest_SKU req)
    /\ ProdutoResponse_Categoria resp =
       (if String.eqb (UpdateProdutoRequest_Categoria req) "" then ProdutoResponse_Categoria old
        else UpdateProdutoRequest_Categoria req)
    /\ ProdutoResponse_Ativo resp =
       default (ProdutoResponse_Ativo old) (UpdateProdutoRequest_Ativo req)
    /\ produtoServiceImpl_FindByID id db' = Ok resp
    /\ (forall other, other <> id ->
          produtoServiceImpl_FindByID other db' = produtoServiceImpl_FindByID other db)
    /\ fst (produtoServiceImpl_Count db') = fst (produtoServiceImpl_Count db).
Proof.
  intros Hid H.
  destruct (produtoServiceImpl_Update_inversion id req db resp db' Hid H)
    as (stored & row & Hstored & Hlive & _ & Hrow & -> & ->).
  exists (produtoServiceImpl_toResponse (Produto_with_ID id stored)).
  split.
  { unfold produtoServiceImpl_FindByID, produtoRepositorySQLite_FindByID, First_Produto, First.
    rewrite Hstored, Hlive. reflexivity. }
  rewrite Hrow. unfold nonempty.
  cbn [produtoServiceImpl_toResponse ProdutoResponse_ID ProdutoResponse_Nome
       ProdutoResponse_Descricao ProdutoResponse_Preco ProdutoResponse_Estoque
       ProdutoResponse_SKU ProdutoResponse_Categoria ProdutoResponse_Ativo
       Produto_ID Produto_Nome Produto_Descricao Produto_Preco Produto_Estoque Produto_SKU
       Produto_Categoria Produto_Ativo Produto_with_ID].
  split; [reflexivity|]. split; [reflexivity|].
  split; [destruct (String.eqb _ _); reflexivity|].
  split; [destruct (String.eqb _ _); reflexivity|].
  split; [reflexivity|].
  split; [destruct (String.eqb _ _); reflexivity|].
  split; [destruct (String.eqb _ _); reflexivity|].
  split; [destruct (UpdateProdutoRequest_Ativo req); reflexivity|].
  split; [|split].
  - unfold produtoServiceImpl_FindByID, produtoRepositorySQLite_FindByID, First_Produto.
    cbn [produtos set_produtos]. rewrite First_insert by reflexivity. reflexivity.
  - intros other Hother.
    unfold produtoServiceImpl_FindByID, produtoRepositorySQLite_FindByID, First_Produto, First.
    cbn [produtos set_produtos]. rewrite lookup_insert_ne by congruence. reflexivity.
  - unfold produtoServiceImpl_Count, produtoRepositorySQLite_Count.
    cbn [fst produtos set_produtos].
    apply (count_live_insert_live Produto_DeletedAt _ _ stored); [exact Hstored|exact Hlive|].
    reflexivity.
Qed.

Lemma produto_Update_result_witness :
  exists resp,
    fst (produtoServiceImpl_Update 1 (mkUpdateProdutoRequest "" "" 0x1p+6 0 "" "" None) loja)
    = Ok resp
    /\ ProdutoResponse_Estoque resp = 0
    /\ ProdutoResponse_Nome resp = "Notebook".
Proof.
  destruct (produtoServiceImpl_Update 1 (mkUpdateProdutoRequest "" "" 0x1p+6 0 "" "" None) loja)
    as [r db'] eqn:E.
  destruct r as [resp| |]; [|vm_compute in E; discriminate E|vm_compute in E; discriminate E].
  assert (Hid : 1%N <> 0%N) by discriminate.
  destruct (produto_Update_result 1 _ loja resp db' Hid E)
    as (old & Hold & _ & He & Hn & _).
  exists resp. split; [reflexivity|]. split; [exact He|].
  rewrite Hn. vm_compute in Hold. injection Hold as <-. reflexivity.
Defined.

Lemma produtoServiceImpl_Delete_inversion now id db e db' :
  produtoServiceImpl_Delete now id db = (e, db') ->
  First_Produto db id = None /\ e = Some (errors_New "produto not found") /\ db' = db
  \/ exists row,
       produtos db !! id = Some row /\ Produto_DeletedAt row = None
       /\ e = None
       /\ db' = set_produtos (<[id := Produto_deleted now row]> (produtos db)) db.
Proof.
  unfold produtoServiceImpl_Delete, produtoRepositorySQLite_FindByID,
    produtoRepositorySQLite_Delete, soft_delete, First_Produto, First.
  destruct (produtos db !! id) as [row|] eqn:E.
  - destruct (Produto_DeletedAt row) as [t|] eqn:Ed; cbn [is_null N.eqb].
    + intros [= <- <-]. left. split; [reflexivity|]. split; reflexivity.
    + intros [= <- <-]. right. exists row.
      split; [reflexivity|]. split; [exact Ed|]. split; reflexivity.
  - intros [= <- <-]. left. split; [reflexivity|]. split; reflexivity.
Qed.

Lemma Create_Ok_lines_pass now req db resp db' :
  pedidoServiceImpl_Create now req db = (Ok resp, db') ->
  Forall (fun l => line_passes db l = true) (request_lines req).
Proof.
  intros E.
  destruct (Create_outcome now req db)
    as [[Hv H]|[(Hv & pre & l & post & Hlines & Hpre & Hl & H)|(Hv & Hall & H)]].
  - rewrite H in E. discriminate.
  - rewrite H in E. discriminate.
  - exact Hall.
Qed.

(** X16.  After a successful [Delete] of a product, [FindByID] of it fails
    with the product-not-found error, a further [Delete] fails with that
    error and writes nothing, the count is one less and every other
    product reads as before. *)
Theorem produto_Delete_then_gone now id db db' :
  produtoServiceImpl_Delete now id db = (None, db') ->
  produtoServiceImpl_FindByID id db' = Err (errors_New "produto not found")
  /\ (forall later,
        produtoServiceImpl_Delete later id db' = (Some (errors_New "produto not found"), db'))
  /\ fst (produtoServiceImpl_Count db') = fst (produtoServiceImpl_Count db) - 1
  /\ forall other, other <> id ->
       produtoServiceImpl_FindByID other db' = produtoServiceImpl_FindByID other db.
Proof.
  intros H.
  destruct (produtoServiceImpl_Delete_inversion _ _ _ _ _ H)
    as [(_ & [=] & _)|(row & Hrow & Hlive & _ & ->)].
  assert (Hgone : First_Produto
                    (set_produtos (<[id := Produto_deleted now row]> (produtos db)) db) id
                  = None).
  { unfold First_Produto, First. cbn [produtos set_produtos].
    rewrite lookup_insert_eq. reflexivity. }
  split; [|split; [|split]].
  - unfold produtoServiceImpl_FindByID, produtoRepositorySQLite_FindByID.
    rewrite Hgone. reflexivity.
  - intros later. unfold produtoServiceImpl_Delete, produtoRepositorySQLite_FindByID.
    rewrite Hgone. reflexivity.
  - unfold produtoServiceImpl_Count, produtoRepositorySQLite_Count.
    cbn [fst produtos set_produtos].
    apply count_live_soft_delete; [exact Hrow|exact Hlive|discriminate].
  - intros other Hother.
    unfold produtoServiceImpl_FindByID, produtoRepositorySQLite_FindByID, First_Produto, First.
    cbn [produtos set_produtos]. rewrite lookup_insert_ne by congruence. reflexivity.
Qed.

Lemma produto_Delete_then_gone_witness :
  produtoServiceImpl_FindByID 2 (snd (produtoServiceImpl_Delete 1700000500 2 loja_com_pedido))
  = Err (errors_New "produto not found")
  /\ fst (produtoServiceImpl_Count (snd (produtoServiceImpl_Delete 1700000500 2 loja_com_pedido)))
     = fst (produtoServiceImpl_Count loja_com_pedido) - 1.
Proof.
  destruct (produto_Delete_then_gone 1700000500 2 loja_com_pedido
              (snd (produtoServiceImpl_Delete 1700000500 2 loja_com_pedido)))
    as (Hgone & _ & Hcount & _).
  - vm_compute. reflexivity.
  - split; [exact Hgone|exact Hcount].
Defined.

(** X17.  [Delete] of a product and the orders: the orders keep their
    lines, every order reading with the same lines, quantities, unit
    prices and subtotals as before; a line of the deleted product comes
    back without the product attached; and no new order with a line of
    that product is accepted. *)
Theorem produto_Delete_and_orders now id db db' :
  produtoServiceImpl_Delete now id db = (None, db') ->
  (forall pedido_id,
     map PedidoProduto_columns (preload_Itens db' pedido_id)
     = map PedidoProduto_columns (preload_Itens db pedido_id))
  /\ (forall pedido_id item,
        item ∈ preload_Itens db' pedido_id -> PedidoProduto_ProdutoID item = id ->
        ItemPedidoResponse_Produto (item_toResponse item) = None)
  /\ (forall later req l resp db'',
        In l (request_lines req) -> CreateItemPedidoRequest_ProdutoID l = id ->
        pedidoServiceImpl_Create later req db' <> (Ok resp, db'')).
Proof.
  intros H.
  destruct (produtoServiceImpl_Delete_inversion _ _ _ _ _ H)
    as [(_ & [=] & _)|(row & Hrow & Hlive & _ & ->)].
  assert (Hgone : First_Produto
                    (set_produtos (<[id := Produto_deleted now row]> (produtos db)) db) id
                  = None).
  { unfold First_Produto, First. cbn [produtos set_produtos].
    rewrite lookup_insert_eq. reflexivity. }
  split; [|split].
  - intros pedido_id. unfold preload_Itens. cbn [pedido_produtos set_produtos].
    rewrite !map_map. apply map_ext. intros pp. reflexivity.
  - intros pedido_id item Hitem Hp. unfold preload_Itens in Hitem.
    apply list_elem_of_fmap in Hitem as (pp & -> & _).
    unfold preload_Produto in *. cbn [PedidoProduto_ProdutoID PedidoProduto_with_Produto] in Hp.
    rewrite Hp, Hgone. reflexivity.
  - intros later req l resp db'' Hin Hl E.
    pose proof (Create_Ok_lines_pass _ _ _ _ _ E) as Hall.
    rewrite Forall_forall in Hall. apply list_elem_of_In in Hin. specialize (Hall l Hin).
    unfold line_passes, line_product in Hall. rewrite Hl, Hgone in Hall. discriminate.
Qed.

Lemma produto_Delete_and_orders_witness :
  map PedidoProduto_columns
    (preload_Itens (snd (produtoServiceImpl_Delete 1700000500 2 loja_com_pedido)) 1)
  = map PedidoProduto_columns (preload_Itens loja_com_pedido 1)
  /\ fst (pedidoServiceImpl_Create 1700000600 pedido_joao
            (snd (produtoServiceImpl_Delete 1700000500 2 loja_com_pedido)))
     = Err (produto_nao_encontrado 2).
Proof.
  destruct (produto_Delete_and_orders 1700000500 2 loja_com_pedido
              (snd (produtoServiceImpl_Delete 1700000500 2 loja_com_pedido)))
    as (Hlines & _ & _).
  - vm_compute. reflexivity.
  - split; [apply Hlines|]. vm_compute. reflexivity.
Defined.

(** ** Products: listing *)

Lemma produtoRepositorySQLite_FindAll_elem db p :
  p ∈ fst (produtoRepositorySQLite_FindAll db) <->
  exists id, produtoRepositorySQLite_FindByID id db = (Some p, None).
Proof.
  unfold produtoRepositorySQLite_FindAll, produtoRepositorySQLite_FindByID. cbn [fst].
  rewrite live_rows_elem. unfold First_Produto. split.
  - intros (k & Hk). exists k. rewrite Hk. reflexivity.
  - intros (k & Hk). exists k.
    destruct (First Produto_DeletedAt Produto_with_ID (produtos db) k); congruence.
Qed.

(** X18.  Listing products.  [FindAll] returns exactly the products
    [FindByID] finds under some id; [FindByCategoria] returns exactly those
    of them whose category is the one asked for, compared as a whole; and
    [Count] is the number of products [FindAll] returns. *)
Theorem produto_listings db :
  (forall resp,
     (exists l, produtoServiceImpl_FindAll db = Ok l /\ resp ∈ l)
     <-> exists id, produtoServiceImpl_FindByID id db = Ok resp)
  /\ (forall categoria p,
        p ∈ fst (produtoRepositorySQLite_FindByCategoria categoria db) <->
        p ∈ fst (produtoRepositorySQLite_FindAll db) /\ Produto_Categoria p = categoria)
  /\ (exists l, produtoServiceImpl_FindAll db = Ok l
                /\ fst (produtoServiceImpl_Count db) = Z.of_nat (length l)).
Proof.
  split; [|split].
  - intros resp. unfold produtoServiceImpl_FindAll, produtoServiceImpl_FindByID.
    split.
    + intros (l & Hl & Hin).
      destruct (produtoRepositorySQLite_FindAll db) as [ps err] eqn:E.
      assert (err = None) by (unfold produtoRepositorySQLite_FindAll in E; congruence).
      subst err. injection Hl as <-.
      apply list_elem_of_fmap in Hin as (p & -> & Hp).
      assert (Hp' : p ∈ fst (produtoRepositorySQLite_FindAll db)) by (rewrite E; exact Hp).
      apply produtoRepositorySQLite_FindAll_elem in Hp' as (id & Hid).
      exists id. rewrite Hid. reflexivity.
    + intros (id & Hid).
      destruct (produtoRepositorySQLite_FindByID id db) as [[p|] [e|]] eqn:E;
        try discriminate.
      injection Hid as <-.
      assert (Hp : p ∈ fst (produtoRepositorySQLite_FindAll db))
        by (apply produtoRepositorySQLite_FindAll_elem; eauto).
      unfold produtoRepositorySQLite_FindAll in *. cbn [fst] in Hp.
      eexists. split; [reflexivity|]. apply list_elem_of_fmap. eauto.
  - intros categoria p.
    unfold produtoRepositorySQLite_FindByCategoria, produtoRepositorySQLite_FindAll.
    cbn [fst]. rewrite list_elem_of_In, filter_In, <- list_elem_of_In, String.eqb_eq.
    reflexivity.
  - unfold produtoServiceImpl_FindAll, produtoRepositorySQLite_FindAll,
      produtoServiceImpl_Count, produtoRepositorySQLite_Count.
    eexists. split; [reflexivity|]. cbn [fst].
    rewrite length_map. symmetry. apply live_rows_length.
Qed.

(** ** Orders: [Create] and the stock *)

Lemma line_passes_frame db db' l :
  produtos db' = produtos db -> line_passes db' l = line_passes db l.
Proof.
  intros H. unfold line_passes, line_product, First_Produto. rewrite H. reflexivity.
Qed.

(** X19.  [Create] reserves nothing: after an order is accepted the
    products, their stock included, are as they were, so the same request
    is accepted again, whatever quantity is left. *)
Theorem Create_reserves_no_stock now req db resp db' :
  pedidoServiceImpl_Create now req db = (Ok resp, db') ->
  produtos db' = produtos db
  /\ forall later, exists resp' db'',
       pedidoServiceImpl_Create later req db' = (Ok resp', db'').
Proof.
  intros E.
  assert (Hp : produtos db' = produtos db /\ clientes db' = clientes db).
  { destruct (Create_inversion _ _ _ _ _ E)
      as [(e & [=] & _)|[([=] & _)|(itens & v & saved & rows & _ & _ & _ & _ & -> & _)]].
    split; reflexivity. }
  destruct Hp as [Hp Hc]. split; [exact Hp|]. intros later.
  destruct (Create_outcome now req db)
    as [[Hv H]|[(Hv & pre & l & post & Hlines & Hpre & Hl & H)|(Hv & Hall & H)]];
    [rewrite H in E; discriminate|rewrite H in E; discriminate|].
  destruct (First_Cliente db (CreatePedidoRequest_ClienteID req)) as [cliente|] eqn:Ec.
  2: { destruct H as (db'' & H). rewrite H in E. discriminate. }
  destruct (Create_outcome later req db')
    as [[Hv' _]|[(_ & pre & l & post & Hlines & _ & Hl & _)|(_ & _ & H')]].
  - contradiction.
  - rewrite Hlines in Hall. apply Forall_app in Hall as [_ Hall].
    inversion Hall as [|? ? Hl' _]; subst.
    rewrite (line_passes_frame db db' l Hp) in Hl. congruence.
  - unfold First_Cliente in H', Ec. rewrite Hc, Ec in H'. exact H'.
Qed.

Lemma Create_reserves_no_stock_witness :
  exists resp' db'',
    pedidoServiceImpl_Create 200 (mkCreatePedidoRequest 1 (Some [mkCreateItemPedidoRequest 2 5]) "")
      (snd (pedidoServiceImpl_Create 100
              (mkCreatePedidoRequest 1 (Some [mkCreateItemPedidoRequest 2 5]) "") loja))
    = (Ok resp', db'').
Proof.
  destruct (pedidoServiceImpl_Create 100
              (mkCreatePedidoRequest 1 (Some [mkCreateItemPedidoRequest 2 5]) "") loja)
    as [r db'] eqn:E.
  destruct r as [resp| |]; [|vm_compute in E; discriminate E|vm_compute in E; discriminate E].
  destruct (Create_reserves_no_stock 100 _ loja resp db' E) as (_ & H).
  exact (H 200).
Defined.

Lemma validate_CreatePedidoRequest_ClienteID req :
  validate_CreatePedidoRequest req = [] -> CreatePedidoRequest_ClienteID req <> 0%N.
Proof.
  unfold validate_CreatePedidoRequest. intros H. apply app_eq_nil in H as [H _].
  cbn [first_failure] in H. intros Hz. rewrite Hz in H. discriminate.
Qed.

(** X20.  What a successful [Create] answers: the id is not zero and is a
    key no order, deleted or not, had; the customer is the one the id of
    the request resolves to; the date is the reading of the clock; and the
    status is the one of the request, or pending when the request gives
    none, in both cases a status of the vocabulary. *)
Theorem Create_response now req db resp db' :
  pedidoServiceImpl_Create now req db = (Ok resp, db') ->
  pedidos db !! PedidoResponse_ID resp = None
  /\ PedidoResponse_ID resp <> 0%N
  /\ PedidoResponse_ClienteID resp = CreatePedidoRequest_ClienteID req
  /\ (exists cliente,
        First_Cliente db (CreatePedidoRequest_ClienteID req) = Some cliente
        /\ PedidoResponse_Cliente resp = Some (Cliente_toResponse cliente))
  /\ PedidoResponse_DataPedido resp = now
  /\ PedidoResponse_Status resp
     = (if String.eqb (CreatePedidoRequest_Status req) "" then "pendente"
        else CreatePedidoRequest_Status req)
  /\ oneof status_vocabulary (PedidoResponse_Status resp) = true.
Proof.
  intros E.
  destruct (Create_inversion _ _ _ _ _ E)
    as [(e & [=] & _)|[([=] & _)|(itens & v & saved & rows & _ & Hv & Hf & -> & _ & _ & Hr)]].
  destruct (First_Cliente db (CreatePedidoRequest_ClienteID req)) as [cliente|] eqn:Ec;
    [|discriminate].
  injection Hr as ->.
  cbn [pedidoServiceImpl_toResponse PedidoResponse_ID PedidoResponse_ClienteID
       PedidoResponse_Cliente PedidoResponse_DataPedido PedidoResponse_Status
       Pedido_with_relations Pedido_with_ID Pedido_ID Pedido_ClienteID Pedido_Cliente
       Pedido_Status Pedido_DataPedido].
  split; [exact Hf|]. split; [unfold next_id; lia|]. split; [reflexivity|].
  split; [|split; [reflexivity|split; [reflexivity|]]].
  - exists cliente. split; [reflexivity|].
    unfold First_Cliente in Ec. apply First_Some in Ec as (stored & _ & _ & ->).
    cbn [Cliente_ID Cliente_with_ID].
    pose proof (validate_CreatePedidoRequest_ClienteID req Hv) as Hc.
    apply N.eqb_neq in Hc. rewrite Hc. reflexivity.
  - apply oneof_default_status, validate_CreatePedidoRequest_status, Hv.
Qed.

Lemma Create_response_witness :
  exists resp,
    fst (pedidoServiceImpl_Create 100 pedido_joao loja) = Ok resp
    /\ PedidoResponse_Status resp = "pendente"
    /\ PedidoResponse_DataPedido resp = 100.
Proof.
  destruct (pedidoServiceImpl_Create 100 pedido_joao loja) as [r db'] eqn:E.
  destruct r as [resp| |]; [|vm_compute in E; discriminate E|vm_compute in E; discriminate E].
  destruct (Create_response 100 pedido_joao loja resp db' E)
    as (_ & _ & _ & _ & Hd & Hs & _).
  exists resp. split; [reflexivity|]. split; [exact Hs|exact Hd].
Defined.

(** ** Orders: reading back after [UpdateStatus] *)






(** ** Customers: [Delete] and the orders *)

Lemma clienteServiceImpl_Delete_inversion now id db e db' :
  clienteServiceImpl_Delete now id db = (e, db') ->
  First_Cliente db id = None
  /\ e = Some (plain (errors_New "cliente not found")) /\ db' = db
  \/ exists row,
       clientes db !! id = Some row /\ Cliente_DeletedAt row = None
       /\ e = None
       /\ db' = set_clientes (<[id := Cliente_deleted now row]> (clientes db)) db.
Proof.
  unfold clienteServiceImpl_Delete, clienteRepositorySQLite_Delete, soft_delete,
    First_Cliente, First.
  destruct (clientes db !! id) as [row|] eqn:E.
  - destruct (Cliente_DeletedAt row) as [t|] eqn:Ed; cbn [is_null N.eqb].
    + intros [= <- <-]. left. split; [reflexivity|]. split; reflexivity.
    + intros [= <- <-]. right. exists row.
      split; [reflexivity|]. split; [exact Ed|]. split; reflexivity.
  - intros [= <- <-]. left. split; [reflexivity|]. split; reflexivity.
Qed.

(** X22.  After a successful [Delete] of a customer, [FindByID] of it
    fails with the customer-not-found error, a further [Delete] fails with
    that error and writes nothing, and the count is one less.  An id that
    does not resolve is refused with the same error, nothing written. *)
Theorem cliente_Delete_then_gone now id db e db' :
  clienteServiceImpl_Delete now id db = (e, db') ->
  match e with
  | None =>
    clienteServiceImpl_FindByID id db' = (None, Some (plain (errors_New "cliente not found")))
    /\ (forall later,
          clienteServiceImpl_Delete later id db'
          = (Some (plain (errors_New "cliente not found")), db'))
    /\ fst (clienteServiceImpl_Count db') = fst (clienteServiceImpl_Count db) - 1
  | Some err =>
    err = plain (errors_New "cliente not found") /\ db' = db
    /\ customer_resolves db id = false
  end.
Proof.
  intros H.
  destruct (clienteServiceImpl_Delete_inversion _ _ _ _ _ H)
    as [(Hnone & -> & ->)|(row & Hrow & Hlive & -> & ->)].
  - split; [reflexivity|]. split; [reflexivity|].
    unfold customer_resolves. rewrite Hnone. reflexivity.
  - assert (Hgone : First_Cliente
                      (set_clientes (<[id := Cliente_deleted now row]> (clientes db)) db) id
                    = None).
    { unfold First_Cliente, First. cbn [clientes set_clientes].
      rewrite lookup_insert_eq. reflexivity. }
    split; [|split].
    + unfold clienteServiceImpl_FindByID. rewrite clienteRepositorySQLite_FindByID_nil_error.
      rewrite Hgone. reflexivity.
    + intros later.
      unfold clienteServiceImpl_Delete, clienteRepositorySQLite_Delete, soft_delete.
      cbn [clientes set_clientes]. rewrite lookup_insert_eq. reflexivity.
    + unfold clienteServiceImpl_Count, clienteRepositorySQLite_Count.
      cbn [fst clientes set_clientes].
      apply count_live_soft_delete; [exact Hrow|exact Hlive|discriminate].
Qed.

Lemma cliente_Delete_then_gone_witness :
  clienteServiceImpl_FindByID 1 (snd (clienteServiceImpl_Delete 1700000500 1 loja_com_pedido))
  = (None, Some (plain (errors_New "cliente not found")))
  /\ fst (clienteServiceImpl_Count (snd (clienteServiceImpl_Delete 1700000500 1 loja_com_pedido)))
     = fst (clienteServiceImpl_Count loja_com_pedido) - 1.
Proof.
  pose proof (cliente_Delete_then_gone 1700000500 1 loja_com_pedido None
                (snd (clienteServiceImpl_Delete 1700000500 1 loja_com_pedido))) as H.
  cbv beta iota in H. destruct H as (Hgone & _ & Hcount).
  - vm_compute. reflexivity.
  - split; [exact Hgone|exact Hcount].
Defined.

(** X23.  [Delete] of a customer and the orders: no order is deleted or
    changed; every order that was found is still found, with the same
    lines, total, status and customer id, but an order of the deleted
    customer now comes back without the customer attached; and no new
    order for that customer is answered with a response. *)
Theorem cliente_Delete_and_orders now id db db' :
  clienteServiceImpl_Delete now id db = (None, db') ->
  pedidos db' = pedidos db /\ pedido_produtos db' = pedido_produtos db
  /\ (forall pedido_id resp,
        pedidoServiceImpl_FindByID pedido_id db = Ok resp ->
        exists resp',
          pedidoServiceImpl_FindByID pedido_id db' = Ok resp'
          /\ PedidoResponse_ID resp' = PedidoResponse_ID resp
          /\ PedidoResponse_ClienteID resp' = PedidoResponse_ClienteID resp
          /\ PedidoResponse_Itens resp' = PedidoResponse_Itens resp
          /\ PedidoResponse_ValorTotal resp' = PedidoResponse_ValorTotal resp
          /\ PedidoResponse_Status resp' = PedidoResponse_Status resp
          /\ PedidoResponse_Cliente resp'
             = (if (PedidoResponse_ClienteID resp =? id)%N then None
                else PedidoResponse_Cliente resp))
  /\ (forall later req resp db'',
        CreatePedidoRequest_ClienteID req = id ->
        pedidoServiceImpl_Create later req db' <> (Ok resp, db'')).
Proof.
  intros H.
  destruct (clienteServiceImpl_Delete_inversion _ _ _ _ _ H)
    as [(_ & [=] & _)|(row & Hrow & Hlive & _ & ->)].
  assert (Hgone : First_Cliente
                    (set_clientes (<[id := Cliente_deleted now row]> (clientes db)) db) id
                  = None).
  { unfold First_Cliente, First. cbn [clientes set_clientes].
    rewrite lookup_insert_eq. reflexivity. }
  assert (Hother : forall k, k <> id ->
             First_Cliente
               (set_clientes (<[id := Cliente_deleted now row]> (clientes db)) db) k
             = First_Cliente db k).
  { intros k Hk. unfold First_Cliente, First. cbn [clientes set_clientes].
    rewrite lookup_insert_ne by congruence. reflexivity. }
  split; [reflexivity|]. split; [reflexivity|]. split.
  - intros pedido_id resp.
    unfold pedidoServiceImpl_FindByID, pedidoRepositorySQLite_FindByID, First_Pedido.
    cbn [pedidos set_clientes].
    destruct (First Pedido_DeletedAt Pedido_with_ID (pedidos db) pedido_id) as [p|];
      [|discriminate].
    intros [= <-]. eexists. split; [reflexivity|].
    cbn [pedidoServiceImpl_toResponse PedidoResponse_ID PedidoResponse_ClienteID
         PedidoResponse_Itens PedidoResponse_ValorTotal PedidoResponse_Status
         PedidoResponse_Cliente Pedido_with_relations Pedido_ID Pedido_ClienteID
         Pedido_Itens Pedido_ValorTotal Pedido_Status Pedido_Cliente].
    repeat (split; [reflexivity|]).
    unfold preload_Cliente.
    destruct (Pedido_ClienteID p =? id)%N eqn:Ec.
    + apply N.eqb_eq in Ec. rewrite Ec, Hgone. reflexivity.
    + apply N.eqb_neq in Ec. rewrite (Hother _ Ec). reflexivity.
  - intros later req resp db'' Hc E.
    destruct (Create_inversion _ _ _ _ _ E)
      as [(e & [=] & _)|[([=] & _)|(itens & v & saved & rows & _ & _ & _ & _ & _ & _ & Hr)]].
    rewrite Hc, Hgone in Hr. discriminate.
Qed.

Lemma cliente_Delete_and_orders_witness :
  exists resp',
    pedidoServiceImpl_FindByID 1 (snd (clienteServiceImpl_Delete 1700000500 1 loja_com_pedido))
    = Ok resp'
    /\ PedidoResponse_Cliente resp' = None
    /\ PedidoResponse_ClienteID resp' = 1%N.
Proof.
  destruct (cliente_Delete_and_orders 1700000500 1 loja_com_pedido
              (snd (clienteServiceImpl_Delete 1700000500 1 loja_com_pedido)))
    as (_ & _ & Hread & _).
  - vm_compute. reflexivity.
  - destruct (pedidoServiceImpl_FindByID 1 loja_com_pedido) as [resp| |] eqn:E;
      [|vm_compute in E; discriminate E|vm_compute in E; discriminate E].
    destruct (Hread 1%N resp E) as (resp' & Hf & _ & Hcid & _ & _ & _ & Hc).
    assert (Hid : PedidoResponse_ClienteID resp = 1%N).
    { vm_compute in E. injection E as <-. reflexivity. }
    exists resp'. split; [exact Hf|]. rewrite Hc, Hcid, Hid. split; reflexivity.
Defined.
